(** * The arbitrage cost/profit model of the Aptos arbitrage agents

    A shallow embedding of the deterministic core of
    [agents/simple/arbitrage_detector_agent.py] and
    [agents/simple/investment_optimizer_agent.py], of the cache of
    [agents/simple/base.py], of the price, fee and analysis tools of
    [agents/tools/calculation_tools.py], and of the requests that
    [app.py] builds for the profitability evaluator.

    Conventions of the embedding.
    - Python numbers are exact rationals ([Q]); binary floating-point
      rounding is not modelled, only the explicit [round(x, 4)] calls are.
      Results are therefore compared with [==] ([Qeq]).
    - A dict whose iteration order the code relies on is an association
      list in insertion order; the fixed three-key price dict is a record.
    - A Python [set] of strings is a [gset string].
    - [try: ... except Exception as e: return {"status": "error", ...}] is an
      exception monad run by a handler that produces an error response.
    - Clock-dependent fields ([timestamp], [gas_source]) and the side effects
      [print] and [cache_result] do not influence any returned number and are
      left out of the result records.
    - What the code reads from outside (the clock, the reply of the gas
      price service) is a parameter of the function that reads it. *)

From Stdlib Require Import QArith Qround Qabs Qminmax ZArith List String Ascii Bool.
From Stdlib Require Import Lia Lqa Permutation Sorted.
From stdpp Require Import base gmap strings.
Import ListNotations.

Local Open Scope Q_scope.

(** ** Python primitives used by both agents *)
Module Py.

(** Exceptions that the modelled code can raise. *)
Inductive exn : Type :=
| ZeroDivisionError
| IndexError
| KeyError.

(** Computations that either return or raise. *)
Inductive M (A : Type) : Type :=
| Ret (a : A)
| Raise (e : exn).
Arguments Ret {A} a.
Arguments Raise {A} e.

#[global] Instance M_ret : MRet M := @Ret.

#[global] Instance M_bind : MBind M := fun A B k m =>
  match m with
  | Ret a => k a
  | Raise e => Raise e
  end.

(** [x < y], [x > y] and [x <= y] on numbers. *)
Definition ltb (x y : Q) : bool := negb (Qle_bool y x).
Definition gtb (x y : Q) : bool := ltb y x.
Definition leb (x y : Q) : bool := Qle_bool x y.
Definition eqb (x y : Q) : bool := Qeq_bool x y.

(** [x / y]: raises [ZeroDivisionError] when [y == 0]. *)
Definition div (x y : Q) : M Q :=
  if eqb y 0 then Raise ZeroDivisionError else Ret (x / y).

(** [min(a, b)]: the first argument unless the second is smaller. *)
Definition min (a b : Q) : Q := if ltb b a then b else a.

(** [round(x, ndigits)]: to the nearest multiple of [10^-ndigits], ties
    to the even multiple. *)
Definition round (x : Q) (ndigits : nat) : Q :=
  let scale := inject_Z (10 ^ Z.of_nat ndigits) in
  let s := x * scale in
  let n := Qfloor s in
  let r := s - inject_Z n in
  let up :=
    if ltb r (1 # 2) then false
    else if ltb (1 # 2) r then true
    else Z.odd n in
  inject_Z (if up then n + 1 else n)%Z / scale.

(** [s.split(c)] for a one-character separator. *)
Fixpoint split (c : ascii) (s : string) : list string :=
  match s with
  | EmptyString => [EmptyString]
  | String a rest =>
      if Ascii.eqb a c then EmptyString :: split c rest
      else match split c rest with
           | [] => [String a EmptyString]
           | h :: t => String a h :: t
           end
  end.

(** Dicts in insertion order. *)
Definition dict (V : Type) : Type := list (string * V).

Definition keys {V} (d : dict V) : list string := d.*1.
Definition values {V} (d : dict V) : list V := d.*2.

(** [d.get(k)] *)
Fixpoint get_opt {V} (d : dict V) (k : string) : option V :=
  match d with
  | [] => None
  | (k', v) :: d' => if String.eqb k' k then Some v else get_opt d' k
  end.

(** [d.get(k, default)] *)
Definition get {V} (d : dict V) (k : string) (default : V) : V :=
  match get_opt d k with
  | Some v => v
  | None => default
  end.

(** [k in d] *)
Definition mem {V} (d : dict V) (k : string) : bool :=
  match get_opt d k with
  | Some _ => true
  | None => false
  end.

(** Truthiness of a container: [if d:]. *)
Definition nonempty {A} (l : list A) : bool :=
  match l with
  | [] => false
  | _ :: _ => true
  end.

(** [d[k]] *)
Definition getitem {V} (d : dict V) (k : string) : M V :=
  match get_opt d k with
  | Some v => Ret v
  | None => Raise KeyError
  end.

(** [a or b] where [a] is [None] or a number and [b] is evaluated only
    when [a] is falsy ([None] or zero). *)
Definition or_else (a : option Q) (b : M Q) : M Q :=
  match a with
  | Some v => if eqb v 0 then b else Ret v
  | None => b
  end.

(** [l[0]] *)
Definition head {A} (l : list A) : M A :=
  match l with
  | [] => Raise IndexError
  | x :: _ => Ret x
  end.

(** [sum(l)] *)
Definition sum (l : list Q) : Q := fold_left Qplus l 0.

(** [l.sort(key=..., reverse=True)]: stable, descending by key.  An
    element is placed before the first later element whose key is not
    greater than its own, so equal keys keep their original order. *)
Section SortDesc.
Context {A : Type} (key : A -> Q).

Fixpoint insert_desc (x : A) (l : list A) : list A :=
  match l with
  | [] => [x]
  | y :: l' =>
      if ltb (key x) (key y) then y :: insert_desc x l'
      else x :: y :: l'
  end.

Definition sort_desc (l : list A) : list A :=
  fold_right insert_desc [] l.
End SortDesc.

(** [s.lower()] and [s.upper()], on ASCII letters. *)
Definition lower_ascii (c : ascii) : ascii :=
  let n := nat_of_ascii c in
  if Nat.leb 65 n && Nat.leb n 90 then ascii_of_nat (n + 32) else c.

Definition upper_ascii (c : ascii) : ascii :=
  let n := nat_of_ascii c in
  if Nat.leb 97 n && Nat.leb n 122 then ascii_of_nat (n - 32) else c.

Fixpoint lower (s : string) : string :=
  match s with
  | EmptyString => EmptyString
  | String c s' => String (lower_ascii c) (lower s')
  end.

Fixpoint upper (s : string) : string :=
  match s with
  | EmptyString => EmptyString
  | String c s' => String (upper_ascii c) (upper s')
  end.

(** [sub in s] for strings. *)
Fixpoint contains (sub s : string) : bool :=
  String.prefix sub s
  || match s with
     | EmptyString => false
     | String _ s' => contains sub s'
     end.

(** [sorted(list(set(l)))] for integers: the distinct elements in
    ascending order. *)
Fixpoint insert_unique (x : Z) (l : list Z) : list Z :=
  match l with
  | [] => [x]
  | y :: l' =>
      if (x <? y)%Z then x :: l
      else if (x =? y)%Z then l
      else y :: insert_unique x l'
  end.

Definition sorted_set (l : list Z) : list Z :=
  fold_right insert_unique [] l.

(** [max(x :: l, key=key)]: the first element whose key is greatest. *)
Fixpoint max_by {A : Type} (key : A -> Q) (x : A) (l : list A) : A :=
  match l with
  | [] => x
  | y :: l' =>
      if ltb (key x) (key y) then max_by key y l' else max_by key x l'
  end.

(** [max(l)] of a non-empty list of numbers. *)
Definition max_of (x : Q) (l : list Q) : Q := max_by (fun q => q) x l.

End Py.

(** Responses of the agents: the [status] field selects the shape. *)
Inductive response (E A : Type) : Type :=
| Success (a : A)
| StatusError (e : E).
Arguments Success {E A} a.
Arguments StatusError {E A} e.

(** The price dict [{"apt": ..., "usdc": ..., "usdt": ...}]; its key set is
    fixed ([_update_prices] only overwrites existing keys). *)
Record PriceSet : Type := mkPrices {
  apt : Q;
  usdc : Q;
  usdt : Q
}.

(** [current_prices.items()] in insertion order. *)
Definition price_items (p : PriceSet) : list (string * Q) :=
  [("apt"%string, apt p); ("usdc"%string, usdc p); ("usdt"%string, usdt p)].

Inductive RiskLevel : Type := LOW | MEDIUM | HIGH | VERY_HIGH.

Inductive Recommendation : Type := EXECUTE | SKIP.

(** [token in current_prices] *)
Definition has_price (token : string) : bool :=
  bool_decide (token ∈ ["apt"; "usdc"; "usdt"]%string).

(** [current_prices[token] = price], for a token of the dict. *)
Definition set_price (p : PriceSet) (token : string) (price : Q) : PriceSet :=
  if String.eqb token "apt" then mkPrices price (usdc p) (usdt p)
  else if String.eqb token "usdc" then mkPrices (apt p) price (usdt p)
  else if String.eqb token "usdt" then mkPrices (apt p) (usdc p) price
  else p.

(** The loop of [_update_prices], which both agents define alike: a given
    price replaces the current one when the lowercased token is a key of
    the price dict, and is skipped otherwise.  The prices arrive as
    numbers, on which [float] is the identity. *)
Definition update_prices (current : PriceSet) (prices : Py.dict Q) : PriceSet :=
  fold_left
    (fun cur (tp : string * Q) =>
       if has_price (Py.lower tp.1) then set_price cur (Py.lower tp.1) tp.2
       else cur)
    prices current.

(** ** [BaseAgent]: the last-result cache *)
Module BaseAgent.

(** The cache fields of an agent whose results have type [R], and the
    constant [cache_duration]. *)
Record cache (R : Type) : Type := mkCache {
  last_result : R;
  last_update : Q
}.
Arguments mkCache {R} _ _.
Arguments last_result {R} _.
Arguments last_update {R} _.

Definition cache_duration : Q := 30.0.

(** The cache left by [__init__]; [empty] stands for the empty dict. *)
Definition init {R : Type} (empty : R) : cache R := mkCache empty 0.

(** The methods read the clock; [now] is the value of [time.time()]. *)
Definition cache_result {R : Type} (c : cache R) (result : R) (now : Q) : cache R :=
  mkCache result now.

Definition is_cache_valid {R : Type} (c : cache R) (now : Q) : bool :=
  Py.ltb (now - last_update c) cache_duration.

Definition get_cached_result {R : Type} (c : cache R) (now : Q) : option R :=
  if is_cache_valid c now then Some (last_result c) else None.

Definition get_cache_age {R : Type} (c : cache R) (now : Q) : Q :=
  now - last_update c.

End BaseAgent.

(** ** [ArbitrageDetectorAgent] *)
Module ArbitrageDetectorAgent.

(** The instance fields read by the cost/profit model. *)
Record agent : Type := mkAgent {
  current_prices : PriceSet;
  _cached_gas_price : Z
}.

(** The state left by [__init__]. *)
Definition init : agent :=
  mkAgent (mkPrices 12.45 1.00 0.999) 100.

Definition default_dex_fees : Py.dict Q :=
  [("dex1"%string, 0.25); ("dex2"%string, 0.30); ("default"%string, 0.25)].

Definition gas_unit_costs : Py.dict Z :=
  [("swap"%string, 1000%Z); ("add_liquidity"%string, 2000%Z);
   ("remove_liquidity"%string, 2000%Z)].

(** The sentinel returned for an invalid price or an impossible route. *)
Definition SENTINEL : Q := -999.0.

Definition _calculate_gas_cost_apt (operation : string) (gas_unit_price : Z) : Q :=
  let gas_units := Py.get gas_unit_costs operation 1000%Z in
  let cost_octas := (gas_units * gas_unit_price)%Z in
  let cost_apt := inject_Z cost_octas / 100000000 in
  cost_apt.

Definition _is_round_trip_same_pair (from_pair to_pair : string) : bool :=
  let from_tokens : gset string := list_to_set (Py.split "_" from_pair) in
  let to_tokens : gset string := list_to_set (Py.split "_" to_pair) in
  bool_decide (from_tokens = to_tokens).

(** [dex in ["dex_a", "dex_b"]] *)
Definition is_generic_dex (dex : string) : bool :=
  bool_decide (dex ∈ ["dex_a"; "dex_b"]%string).

Definition dex_price_factors : Py.dict Q :=
  [("dex_a"%string, 1.000); ("dex_b"%string, 1.000);
   ("liquidswap"%string, 1.000); ("pancakeswap"%string, 1.002);
   ("thalaswap"%string, 0.998); ("hippo"%string, 1.001)].

(** The spread model.  Every caller passes both DEX names, so the default
    arguments of the method are not represented.  Each division is guarded
    in the code by a test of its divisor against zero, so [/] cannot raise
    here. *)
Definition _calculate_price_difference (self : agent)
    (from_pair to_pair from_dex to_dex : string) : Q :=
  if existsb (fun tp => Py.leb tp.2 0) (price_items (current_prices self))
  then SENTINEL
  else if is_generic_dex from_dex && is_generic_dex to_dex
          && _is_round_trip_same_pair from_pair to_pair
  then SENTINEL
  else
    let apt_price := apt (current_prices self) in
    let usdc_price := usdc (current_prices self) in
    let usdt_price := usdt (current_prices self) in
    let from_factor := Py.get dex_price_factors from_dex 1.0 in
    let to_factor := Py.get dex_price_factors to_dex 1.0 in
    let dex_spread := Qabs (from_factor - to_factor) * 100 in
    let dex_spread :=
      if is_generic_dex from_dex && is_generic_dex to_dex then 0.0
      else dex_spread in
    if String.eqb from_pair "usdc_apt" && String.eqb to_pair "usdt_apt" then
      let usdc_apt_rate :=
        if Py.gtb usdc_price 0 then apt_price / usdc_price else 0 in
      let usdt_apt_rate :=
        if Py.gtb usdt_price 0 then apt_price / usdt_price else 0 in
      if Py.eqb usdc_apt_rate 0 || Py.eqb usdt_apt_rate 0 then SENTINEL
      else
        let rate_diff :=
          Qabs (usdc_apt_rate - usdt_apt_rate) / usdc_apt_rate * 100 in
        let total_spread := 0.6 + (rate_diff * 0.1) + dex_spread in
        Py.min total_spread 3.0
    else if String.eqb from_pair "usdt_apt" && String.eqb to_pair "usdc_apt" then
      let usdt_apt_rate :=
        if Py.gtb usdt_price 0 then apt_price / usdt_price else 0 in
      let usdc_apt_rate :=
        if Py.gtb usdc_price 0 then apt_price / usdc_price else 0 in
      if Py.eqb usdt_apt_rate 0 || Py.eqb usdc_apt_rate 0 then SENTINEL
      else
        let rate_diff :=
          Qabs (usdt_apt_rate - usdc_apt_rate) / usdt_apt_rate * 100 in
        let total_spread := 0.5 + (rate_diff * 0.1) + dex_spread in
        Py.min total_spread 3.0
    else if String.eqb from_pair "apt_usdc" && String.eqb to_pair "apt_usdt" then
      if Py.eqb usdc_price 0 || Py.eqb usdt_price 0 then SENTINEL
      else
        let stablecoin_diff :=
          Qabs (usdc_price - usdt_price) / usdc_price * 100 in
        let total_spread := 0.3 + stablecoin_diff + dex_spread in
        Py.min total_spread 2.0
    else if String.eqb from_pair "apt_usdt" && String.eqb to_pair "apt_usdc" then
      if Py.eqb usdc_price 0 || Py.eqb usdt_price 0 then SENTINEL
      else
        let stablecoin_diff :=
          Qabs (usdt_price - usdc_price) / usdt_price * 100 in
        let total_spread := 0.4 + stablecoin_diff + dex_spread in
        Py.min total_spread 2.0
    else
      if Py.eqb apt_price 0 || Py.eqb usdc_price 0 || Py.eqb usdt_price 0
      then SENTINEL
      else if Py.eqb dex_spread 0.0 then 0.05
      else 0.2 + dex_spread.

Definition _estimate_slippage (trade_amount : Q) : Q :=
  if Py.ltb trade_amount 1000 then 0.02
  else if Py.ltb trade_amount 5000 then 0.05
  else if Py.ltb trade_amount 20000 then 0.15
  else 0.30.

Definition _assess_risk_level (profit_margin trade_amount : Q) : RiskLevel :=
  if Py.gtb profit_margin 1.0 && Py.ltb trade_amount 10000 then LOW
  else if Py.gtb profit_margin 0.5 && Py.ltb trade_amount 50000 then MEDIUM
  else if Py.gtb profit_margin 0.2 then HIGH
  else VERY_HIGH.

(** The request dict; an absent key is [None]. *)
Record input_data : Type := mkInput {
  in_from_pair : option string;
  in_to_pair : option string;
  in_trade_amount : option Q;
  in_custom_dex_fees : option (Py.dict Q);
  in_from_dex : option string;
  in_to_dex : option string
}.

Record Route : Type := mkRoute {
  from_pair : string;
  to_pair : string;
  from_dex : string;
  to_dex : string;
  trade_amount : Q
}.

(** The ["charges"] dict, flattened. *)
Record Charges : Type := mkCharges {
  from_dex_fee_percent : Q;
  to_dex_fee_percent : Q;
  from_fee_amount_usd : Q;
  to_fee_amount_usd : Q;
  total_trading_fees_usd : Q;
  fees_applied : bool;
  gas_unit_price_octas : Z;
  gas_units_per_swap : Z;
  total_gas_cost_apt : Q;
  total_gas_cost_usd : Q;
  operations : Z;
  apt_price_used : Q;
  estimated_slippage_percent : Q;
  estimated_slippage_cost_usd : Q;
  total_fees_usd : Q;
  cost_percentage : Q;
  all_charges_summed : Q;
  breakdown_trading_fees : Q;
  breakdown_gas_costs : Q;
  breakdown_slippage : Q;
  percentage_of_investment : Q
}.

Record ChargesResult : Type := mkChargesResult {
  cr_route : Route;
  cr_charges : Charges
}.

Record Profitability : Type := mkProfitability {
  is_profitable : bool;
  price_difference_percent : Q;
  gross_profit_usd : Q;
  total_costs_usd : Q;
  net_profit_usd : Q;
  profit_margin_percent : Q;
  roi_percent : Q
}.

Record ProfitResult : Type := mkProfitResult {
  pr_route : Route;
  pr_profitability : Profitability;
  pr_charges : Charges;
  pr_recommendation : Recommendation;
  pr_risk_level : RiskLevel
}.

(** The error responses of the agent. *)
Inductive error : Type :=
| ChargeCalculationFailed (e : Py.exn)
| ImpossibleArbitrage (prices : PriceSet) (route : Route)
| ProfitabilityCheckFailed (e : Py.exn)
| OpportunitySearchFailed (e : Py.exn).

Definition generic_keys : list string :=
  ["Smart Contract"; "default"; "fee"; "from_dex"; "to_dex"]%string.

(** [[dex for dex in custom_dex_fees.keys() if dex not in generic_keys]] *)
Definition specific_dex_names (custom_dex_fees : Py.dict Q) : list string :=
  filter (λ dex, dex ∉ generic_keys) (Py.keys custom_dex_fees).

(** The block that computes [available_dexs]; the source repeats it in
    [_calculate_charges], [_check_profitability] and [_find_possibilities]. *)
Definition extract_available_dexs (custom_dex_fees : Py.dict Q) : list string :=
  if Py.nonempty custom_dex_fees then
    let available_dexs := specific_dex_names custom_dex_fees in
    if negb (Py.nonempty available_dexs)
       && Py.mem custom_dex_fees "Smart Contract"
    then ["dex_a"; "dex_b"]%string
    else available_dexs
  else [].

(** [input_data.get("from_dex", available_dexs[0] if len(available_dexs) > 0 else "dex_a")] *)
Definition route_from_dex (input : input_data) (available_dexs : list string) : string :=
  default (match available_dexs with
           | d :: _ => d
           | [] => "dex_a"%string
           end) (in_from_dex input).

(** [input_data.get("to_dex", available_dexs[1] if len(available_dexs) > 1 else "dex_b")] *)
Definition route_to_dex (input : input_data) (available_dexs : list string) : string :=
  default (match available_dexs with
           | _ :: d :: _ => d
           | _ => "dex_b"%string
           end) (in_to_dex input).

(** The [if custom_dex_fees: ... else: ...] block of [_calculate_charges]
    that determines [(from_dex_fee, to_dex_fee)]. *)
Definition resolve_dex_fees (custom_dex_fees : Py.dict Q)
    (from_dex to_dex : string) : Py.M (Q * Q) :=
  if Py.nonempty custom_dex_fees then
    let specific_dex_names := specific_dex_names custom_dex_fees in
    if Py.nonempty specific_dex_names then
      mret (Py.get custom_dex_fees from_dex
              (Py.get default_dex_fees "default" 0.25),
            Py.get custom_dex_fees to_dex
              (Py.get default_dex_fees "default" 0.25))
    else if Py.mem custom_dex_fees "Smart Contract" then
      base_rate ← Py.getitem custom_dex_fees "Smart Contract";
      mret (base_rate, base_rate)
    else
      generic_fee ←
        Py.or_else (Py.get_opt custom_dex_fees "default")
          (Py.or_else (Py.get_opt custom_dex_fees "fee")
             (Py.head (Py.values custom_dex_fees)));
      mret (generic_fee, generic_fee)
  else mret (0.0, 0.0).

(** The body of the [try] block of [_calculate_charges]. *)
Definition calculate_charges_body (self : agent) (input : input_data)
    : Py.M ChargesResult :=
  let from_pair := default "usdc_apt"%string (in_from_pair input) in
  let to_pair := default "usdt_apt"%string (in_to_pair input) in
  let trade_amount := default 1000.0 (in_trade_amount input) in
  let custom_dex_fees := default [] (in_custom_dex_fees input) in
  let available_dexs := extract_available_dexs custom_dex_fees in
  let from_dex := route_from_dex input available_dexs in
  let to_dex := route_to_dex input available_dexs in
  '(from_dex_fee, to_dex_fee) ←
    resolve_dex_fees custom_dex_fees from_dex to_dex;
  let gas_unit_price := _cached_gas_price self in
  let swap_gas_apt := _calculate_gas_cost_apt "swap" gas_unit_price in
  let total_gas_cost_apt := swap_gas_apt * 2 in
  let apt_price := apt (current_prices self) in
  let total_gas_cost_usd := total_gas_cost_apt * apt_price in
  let from_fee_amount := trade_amount * (from_dex_fee / 100) in
  let to_fee_amount := trade_amount * (to_dex_fee / 100) in
  let total_trading_fees := from_fee_amount + to_fee_amount in
  let slippage_percent := _estimate_slippage trade_amount in
  let slippage_cost := trade_amount * (slippage_percent / 100) in
  let total_charges := total_trading_fees + total_gas_cost_usd + slippage_cost in
  swap_units ← Py.getitem gas_unit_costs "swap";
  cost_fraction ← Py.div total_charges trade_amount;
  investment_fraction ← Py.div total_charges trade_amount;
  mret {|
    cr_route := {|
      from_pair := from_pair;
      to_pair := to_pair;
      from_dex := from_dex;
      to_dex := to_dex;
      trade_amount := trade_amount
    |};
    cr_charges := {|
      from_dex_fee_percent := from_dex_fee;
      to_dex_fee_percent := to_dex_fee;
      from_fee_amount_usd := Py.round from_fee_amount 4;
      to_fee_amount_usd := Py.round to_fee_amount 4;
      total_trading_fees_usd := Py.round total_trading_fees 4;
      fees_applied := Py.gtb from_dex_fee 0 || Py.gtb to_dex_fee 0;
      gas_unit_price_octas := gas_unit_price;
      gas_units_per_swap := swap_units;
      total_gas_cost_apt := Py.round total_gas_cost_apt 6;
      total_gas_cost_usd := Py.round total_gas_cost_usd 4;
      operations := 2;
      apt_price_used := apt_price;
      estimated_slippage_percent := slippage_percent;
      estimated_slippage_cost_usd := Py.round slippage_cost 4;
      total_fees_usd := Py.round total_charges 4;
      cost_percentage := Py.round (cost_fraction * 100) 4;
      all_charges_summed := Py.round total_charges 4;
      breakdown_trading_fees := Py.round total_trading_fees 4;
      breakdown_gas_costs := Py.round total_gas_cost_usd 4;
      breakdown_slippage := Py.round slippage_cost 4;
      percentage_of_investment := Py.round (investment_fraction * 100) 4
    |}
  |}.

(** [_calculate_charges]: the body under its exception handler. *)
Definition _calculate_charges (self : agent) (input : input_data)
    : response error ChargesResult :=
  match calculate_charges_body self input with
  | Py.Ret result => Success result
  | Py.Raise e => StatusError (ChargeCalculationFailed e)
  end.

(** The body of the [try] block of [_check_profitability], after the
    charges were obtained. *)
Definition check_profitability_body (self : agent) (input : input_data)
    (charges_result : ChargesResult) : Py.M (response error ProfitResult) :=
  let from_pair := default "usdc_apt"%string (in_from_pair input) in
  let to_pair := default "usdt_apt"%string (in_to_pair input) in
  let trade_amount := default 1000.0 (in_trade_amount input) in
  let custom_dex_fees := default [] (in_custom_dex_fees input) in
  let available_dexs := extract_available_dexs custom_dex_fees in
  let from_dex := route_from_dex input available_dexs in
  let to_dex := route_to_dex input available_dexs in
  let price_difference :=
    _calculate_price_difference self from_pair to_pair from_dex to_dex in
  if Py.eqb price_difference SENTINEL then
    mret (StatusError
            (ImpossibleArbitrage (current_prices self)
               {| from_pair := from_pair;
                  to_pair := to_pair;
                  from_dex := from_dex;
                  to_dex := to_dex;
                  trade_amount := trade_amount |}))
  else
    let gross_profit := trade_amount * (price_difference / 100) in
    let total_costs := total_fees_usd (cr_charges charges_result) in
    let net_profit := gross_profit - total_costs in
    let is_profitable := Py.gtb net_profit 0 in
    profit_margin ←
      (if Py.gtb trade_amount 0
       then q ← Py.div net_profit trade_amount; mret (q * 100)
       else mret 0);
    roi ←
      (if Py.gtb trade_amount 0
       then q ← Py.div net_profit trade_amount; mret (Py.round (q * 100) 4)
       else mret 0);
    mret (Success {|
      pr_route := cr_route charges_result;
      pr_profitability := {|
        is_profitable := is_profitable;
        price_difference_percent := Py.round price_difference 4;
        gross_profit_usd := Py.round gross_profit 4;
        total_costs_usd := Py.round total_costs 4;
        net_profit_usd := Py.round net_profit 4;
        profit_margin_percent := Py.round profit_margin 4;
        roi_percent := roi
      |};
      pr_charges := cr_charges charges_result;
      pr_recommendation :=
        if is_profitable && Py.gtb profit_margin 0.5 then EXECUTE else SKIP;
      pr_risk_level := _assess_risk_level profit_margin trade_amount
    |}).

Definition _check_profitability (self : agent) (input : input_data)
    : response error ProfitResult :=
  match _calculate_charges self input with
  | StatusError e => StatusError e
  | Success charges_result =>
      match check_profitability_body self input charges_result with
      | Py.Ret r => r
      | Py.Raise e => StatusError (ProfitabilityCheckFailed e)
      end
  end.

Record Opportunity : Type := mkOpportunity {
  op_route : Route;
  op_profitability : Profitability;
  op_recommendation : Recommendation;
  op_risk_level : RiskLevel
}.

(** The response of [_find_possibilities], flattened. *)
Record Possibilities : Type := mkPossibilities {
  pairs_checked : Z;
  available_dexs : list string;
  total_found : nat;
  profitable_count : nat;
  top_opportunities : list Opportunity;
  best_profit_margin : Q;
  average_profit_margin : Q;
  recommended_trades : nat;
  message : option string
}.

Definition pair_combinations : list (string * string) :=
  [("usdc_apt", "usdt_apt"); ("usdt_apt", "usdc_apt");
   ("apt_usdc", "apt_usdt"); ("apt_usdt", "apt_usdc")]%string.

(** The [check_data] dicts built by the three nested loops, in loop
    order.  The keys ["action"] and ["current_prices"] are not read by
    [_check_profitability] and are not represented. *)
Definition check_data_list (trade_amount : Q) (custom_dex_fees : Py.dict Q)
    (available_dexs : list string) : list input_data :=
  flat_map (fun pair : string * string =>
    flat_map (fun from_dex : string =>
      flat_map (fun to_dex : string =>
        if negb (String.eqb from_dex to_dex) then
          [ {| in_from_pair := Some pair.1;
               in_to_pair := Some pair.2;
               in_trade_amount := Some trade_amount;
               in_custom_dex_fees := Some custom_dex_fees;
               in_from_dex := Some from_dex;
               in_to_dex := Some to_dex |} ]
        else [])
        available_dexs)
      available_dexs)
    pair_combinations.

(** The [if] inside the loops: a successful, profitable evaluation is
    appended to [opportunities]. *)
Definition collect (profit_result : response error ProfitResult)
    : option Opportunity :=
  match profit_result with
  | Success r =>
      if is_profitable (pr_profitability r) then
        Some {| op_route := pr_route r;
                op_profitability := pr_profitability r;
                op_recommendation := pr_recommendation r;
                op_risk_level := pr_risk_level r |}
      else None
  | StatusError _ => None
  end.

Definition margin_key (o : Opportunity) : Q :=
  profit_margin_percent (op_profitability o).

Definition is_execute (o : Opportunity) : bool :=
  match op_recommendation o with
  | EXECUTE => true
  | SKIP => false
  end.

Definition find_possibilities_body (self : agent) (input : input_data)
    : Py.M Possibilities :=
  let trade_amount := default 1000.0 (in_trade_amount input) in
  let custom_dex_fees := default [] (in_custom_dex_fees input) in
  let available_dexs := extract_available_dexs custom_dex_fees in
  if negb (Py.nonempty available_dexs) then
    mret {|
      pairs_checked := 0;
      available_dexs := [];
      total_found := 0;
      profitable_count := 0;
      top_opportunities := [];
      best_profit_margin := 0;
      average_profit_margin := 0;
      recommended_trades := 0;
      message := Some "No DEXs provided in input. Please specify DEX fees to analyze opportunities."%string
    |}
  else
    let opportunities :=
      omap (fun check_data => collect (_check_profitability self check_data))
        (check_data_list trade_amount custom_dex_fees available_dexs) in
    let opportunities := Py.sort_desc margin_key opportunities in
    let top_opportunities := take 10 opportunities in
    best ←
      (if Py.nonempty top_opportunities
       then o ← Py.head top_opportunities; mret (margin_key o)
       else mret 0);
    average ←
      (if Py.nonempty top_opportunities
       then Py.div (Py.sum (map margin_key top_opportunities))
              (inject_Z (Z.of_nat (length top_opportunities)))
       else mret 0);
    mret {|
      pairs_checked :=
        Z.of_nat (length pair_combinations)
        * Z.of_nat (length available_dexs)
        * (Z.of_nat (length available_dexs) - 1);
      available_dexs := available_dexs;
      total_found := length opportunities;
      profitable_count :=
        length (List.filter (fun o => is_profitable (op_profitability o))
                  opportunities);
      top_opportunities := top_opportunities;
      best_profit_margin := best;
      average_profit_margin := average;
      recommended_trades := length (List.filter is_execute top_opportunities);
      message := None
    |}.

Definition _find_possibilities (self : agent) (input : input_data)
    : response error Possibilities :=
  match find_possibilities_body self input with
  | Py.Ret result => Success result
  | Py.Raise e => StatusError (OpportunitySearchFailed e)
  end.

(** [_update_prices], on the fields of the instance. *)
Definition _update_prices (self : agent) (prices : Py.dict Q) : agent :=
  mkAgent (update_prices (current_prices self) prices) (_cached_gas_price self).

(** The request dict of [execute]: the action and the price overrides,
    beside the fields that the actions read. *)
Record request : Type := mkRequest {
  rq_action : option string;
  rq_current_prices : option (Py.dict Q);
  rq_apt_price : option Q;
  rq_fields : input_data
}.

(** The instance with the time stamp of its gas price. *)
Record instance : Type := mkInstance {
  inst_fields : agent;
  _gas_price_timestamp : Q
}.

(** The instance left by [__init__]. *)
Definition init_instance : instance := mkInstance init 0.

(** What the outside world contributes to one call of
    [_fetch_live_gas_price]: the two readings of [time.time()] and the
    outcome of the HTTP request, should it be made.  [RpcOk] is a reply
    with status 200 and its ["gas_estimate"] field, if any; [RpcFailed] is
    any other status or an exception. *)
Inductive rpc_outcome : Type :=
| RpcOk (gas_estimate : option Z)
| RpcFailed.

Record world : Type := mkWorld {
  clock_at_check : Q;
  rpc : rpc_outcome;
  clock_at_store : Q
}.

Definition _fetch_live_gas_price (self : instance) (w : world) : instance :=
  if Py.ltb (clock_at_check w - _gas_price_timestamp self) 30 then self
  else
    match rpc w with
    | RpcOk gas_estimate =>
        let gas_price := default 100%Z gas_estimate in
        mkInstance
          (mkAgent (current_prices (inst_fields self)) gas_price)
          (clock_at_store w)
    | RpcFailed => self
    end.

(** The successful answers of the three actions. *)
Inductive payload : Type :=
| ChargesPayload (r : ChargesResult)
| ProfitPayload (r : ProfitResult)
| PossibilitiesPayload (r : Possibilities).

Inductive execute_error : Type :=
| UnknownAction (action : string)
| ActionError (e : error).

Definition answer {A : Type} (wrap : A -> payload) (r : response error A)
    : response execute_error payload :=
  match r with
  | Success a => Success (wrap a)
  | StatusError e => StatusError (ActionError e)
  end.

(** [execute]: the price overrides are written to the instance, the gas
    price is refreshed, and the action is dispatched.  Returns the
    instance as the call leaves it, and the response. *)
Definition execute (self : instance) (w : world) (req : request)
    : instance * response execute_error payload :=
  let action := default "possibilities"%string (rq_action req) in
  let fields := inst_fields self in
  let fields :=
    match rq_current_prices req with
    | Some prices =>
        if Py.nonempty prices then _update_prices fields prices else fields
    | None => fields
    end in
  let fields :=
    match rq_apt_price req with
    | Some apt_price =>
        mkAgent (set_price (current_prices fields) "apt" apt_price)
          (_cached_gas_price fields)
    | None => fields
    end in
  let self := mkInstance fields (_gas_price_timestamp self) in
  let self := _fetch_live_gas_price self w in
  let input_data := rq_fields req in
  (self,
   if String.eqb action "getcharges" then
     answer ChargesPayload (_calculate_charges (inst_fields self) input_data)
   else if String.eqb action "isprofitable" then
     answer ProfitPayload (_check_profitability (inst_fields self) input_data)
   else if String.eqb action "possibilities" then
     answer PossibilitiesPayload
       (_find_possibilities (inst_fields self) input_data)
   else StatusError (UnknownAction action)).

End ArbitrageDetectorAgent.

(** ** [InvestmentOptimizerAgent] *)
Module InvestmentOptimizerAgent.

Record agent : Type := mkAgent {
  current_prices : PriceSet
}.

Definition init : agent := mkAgent (mkPrices 12.45 1.00 0.999).

Definition dex_fees : Py.dict Q :=
  [("pancakeswap"%string, 0.25); ("liquidswap"%string, 0.30);
   ("thalaswap"%string, 0.20); ("hippo"%string, 0.30)].

Definition gas_costs : Py.dict Q :=
  [("swap"%string, 0.001); ("add_liquidity"%string, 0.002);
   ("remove_liquidity"%string, 0.002)].

(** [gas_costs["swap"]]; the key is present, so the lookup cannot raise. *)
Definition gas_cost_swap : Q := Py.get gas_costs "swap" 0.

Definition _calculate_price_difference (self : agent)
    (from_token to_token : string) : Q :=
  if String.eqb from_token "usdc" && String.eqb to_token "usdt" then 1.2
  else if String.eqb from_token "usdt" && String.eqb to_token "usdc" then 1.1
  else if bool_decide ("apt"%string ∈ [from_token; to_token]) then 0.9
  else 0.7.

Definition _estimate_slippage_for_amount (trade_amount_usd : Q) : Q :=
  if Py.ltb trade_amount_usd 1000 then 0.02
  else if Py.ltb trade_amount_usd 5000 then 0.05
  else if Py.ltb trade_amount_usd 25000 then 0.15
  else if Py.ltb trade_amount_usd 100000 then 0.35
  else 0.75.

Definition _assess_risk_level (profit_margin trade_amount_usd : Q) : RiskLevel :=
  if Py.gtb profit_margin 1.0 && Py.ltb trade_amount_usd 10000 then LOW
  else if Py.gtb profit_margin 0.5 && Py.ltb trade_amount_usd 50000 then MEDIUM
  else if Py.gtb profit_margin 0.2 then HIGH
  else VERY_HIGH.

(** The dict returned by [_calculate_profit_for_amount], flattened. *)
Record ProfitData : Type := mkProfitData {
  is_profitable : bool;
  net_profit_usd : Q;
  profit_margin_percent : Q;
  roi_percent : Q;
  total_costs_usd : Q;
  risk_level : RiskLevel;
  gross_profit : Q;
  trading_fees : Q;
  breakdown_gas_costs : Q;
  slippage_costs : Q;
  price_difference_percent : Q
}.

(** [custom_dex_fees.get("from_dex", self.dex_fees.get("pancakeswap", 0.25))] *)
Definition from_dex_fee_of (custom_dex_fees : Py.dict Q) : Q :=
  Py.get custom_dex_fees "from_dex" (Py.get dex_fees "pancakeswap" 0.25).

(** [custom_dex_fees.get("to_dex", self.dex_fees.get("liquidswap", 0.30))] *)
Definition to_dex_fee_of (custom_dex_fees : Py.dict Q) : Q :=
  Py.get custom_dex_fees "to_dex" (Py.get dex_fees "liquidswap" 0.30).

(** Both divisions are guarded by [trade_amount_usd > 0], so nothing in
    this function can raise. *)
Definition _calculate_profit_for_amount (self : agent)
    (apt_amount trade_amount_usd : Q) (from_token to_token : string)
    (custom_dex_fees : Py.dict Q) : ProfitData :=
  let from_dex_fee := from_dex_fee_of custom_dex_fees in
  let to_dex_fee := to_dex_fee_of custom_dex_fees in
  let from_fee_amount := trade_amount_usd * (from_dex_fee / 100) in
  let to_fee_amount := trade_amount_usd * (to_dex_fee / 100) in
  let total_trading_fees := from_fee_amount + to_fee_amount in
  let total_gas_cost_apt := gas_cost_swap * 2 in
  let total_gas_cost_usd := total_gas_cost_apt * apt (current_prices self) in
  let slippage_percent := _estimate_slippage_for_amount trade_amount_usd in
  let slippage_cost := trade_amount_usd * (slippage_percent / 100) in
  let total_costs := total_trading_fees + total_gas_cost_usd + slippage_cost in
  let price_difference := _calculate_price_difference self from_token to_token in
  let gross_profit := trade_amount_usd * (price_difference / 100) in
  let net_profit := gross_profit - total_costs in
  let is_profitable := Py.gtb net_profit 0 in
  let profit_margin :=
    if Py.gtb trade_amount_usd 0
    then (net_profit / trade_amount_usd) * 100 else 0 in
  let risk_level := _assess_risk_level profit_margin trade_amount_usd in
  {| is_profitable := is_profitable;
     net_profit_usd := net_profit;
     profit_margin_percent := profit_margin;
     roi_percent :=
       if Py.gtb trade_amount_usd 0
       then (net_profit / trade_amount_usd) * 100 else 0;
     total_costs_usd := total_costs;
     risk_level := risk_level;
     gross_profit := gross_profit;
     trading_fees := total_trading_fees;
     breakdown_gas_costs := total_gas_cost_usd;
     slippage_costs := slippage_cost;
     price_difference_percent := price_difference |}.

(** The request dict of [_find_breakeven_amount]. *)
Record input_data : Type := mkInput {
  in_from_token : option string;
  in_to_token : option string;
  in_dex_fees : option (Py.dict Q)
}.

Inductive error : Type :=
| BreakevenAnalysisFailed (e : Py.exn).

Record Breakeven : Type := mkBreakeven {
  breakeven_apt_amount : option Q;
  breakeven_usd_amount : option Q;
  found : bool;
  price_spread_percent : Q;
  minimum_spread_needed : Q
}.

(** The [for _ in range(n)] loop of the bisection; [n] iterations remain.
    Returns the final [breakeven_apt]. *)
Fixpoint bisect (self : agent) (from_token to_token : string)
    (custom_dex_fees : Py.dict Q) (n : nat) (min_apt max_apt : Q) : option Q :=
  match n with
  | O => None
  | S n' =>
      let mid_apt := (min_apt + max_apt) / 2 in
      let trade_amount_usd := mid_apt * apt (current_prices self) in
      let profit_data :=
        _calculate_profit_for_amount self mid_apt trade_amount_usd
          from_token to_token custom_dex_fees in
      if Py.ltb (Qabs (net_profit_usd profit_data)) 0.01 then Some mid_apt
      else if Py.ltb (net_profit_usd profit_data) 0
      then bisect self from_token to_token custom_dex_fees n' mid_apt max_apt
      else bisect self from_token to_token custom_dex_fees n' min_apt mid_apt
  end.

(** The net profit that the loop computes at a midpoint. *)
Definition net_at (self : agent) (from_token to_token : string)
    (custom_dex_fees : Py.dict Q) (mid_apt : Q) : Q :=
  net_profit_usd
    (_calculate_profit_for_amount self mid_apt
       (mid_apt * apt (current_prices self))
       from_token to_token custom_dex_fees).

(** The iterations that the loop of [bisect] performs, in order: the
    values of [(min_apt, max_apt, mid_apt)] in each executed iteration. *)
Fixpoint bisect_trace (self : agent) (from_token to_token : string)
    (custom_dex_fees : Py.dict Q) (n : nat) (min_apt max_apt : Q)
    : list (Q * Q * Q) :=
  match n with
  | O => []
  | S n' =>
      let mid_apt := (min_apt + max_apt) / 2 in
      let net := net_at self from_token to_token custom_dex_fees mid_apt in
      (min_apt, max_apt, mid_apt) ::
      (if Py.ltb (Qabs net) 0.01 then []
       else if Py.ltb net 0
       then bisect_trace self from_token to_token custom_dex_fees n' mid_apt max_apt
       else bisect_trace self from_token to_token custom_dex_fees n' min_apt mid_apt)
  end.

(** [_find_breakeven_amount]; its [try] body cannot raise. *)
Definition _find_breakeven_amount (self : agent) (input : input_data)
    : response error Breakeven :=
  let from_token := default "usdc"%string (in_from_token input) in
  let to_token := default "usdt"%string (in_to_token input) in
  let custom_dex_fees := default [] (in_dex_fees input) in
  let min_apt := 1 in
  let max_apt := 100000 in
  let breakeven_apt :=
    bisect self from_token to_token custom_dex_fees 20 min_apt max_apt in
  Success {| breakeven_apt_amount := breakeven_apt;
     breakeven_usd_amount :=
       match breakeven_apt with
       | Some b =>
           if Py.eqb b 0 then None else Some (b * apt (current_prices self))
       | None => None
       end;
     found := bool_decide (is_Some breakeven_apt);
     price_spread_percent := _calculate_price_difference self from_token to_token;
     minimum_spread_needed := 0.6 |}.

(** [_update_prices], on the fields of the instance. *)
Definition _update_prices (self : agent) (prices : Py.dict Q) : agent :=
  mkAgent (update_prices (current_prices self) prices).

Definition apt_test_ranges : list (list Z) :=
  [[1; 5; 10; 25; 50];
   [100; 250; 500; 750; 1000];
   [1500; 2000; 3000; 5000; 7500];
   [10000; 15000; 20000; 30000; 50000]]%Z.

(** The request dict of [execute]: the action, the price overrides, the
    fields shared by the three actions, and the fields read by one action
    only. *)
Record request : Type := mkRequest {
  rq_action : option string;
  rq_current_prices : option (Py.dict Q);
  rq_apt_price : option Q;
  rq_fields : input_data;
  rq_max_investment_apt : option Q;
  rq_apt_amount : option Q
}.

(** An entry of [optimization_results]. *)
Record Candidate : Type := mkCandidate {
  apt_investment : Z;
  usd_investment : Q;
  cand_net_profit_usd : Q;
  cand_profit_margin_percent : Q;
  cand_roi_percent : Q;
  cand_total_costs_usd : Q;
  cand_risk_level : RiskLevel
}.

Inductive SizeDesc : Type := small | medium | large | very_large.

(** The sentence built by [_generate_reasoning], as the values that its
    format string interpolates. *)
Record Reasoning : Type := mkReasoning {
  size_desc : SizeDesc;
  reasoning_apt_amount : Z;
  reasoning_profit_margin : Q;
  reasoning_risk_level : RiskLevel
}.

Record Optimal : Type := mkOptimal {
  recommended_apt_investment : Z;
  recommended_usd_investment : Q;
  expected_profit_usd : Q;
  expected_profit_margin : Q;
  expected_roi : Q;
  optimal_risk_level : RiskLevel;
  optimal_total_costs : Q;
  combined_score : Q;
  reasoning : Reasoning
}.

(** The sentences of [_generate_investment_recommendations], as the values
    that their format strings interpolate. *)
Inductive Line : Type :=
| NoProfitableOpportunities
| ConsiderWaiting
| FoundAmounts (total_profitable : nat)
| AverageMargin (avg_margin : Q)
| BestMargin (best_margin : Q)
| LowRiskAvailable (low_risk_count : nat)
| BestSmall (apt_investment : Z) (margin : Q)
| BestLarge (apt_investment : Z) (margin : Q).

(** The response of [_optimize_investment_amount], flattened. *)
Record Optimization : Type := mkOptimization {
  opt_from_token : string;
  opt_to_token : string;
  opt_max_investment_apt : Q;
  amounts_tested : nat;
  profitable_amounts : nat;
  optimal_investment : option Optimal;
  all_profitable_options : list Candidate;
  apt_price_usd : Q;
  price_spread_available : Q;
  gas_cost_apt : Q;
  gas_cost_usd : Q;
  recommendations : list Line
}.

Definition _generate_reasoning (optimal : Candidate) : Reasoning :=
  let apt_amount := apt_investment optimal in
  let profit_margin := cand_profit_margin_percent optimal in
  let risk_level := cand_risk_level optimal in
  let size_desc :=
    if (apt_amount <? 100)%Z then small
    else if (apt_amount <? 1000)%Z then medium
    else if (apt_amount <? 5000)%Z then large
    else very_large in
  mkReasoning size_desc apt_amount profit_margin risk_level.

(** [risk_scores.get(risk_level, 4)] *)
Definition risk_score (risk_level : RiskLevel) : Q :=
  match risk_level with
  | LOW => 1
  | MEDIUM => 2
  | HIGH => 3
  | VERY_HIGH => 4
  end.

(** [profit_margin / risk_score]; the divisor is one of 1, 2, 3, 4. *)
Definition score_of (result : Candidate) : Q :=
  cand_profit_margin_percent result / risk_score (cand_risk_level result).

Definition _find_optimal_investment (results : list Candidate) : option Optimal :=
  if negb (Py.nonempty results) then None
  else
    let scored_results := map (fun result => (result, score_of result)) results in
    let scored_results :=
      Py.sort_desc (fun sr : Candidate * Q => sr.2) scored_results in
    match scored_results with
    | [] => None
    | (optimal, optimal_score) :: _ =>
        Some {|
          recommended_apt_investment := apt_investment optimal;
          recommended_usd_investment := usd_investment optimal;
          expected_profit_usd := cand_net_profit_usd optimal;
          expected_profit_margin := cand_profit_margin_percent optimal;
          expected_roi := cand_roi_percent optimal;
          optimal_risk_level := cand_risk_level optimal;
          optimal_total_costs := cand_total_costs_usd optimal;
          combined_score := optimal_score;
          reasoning := _generate_reasoning optimal
        |}
    end.

Definition is_low (r : Candidate) : bool :=
  match cand_risk_level r with
  | LOW => true
  | _ => false
  end.

Definition _generate_investment_recommendations (results : list Candidate)
    : list Line :=
  match results with
  | [] => [NoProfitableOpportunities; ConsiderWaiting]
  | first :: rest =>
      let total_profitable := length results in
      let avg_margin :=
        Py.sum (map cand_profit_margin_percent results)
        / inject_Z (Z.of_nat total_profitable) in
      let best_margin :=
        Py.max_of (cand_profit_margin_percent first)
          (map cand_profit_margin_percent rest) in
      let low_risk_count := length (List.filter is_low results) in
      let small_investments :=
        List.filter (fun r => (apt_investment r <? 100)%Z) results in
      let large_investments :=
        List.filter (fun r => (1000 <? apt_investment r)%Z) results in
      [FoundAmounts total_profitable; AverageMargin avg_margin;
       BestMargin best_margin]
      ++ (if Nat.ltb 0 low_risk_count then [LowRiskAvailable low_risk_count]
          else [])
      ++ match small_investments with
         | [] => []
         | s :: ss =>
             let best_small := Py.max_by cand_profit_margin_percent s ss in
             [BestSmall (apt_investment best_small)
                (cand_profit_margin_percent best_small)]
         end
      ++ match large_investments with
         | [] => []
         | l :: ls =>
             let best_large := Py.max_by cand_profit_margin_percent l ls in
             [BestLarge (apt_investment best_large)
                (cand_profit_margin_percent best_large)]
         end
  end.

(** [test_amounts]: the ladder entries up to the cap, without duplicates,
    ascending. *)
Definition test_amounts (max_investment_apt : Q) : list Z :=
  let all_amounts :=
    flat_map
      (fun range_group =>
         List.filter (fun amt => Py.leb (inject_Z amt) max_investment_apt)
           range_group)
      apt_test_ranges in
  Py.sorted_set all_amounts.

(** The body of the loop over [test_amounts]: the entry appended for a
    profitable amount. *)
Definition candidate_for (self : agent) (from_token to_token : string)
    (custom_dex_fees : Py.dict Q) (apt_amount : Z) : option Candidate :=
  let trade_amount_usd := inject_Z apt_amount * apt (current_prices self) in
  let profit_data :=
    _calculate_profit_for_amount self (inject_Z apt_amount) trade_amount_usd
      from_token to_token custom_dex_fees in
  if is_profitable profit_data then
    Some {|
      apt_investment := apt_amount;
      usd_investment := trade_amount_usd;
      cand_net_profit_usd := net_profit_usd profit_data;
      cand_profit_margin_percent := profit_margin_percent profit_data;
      cand_roi_percent := roi_percent profit_data;
      cand_total_costs_usd := total_costs_usd profit_data;
      cand_risk_level := risk_level profit_data
    |}
  else None.

(** [_optimize_investment_amount]; its [try] body cannot raise, and the
    response has status success. *)
Definition _optimize_investment_amount (self : agent) (req : request)
    : Optimization :=
  let from_token := default "usdc"%string (in_from_token (rq_fields req)) in
  let to_token := default "usdt"%string (in_to_token (rq_fields req)) in
  let custom_dex_fees := default [] (in_dex_fees (rq_fields req)) in
  let max_investment_apt := default 50000 (rq_max_investment_apt req) in
  let test_amounts := test_amounts max_investment_apt in
  let optimization_results :=
    omap (candidate_for self from_token to_token custom_dex_fees)
      test_amounts in
  let optimization_results :=
    Py.sort_desc cand_profit_margin_percent optimization_results in
  let optimal_investment :=
    if Py.nonempty optimization_results
    then _find_optimal_investment optimization_results
    else None in
  {| opt_from_token := Py.upper from_token;
     opt_to_token := Py.upper to_token;
     opt_max_investment_apt := max_investment_apt;
     amounts_tested := length test_amounts;
     profitable_amounts := length optimization_results;
     optimal_investment := optimal_investment;
     all_profitable_options := take 10 optimization_results;
     apt_price_usd := apt (current_prices self);
     price_spread_available :=
       _calculate_price_difference self from_token to_token;
     gas_cost_apt := gas_cost_swap * 2;
     gas_cost_usd := (gas_cost_swap * 2) * apt (current_prices self);
     recommendations :=
       _generate_investment_recommendations optimization_results |}.

(** The response of [_analyze_specific_amount]: the ["analysis"] and
    ["cost_breakdown"] dicts repeat fields of the profit data, which is
    kept whole. *)
Record Analysis : Type := mkAnalysis {
  analysis_apt_investment : Q;
  analysis_usd_investment : Q;
  analysis_profit : ProfitData;
  analysis_recommendation : Recommendation
}.

(** [_analyze_specific_amount]; its [try] body cannot raise. *)
Definition _analyze_specific_amount (self : agent) (req : request) : Analysis :=
  let apt_amount := default 1000 (rq_apt_amount req) in
  let from_token := default "usdc"%string (in_from_token (rq_fields req)) in
  let to_token := default "usdt"%string (in_to_token (rq_fields req)) in
  let custom_dex_fees := default [] (in_dex_fees (rq_fields req)) in
  let trade_amount_usd := apt_amount * apt (current_prices self) in
  let profit_data :=
    _calculate_profit_for_amount self apt_amount trade_amount_usd
      from_token to_token custom_dex_fees in
  {| analysis_apt_investment := apt_amount;
     analysis_usd_investment := trade_amount_usd;
     analysis_profit := profit_data;
     analysis_recommendation :=
       if is_profitable profit_data
          && Py.gtb (profit_margin_percent profit_data) 0.5
       then EXECUTE else SKIP |}.

Inductive payload : Type :=
| OptimizationPayload (r : Optimization)
| AnalysisPayload (r : Analysis)
| BreakevenPayload (r : Breakeven).

Inductive execute_error : Type :=
| UnknownAction (action : string)
| ActionError (e : error).

(** [execute]: the price overrides are written to the instance and the
    action is dispatched.  Returns the instance as the call leaves it,
    and the response. *)
Definition execute (self : agent) (req : request)
    : agent * response execute_error payload :=
  let action := default "optimize_investment"%string (rq_action req) in
  let self :=
    match rq_current_prices req with
    | Some prices =>
        if Py.nonempty prices then _update_prices self prices else self
    | None => self
    end in
  let self :=
    match rq_apt_price req with
    | Some apt_price =>
        mkAgent (set_price (current_prices self) "apt" apt_price)
    | None => self
    end in
  (self,
   if String.eqb action "optimize_investment" then
     Success (OptimizationPayload (_optimize_investment_amount self req))
   else if String.eqb action "analyze_amount" then
     Success (AnalysisPayload (_analyze_specific_amount self req))
   else if String.eqb action "find_breakeven" then
     match _find_breakeven_amount self (rq_fields req) with
     | Success r => Success (BreakevenPayload r)
     | StatusError e => StatusError (ActionError e)
     end
   else StatusError (UnknownAction action)).

End InvestmentOptimizerAgent.


(** ** [agents/tools/calculation_tools.py]

    The tools return [json.dumps] of a dict; the dict is what is
    modelled. *)
Module CalculationTools.

Module PriceCalculationTool.

Definition _calculate_apt_to_stable_diff (apt_price stable_price : Q) : Q :=
  let base_diff := 1.2 in
  let volatility_factor := Py.min (apt_price / 10) 0.5 in
  base_diff + volatility_factor.

Definition _calculate_stable_to_apt_diff (stable_price apt_price : Q) : Q :=
  let base_diff := 1.1 in
  let volatility_factor := Py.min (apt_price / 15) 0.3 in
  base_diff + volatility_factor.

(** [token in ["usdc", "usdt"]] *)
Definition is_stable (token : string) : bool :=
  bool_decide (token ∈ ["usdc"; "usdt"]%string).

Record PriceResult : Type := mkPriceResult {
  price_difference_percent : Q;
  gross_profit_usd : Q;
  from_price : Q;
  to_price : Q;
  calculation_method : string
}.

(** The body of the [try] block of [_run]; only the division of the last
    branch can raise. *)
Definition run_body (token_prices : Py.dict Q) (from_token to_token : string)
    (trade_amount : Q) : Py.M PriceResult :=
  let from_price := Py.get token_prices (Py.lower from_token) 1.0 in
  let to_price := Py.get token_prices (Py.lower to_token) 1.0 in
  price_diff_percent ←
    (if String.eqb (Py.lower from_token) "apt" && is_stable (Py.lower to_token)
     then mret (_calculate_apt_to_stable_diff from_price to_price)
     else if is_stable (Py.lower from_token)
             && String.eqb (Py.lower to_token) "apt"
     then mret (_calculate_stable_to_apt_diff from_price to_price)
     else q ← Py.div (Qabs (from_price - to_price)) from_price;
          mret (q * 100));
  let gross_profit := trade_amount * (price_diff_percent / 100) in
  mret {| price_difference_percent := Py.round price_diff_percent 4;
          gross_profit_usd := Py.round gross_profit 4;
          from_price := from_price;
          to_price := to_price;
          calculation_method :=
            (Py.upper from_token ++ " -> " ++ Py.upper to_token)%string |}.

(** [_run]: the body under its exception handler, which answers with an
    error dict. *)
Definition _run (token_prices : Py.dict Q) (from_token to_token : string)
    (trade_amount : Q) : response Py.exn PriceResult :=
  match run_body token_prices from_token to_token trade_amount with
  | Py.Ret result => Success result
  | Py.Raise e => StatusError e
  end.

End PriceCalculationTool.

Module FeeCalculationTool.

Definition default_fees : Py.dict Q :=
  [("pancakeswap"%string, 0.25); ("liquidswap"%string, 0.30);
   ("thalaswap"%string, 0.20); ("hippo"%string, 0.30)].

(** The loop [for key in possible_keys: if key in custom_fees: return
    custom_fees[key]]; [None] when it falls through. *)
Fixpoint first_present (custom_fees : Py.dict Q) (possible_keys : list string)
    : option Q :=
  match possible_keys with
  | [] => None
  | key :: rest =>
      match Py.get_opt custom_fees key with
      | Some fee => Some fee
      | None => first_present custom_fees rest
      end
  end.

(** [list(custom_fees.values())[0]] is reached with exactly one entry, so
    the index cannot be out of range. *)
Definition _get_fee_rate (custom_fees : Py.dict Q) (dex_name : string)
    (defaults : Py.dict Q) : Q :=
  if negb (Py.nonempty custom_fees) then 0.0
  else
    let possible_keys :=
      [dex_name; "Smart Contract"; "default"; "fee";
       if Py.contains "from" dex_name then "from_dex" else "to_dex"]%string in
    match first_present custom_fees possible_keys with
    | Some fee => fee
    | None =>
        if Nat.eqb (length custom_fees) 1 then
          match Py.values custom_fees with
          | fee :: _ => fee
          | [] => 0.0
          end
        else Py.get defaults dex_name 0.25
    end.

Record FeeResult : Type := mkFeeResult {
  fee_from_dex : string;
  fee_to_dex : string;
  from_fee_percent : Q;
  to_fee_percent : Q;
  from_fee_amount_usd : Q;
  to_fee_amount_usd : Q;
  total_fees_usd : Q;
  fees_applied : bool
}.

Definition _run (trade_amount : Q) (dex_fees : Py.dict Q)
    (from_dex to_dex : string) : FeeResult :=
  let from_fee_percent := _get_fee_rate dex_fees from_dex default_fees in
  let to_fee_percent := _get_fee_rate dex_fees to_dex default_fees in
  let from_fee_amount := trade_amount * (from_fee_percent / 100) in
  let to_fee_amount := trade_amount * (to_fee_percent / 100) in
  let total_fees := from_fee_amount + to_fee_amount in
  {| fee_from_dex := from_dex;
     fee_to_dex := to_dex;
     from_fee_percent := from_fee_percent;
     to_fee_percent := to_fee_percent;
     from_fee_amount_usd := Py.round from_fee_amount 4;
     to_fee_amount_usd := Py.round to_fee_amount 4;
     total_fees_usd := Py.round total_fees 4;
     fees_applied := Py.gtb from_fee_percent 0 || Py.gtb to_fee_percent 0 |}.

End FeeCalculationTool.

Module ProfitabilityAnalysisTool.

Inductive Advice : Type := ADVISE_EXECUTE | ADVISE_CONSIDER | ADVISE_SKIP.

(** The [risk_factors] argument is not read. *)
Definition _assess_risk (profit_margin trade_amount : Q) : RiskLevel :=
  if Py.gtb profit_margin 2.0 && Py.ltb trade_amount 5000 then LOW
  else if Py.gtb profit_margin 1.0 && Py.ltb trade_amount 20000 then MEDIUM
  else if Py.gtb profit_margin 0.5 then HIGH
  else VERY_HIGH.

Definition _get_recommendation (is_profitable : bool) (profit_margin : Q)
    (risk_level : RiskLevel) : Advice :=
  if negb is_profitable then ADVISE_SKIP
  else if Py.gtb profit_margin 1.0
          && match risk_level with
             | LOW | MEDIUM => true
             | _ => false
             end
  then ADVISE_EXECUTE
  else if Py.gtb profit_margin 0.5 then ADVISE_CONSIDER
  else ADVISE_SKIP.

Record AnalysisResult : Type := mkAnalysisResult {
  is_profitable : bool;
  gross_profit_usd : Q;
  total_costs_usd : Q;
  net_profit_usd : Q;
  profit_margin_percent : Q;
  roi_percent : Q;
  risk_level : RiskLevel;
  recommendation : Advice;
  cost_percentage : Q
}.

(** Both divisions are guarded by [trade_amount > 0]. *)
Definition _run (gross_profit total_costs trade_amount : Q) : AnalysisResult :=
  let net_profit := gross_profit - total_costs in
  let is_profitable := Py.gtb net_profit 0 in
  let profit_margin_percent :=
    if Py.gtb trade_amount 0 then (net_profit / trade_amount) * 100 else 0 in
  let roi_percent := profit_margin_percent in
  let risk_level := _assess_risk profit_margin_percent trade_amount in
  let recommendation :=
    _get_recommendation is_profitable profit_margin_percent risk_level in
  {| is_profitable := is_profitable;
     gross_profit_usd := Py.round gross_profit 4;
     total_costs_usd := Py.round total_costs 4;
     net_profit_usd := Py.round net_profit 4;
     profit_margin_percent := Py.round profit_margin_percent 4;
     roi_percent := Py.round roi_percent 4;
     risk_level := risk_level;
     recommendation := recommendation;
     cost_percentage :=
       if Py.gtb trade_amount 0
       then Py.round ((total_costs / trade_amount) * 100) 4 else 0 |}.

End ProfitabilityAnalysisTool.

End CalculationTools.

(** ** [app.py]: how the service layer builds the agents' requests *)
Module App.

(** The [(from_pair, to_pair)] that [is_arbitrage_profitable] builds for
    one destination token. *)
Definition route_pairs (from_token to_token : string) : string * string :=
  if String.eqb from_token "apt" then
    ("apt_" ++ to_token, to_token ++ "_apt")%string
  else if String.eqb to_token "apt" then
    (from_token ++ "_apt", "apt_" ++ from_token)%string
  else
    (from_token ++ "_apt", "apt_" ++ to_token)%string.

(** The fields of the [input_data] of [is_arbitrage_profitable] that the
    evaluator reads; [dex_fees] is [request.dex_fees or {}]. *)
Definition isprofitable_input (from_token to_token : string)
    (trade_amount : Q) (dex_fees : option (Py.dict Q))
    : ArbitrageDetectorAgent.input_data :=
  let pairs := route_pairs from_token to_token in
  ArbitrageDetectorAgent.mkInput (Some pairs.1) (Some pairs.2)
    (Some trade_amount) (Some (default [] dex_fees)) None None.

End App.

(** ** The formulas of the specification, in its own words *)
Module Spec.

(** The fixed DEX factor table; an unlisted DEX has factor 1.0. *)
Definition factor (dex : string) : Q :=
  Py.get ArbitrageDetectorAgent.dex_price_factors dex 1.0.

Definition generic_placeholder (dex : string) : Prop :=
  dex = "dex_a"%string \/ dex = "dex_b"%string.

(** [|factor(from_dex) - factor(to_dex)| * 100], zero when both DEXs are
    generic placeholders. *)
Definition dex_spread (from_dex to_dex : string) : Q :=
  if decide (generic_placeholder from_dex /\ generic_placeholder to_dex)
  then 0
  else Qabs (factor from_dex - factor to_dex) * 100.

(** [|usdc_apt_rate - usdt_apt_rate| / usdc_apt_rate * 100] with the cross
    rates [apt_price/usdc_price] and [apt_price/usdt_price]. *)
Definition relative_rate_difference_percent (p : PriceSet) : Q :=
  let usdc_apt_rate := apt p / usdc p in
  let usdt_apt_rate := apt p / usdt p in
  Qabs (usdc_apt_rate - usdt_apt_rate) / usdc_apt_rate * 100.

(** [min(0.6 + 0.1 * relative_rate_difference_percent + dex_spread, 3.0)] *)
Definition usdc_apt_to_usdt_apt_spread (p : PriceSet)
    (from_dex to_dex : string) : Q :=
  Qmin (0.6 + 0.1 * relative_rate_difference_percent p
        + dex_spread from_dex to_dex) 3.0.

(** The unordered token set of a trading pair. *)
Definition tokens (pair : string) : gset string :=
  list_to_set (Py.split "_" pair).

Definition positive_prices (p : PriceSet) : Prop :=
  0 < apt p /\ 0 < usdc p /\ 0 < usdt p.

(** The risk tiers as the specification lists them. *)
Definition risk_tier (m a : Q) (tier : RiskLevel) : Prop :=
  match tier with
  | LOW => 1.0 < m /\ a < 10000
  | MEDIUM => ~ (1.0 < m /\ a < 10000) /\ (0.5 < m /\ a < 50000)
  | HIGH =>
      ~ (1.0 < m /\ a < 10000) /\ ~ (0.5 < m /\ a < 50000) /\ 0.2 < m
  | VERY_HIGH =>
      ~ (1.0 < m /\ a < 10000) /\ ~ (0.5 < m /\ a < 50000) /\ ~ 0.2 < m
  end.

End Spec.

(** The raw (unrounded) cost components that [_calculate_charges] adds up. *)
Module Cost.

(** [trade_amount * (from_dex_fee / 100) + trade_amount * (to_dex_fee / 100)] *)
Definition trading_fees (trade_amount from_dex_fee to_dex_fee : Q) : Q :=
  trade_amount * (from_dex_fee / 100) + trade_amount * (to_dex_fee / 100).

(** Two swaps at the cached gas unit price, converted to USD. *)
Definition gas_usd (self : ArbitrageDetectorAgent.agent) : Q :=
  ArbitrageDetectorAgent._calculate_gas_cost_apt "swap"
    (ArbitrageDetectorAgent._cached_gas_price self) * 2
  * apt (ArbitrageDetectorAgent.current_prices self).

Definition slippage (trade_amount : Q) : Q :=
  trade_amount
  * (ArbitrageDetectorAgent._estimate_slippage trade_amount / 100).

Definition total (self : ArbitrageDetectorAgent.agent)
    (trade_amount from_dex_fee to_dex_fee : Q) : Q :=
  trading_fees trade_amount from_dex_fee to_dex_fee
  + gas_usd self + slippage trade_amount.

End Cost.

(** The request fields as [_calculate_charges] reads them. *)
Module Request.
Import ArbitrageDetectorAgent.

Definition amount (input : input_data) : Q :=
  default 1000.0 (in_trade_amount input).

Definition fees (input : input_data) : Py.dict Q :=
  default [] (in_custom_dex_fees input).

Definition route (input : input_data) : Route :=
  {| from_pair := default "usdc_apt"%string (in_from_pair input);
     to_pair := default "usdt_apt"%string (in_to_pair input);
     from_dex :=
       route_from_dex input (extract_available_dexs (fees input));
     to_dex :=
       route_to_dex input (extract_available_dexs (fees input));
     trade_amount := amount input |}.

End Request.

(** The vocabulary of the break-even search. *)
Module Search.
Import InvestmentOptimizerAgent.

(** The convergence test of the loop at a midpoint: the absolute value of
    the net profit is below 0.01 USD. *)
Definition converged (self : agent) (from_token to_token : string)
    (custom_dex_fees : Py.dict Q) (mid_apt : Q) : Prop :=
  Qabs (net_at self from_token to_token custom_dex_fees mid_apt) < 0.01.

(** An iteration [(min_apt, max_apt, mid_apt)] bisects an interval inside
    [[1, 100000]]. *)
Definition bisects (step : Q * Q * Q) : Prop :=
  let '(min_apt, max_apt, mid_apt) := step in
  1 <= min_apt /\ min_apt <= max_apt /\ max_apt <= 100000
  /\ mid_apt = (min_apt + max_apt) / 2
  /\ min_apt <= mid_apt /\ mid_apt <= max_apt.

(** A width halved [i] times. *)
Definition halved (width : Q) (i : nat) : Q :=
  Nat.iter i (fun w => w / 2) width.

End Search.

(** The spread of the route that a request denotes. *)
Definition request_spread (self : ArbitrageDetectorAgent.agent)
    (input : ArbitrageDetectorAgent.input_data) : Q :=
  ArbitrageDetectorAgent._calculate_price_difference self
    (ArbitrageDetectorAgent.from_pair (Request.route input))
    (ArbitrageDetectorAgent.to_pair (Request.route input))
    (ArbitrageDetectorAgent.from_dex (Request.route input))
    (ArbitrageDetectorAgent.to_dex (Request.route input)).

(** The net profit and the margin that the evaluator computes from the
    spread and the reported (rounded) total cost. *)
Definition request_net (self : ArbitrageDetectorAgent.agent)
    (input : ArbitrageDetectorAgent.input_data)
    (charges : ArbitrageDetectorAgent.Charges) : Q :=
  Request.amount input * (request_spread self input / 100)
  - ArbitrageDetectorAgent.total_fees_usd charges.

Definition request_margin (self : ArbitrageDetectorAgent.agent)
    (input : ArbitrageDetectorAgent.input_data)
    (charges : ArbitrageDetectorAgent.Charges) : Q :=
  if Py.gtb (Request.amount input) 0
  then request_net self input charges / Request.amount input * 100
  else 0.

(** The fee that a schedule without DEX names yields: its
    ["Smart Contract"] entry; failing that its ["default"] entry unless
    zero, then its ["fee"] entry unless zero, then its first entry. *)
Definition generic_fee (fees : Py.dict Q) : Q :=
  let first := hd 0 (Py.values fees) in
  let fee_or_first :=
    match Py.get_opt fees "fee" with
    | Some f => if Py.eqb f 0 then first else f
    | None => first
    end in
  match Py.get_opt fees "Smart Contract" with
  | Some base_rate => base_rate
  | None =>
      match Py.get_opt fees "default" with
      | Some d => if Py.eqb d 0 then fee_or_first else d
      | None => fee_or_first
      end
  end.

(** The prices given for a token, under any letter case, in the order
    given. *)
Definition given_for (prices : Py.dict Q) (token : string) : list Q :=
  map snd
    (List.filter (fun tp : string * Q => String.eqb (Py.lower tp.1) token)
       prices).

(** The prices that [execute] leaves on the instance: the given prices are
    merged first, the direct APT price is written last. *)
Definition overridden (current : PriceSet) (given : option (Py.dict Q))
    (apt_price : option Q) : PriceSet :=
  let merged := update_prices current (default [] given) in
  match apt_price with
  | Some p => mkPrices p (usdc merged) (usdt merged)
  | None => merged
  end.

(** The optimizer's margin in closed form: the spread, less the two fee
    percentages, the slippage percentage of the USD value, and the gas
    share, which is [0.2 / apt_amount] percent at every APT price. *)
Definition optimizer_margin (self : InvestmentOptimizerAgent.agent)
    (from_token to_token : string) (fees : Py.dict Q) (apt_amount : Q) : Q :=
  InvestmentOptimizerAgent._calculate_price_difference self from_token to_token
  - InvestmentOptimizerAgent.from_dex_fee_of fees
  - InvestmentOptimizerAgent.to_dex_fee_of fees
  - InvestmentOptimizerAgent._estimate_slippage_for_amount
      (apt_amount * apt (InvestmentOptimizerAgent.current_prices self))
  - 0.2 / apt_amount.

(** The amounts of the optimizer's ladder, in the order written. *)
Definition ladder : list Z := concat InvestmentOptimizerAgent.apt_test_ranges.

(** The fee fields that the detector's breakdown and the fee tool's answer
    have in common. *)
Definition fee_fields_agree (c : ArbitrageDetectorAgent.Charges)
    (t : CalculationTools.FeeCalculationTool.FeeResult) : Prop :=
  ArbitrageDetectorAgent.from_dex_fee_percent c
  = CalculationTools.FeeCalculationTool.from_fee_percent t
  /\ ArbitrageDetectorAgent.to_dex_fee_percent c
     = CalculationTools.FeeCalculationTool.to_fee_percent t
  /\ ArbitrageDetectorAgent.from_fee_amount_usd c
     = CalculationTools.FeeCalculationTool.from_fee_amount_usd t
  /\ ArbitrageDetectorAgent.to_fee_amount_usd c
     = CalculationTools.FeeCalculationTool.to_fee_amount_usd t
  /\ ArbitrageDetectorAgent.total_trading_fees_usd c
     = CalculationTools.FeeCalculationTool.total_fees_usd t
  /\ ArbitrageDetectorAgent.fees_applied c
     = CalculationTools.FeeCalculationTool.fees_applied t.

(** The margin that the analysis tool works with, before rounding. *)
Definition tool_margin (gross_profit total_costs trade_amount : Q) : Q :=
  if Py.gtb trade_amount 0
  then (gross_profit - total_costs) / trade_amount * 100 else 0.

(** Whether the price tool treats a route as APT -> stablecoin or as
    stablecoin -> APT, letter case aside. *)
Definition apt_to_stable (from_token to_token : string) : bool :=
  String.eqb (Py.lower from_token) "apt"
  && CalculationTools.PriceCalculationTool.is_stable (Py.lower to_token).

Definition stable_to_apt (from_token to_token : string) : bool :=
  CalculationTools.PriceCalculationTool.is_stable (Py.lower from_token)
  && String.eqb (Py.lower to_token) "apt".

(** * Facts about the Python primitives *)

Lemma ltb_true (x y : Q) : Py.ltb x y = true <-> x < y.
Proof.
  unfold Py.ltb. rewrite negb_true_iff.
  split; intros H.
  - apply Qnot_le_lt. intros Hle. apply Qle_bool_iff in Hle. congruence.
  - destruct (Qle_bool y x) eqn:E; [|reflexivity].
    apply Qle_bool_iff in E. exfalso. apply (Qlt_not_le _ _ H E).
Qed.

Lemma ltb_false (x y : Q) : Py.ltb x y = false <-> y <= x.
Proof.
  unfold Py.ltb. rewrite negb_false_iff. apply Qle_bool_iff.
Qed.

Lemma gtb_true (x y : Q) : Py.gtb x y = true <-> y < x.
Proof. apply ltb_true. Qed.

Lemma gtb_false (x y : Q) : Py.gtb x y = false <-> x <= y.
Proof. apply ltb_false. Qed.

Lemma leb_true (x y : Q) : Py.leb x y = true <-> x <= y.
Proof. apply Qle_bool_iff. Qed.

Lemma leb_false (x y : Q) : Py.leb x y = false <-> y < x.
Proof.
  unfold Py.leb. split; intros H.
  - apply Qnot_le_lt. intros Hle. apply Qle_bool_iff in Hle. congruence.
  - destruct (Qle_bool x y) eqn:E; [|reflexivity].
    apply Qle_bool_iff in E. exfalso. apply (Qlt_not_le _ _ H E).
Qed.

Lemma eqb_true (x y : Q) : Py.eqb x y = true <-> x == y.
Proof. apply Qeq_bool_iff. Qed.

Lemma eqb_false (x y : Q) : Py.eqb x y = false <-> ~ x == y.
Proof.
  unfold Py.eqb. split; intros H.
  - apply Qeq_bool_neq, H.
  - destruct (Qeq_bool x y) eqn:E; [|reflexivity].
    apply Qeq_bool_iff in E. contradiction.
Qed.

(** Case analysis on a Python comparison, leaving the order fact. *)
Ltac case_ltb x y :=
  let E := fresh "E" in
  destruct (Py.ltb x y) eqn:E;
  [apply ltb_true in E | apply ltb_false in E].

Lemma div100 (x : Q) : x / 100 == x * (1 # 100).
Proof. reflexivity. Qed.

Lemma min_Qmin (a b : Q) : Py.min a b == Qmin a b.
Proof.
  unfold Py.min. case_ltb b a.
  - symmetry. apply Q.min_r. apply Qlt_le_weak, E.
  - symmetry. apply Q.min_l, E.
Qed.

(** * Risk tiers *)

Ltac case_gtb x y :=
  let E := fresh "E" in
  destruct (Py.gtb x y) eqn:E;
  [apply gtb_true in E | apply gtb_false in E].

Lemma detector_risk_level_spec (m a : Q) :
  Spec.risk_tier m a (ArbitrageDetectorAgent._assess_risk_level m a).
Proof.
  unfold ArbitrageDetectorAgent._assess_risk_level.
  case_gtb m 1.0; case_ltb a 10000; case_gtb m 0.5; case_ltb a 50000;
    case_gtb m 0.2; simpl; repeat split; try assumption;
    try (intros [? ?]); try (intros ?); lra.
Qed.

Lemma risk_tier_functional (m a : Q) (t1 t2 : RiskLevel) :
  Spec.risk_tier m a t1 -> Spec.risk_tier m a t2 -> t1 = t2.
Proof.
  destruct t1, t2; simpl; try reflexivity; intros H1 H2; exfalso; tauto.
Qed.

Lemma optimizer_risk_level_eq (m a : Q) :
  InvestmentOptimizerAgent._assess_risk_level m a
  = ArbitrageDetectorAgent._assess_risk_level m a.
Proof. reflexivity. Qed.

(** C6. For every profit margin [m] and trade amount [a], the risk tier
    returned by the detector is exactly the tier that the specification's
    table assigns: LOW iff [m > 1.0] and [a < 10000]; else MEDIUM iff
    [m > 0.5] and [a < 50000]; else HIGH iff [m > 0.2]; else VERY_HIGH.  The
    inequalities are strict, so a margin of exactly 1.0 is never LOW, a margin
    of exactly 0.5 is neither LOW nor MEDIUM, and a margin of exactly 0.2 is
    VERY_HIGH.  The optimizer's risk-tier function returns the same tier. *)
Theorem risk_tier_thresholds (m a : Q) (tier : RiskLevel) :
  (ArbitrageDetectorAgent._assess_risk_level m a = tier
   <-> Spec.risk_tier m a tier)
  /\ (InvestmentOptimizerAgent._assess_risk_level m a = tier
      <-> Spec.risk_tier m a tier)
  /\ ArbitrageDetectorAgent._assess_risk_level 1.0 a <> LOW
  /\ InvestmentOptimizerAgent._assess_risk_level 1.0 a <> LOW
  /\ ArbitrageDetectorAgent._assess_risk_level 0.5 a <> LOW
  /\ ArbitrageDetectorAgent._assess_risk_level 0.5 a <> MEDIUM
  /\ InvestmentOptimizerAgent._assess_risk_level 0.5 a <> LOW
  /\ InvestmentOptimizerAgent._assess_risk_level 0.5 a <> MEDIUM
  /\ ArbitrageDetectorAgent._assess_risk_level 0.2 a = VERY_HIGH
  /\ InvestmentOptimizerAgent._assess_risk_level 0.2 a = VERY_HIGH.
Proof.
  assert (Hiff : forall m' t,
             ArbitrageDetectorAgent._assess_risk_level m' a = t
             <-> Spec.risk_tier m' a t).
  { intros m' t. split.
    - intros <-. apply detector_risk_level_spec.
    - intros H. eapply risk_tier_functional; [|exact H].
      apply detector_risk_level_spec. }
  assert (Hlow : forall m', ~ 1.0 < m' ->
             ArbitrageDetectorAgent._assess_risk_level m' a <> LOW).
  { intros m' Hm H. apply Hiff in H. simpl in H. tauto. }
  assert (Hmed : forall m', ~ 0.5 < m' ->
             ArbitrageDetectorAgent._assess_risk_level m' a <> MEDIUM).
  { intros m' Hm H. apply Hiff in H. simpl in H. tauto. }
  assert (Hvery : ArbitrageDetectorAgent._assess_risk_level 0.2 a = VERY_HIGH).
  { apply Hiff. simpl. repeat split; try (intros [? ?]); try intros ?; lra. }
  split; [apply Hiff|].
  split; [apply (Hiff m tier)|].
  split; [apply Hlow; lra|].
  split; [apply (Hlow 1.0); lra|].
  split; [apply Hlow; lra|].
  split; [apply Hmed; lra|].
  split; [apply (Hlow 0.5); lra|].
  split; [apply (Hmed 0.5); lra|].
  split; exact Hvery.
Qed.

(** At a 0.6% margin on a 5,000 USD trade both functions answer MEDIUM. *)
Lemma risk_tier_thresholds_witness :
  ArbitrageDetectorAgent._assess_risk_level 0.6 5000 = MEDIUM
  /\ InvestmentOptimizerAgent._assess_risk_level 0.6 5000 = MEDIUM.
Proof.
  destruct (risk_tier_thresholds 0.6 5000 MEDIUM) as (Hd & Ho & _).
  split; [apply Hd | apply Ho]; simpl; repeat split;
    try (intros [? ?]); lra.
Defined.

(** * Slippage bands *)

(** Turns division by the constant 100 into a multiplication, for [lra]. *)
Ltac percent := unfold Qdiv; change (/ 100) with (1 # 100).

Lemma detector_slippage_monotone (a1 a2 : Q) :
  a1 <= a2 ->
  ArbitrageDetectorAgent._estimate_slippage a1
  <= ArbitrageDetectorAgent._estimate_slippage a2.
Proof.
  intros H. unfold ArbitrageDetectorAgent._estimate_slippage.
  case_ltb a1 1000; case_ltb a1 5000; case_ltb a1 20000;
    case_ltb a2 1000; case_ltb a2 5000; case_ltb a2 20000; lra.
Qed.

Lemma optimizer_slippage_monotone (a1 a2 : Q) :
  a1 <= a2 ->
  InvestmentOptimizerAgent._estimate_slippage_for_amount a1
  <= InvestmentOptimizerAgent._estimate_slippage_for_amount a2.
Proof.
  intros H. unfold InvestmentOptimizerAgent._estimate_slippage_for_amount.
  case_ltb a1 1000; case_ltb a1 5000; case_ltb a1 25000; case_ltb a1 100000;
    case_ltb a2 1000; case_ltb a2 5000; case_ltb a2 25000;
    case_ltb a2 100000; lra.
Qed.

Lemma detector_slippage_nonneg (a : Q) :
  0 <= ArbitrageDetectorAgent._estimate_slippage a.
Proof.
  unfold ArbitrageDetectorAgent._estimate_slippage.
  case_ltb a 1000; case_ltb a 5000; case_ltb a 20000; lra.
Qed.

Lemma optimizer_slippage_nonneg (a : Q) :
  0 <= InvestmentOptimizerAgent._estimate_slippage_for_amount a.
Proof.
  unfold InvestmentOptimizerAgent._estimate_slippage_for_amount.
  case_ltb a 1000; case_ltb a 5000; case_ltb a 25000; case_ltb a 100000; lra.
Qed.

(** The cost [a * (s / 100)] grows when both the amount and the rate grow. *)
Lemma cost_monotone (a1 a2 s1 s2 : Q) :
  0 < a1 -> a1 <= a2 -> 0 <= s1 -> s1 <= s2 ->
  a1 * (s1 / 100) <= a2 * (s2 / 100).
Proof.
  intros Ha H12 Hs1 Hs. percent.
  apply Qle_trans with (a1 * (s2 * (1 # 100))).
  - apply Qmult_le_l; [exact Ha | lra].
  - apply Qmult_le_compat_r; [exact H12 | lra].
Qed.

(** C9. For both slippage policies (the detector's four bands and the
    optimizer's five bands) and all trade amounts [0 < a1 <= a2], the
    slippage percentage is non-decreasing, and so is the slippage cost
    [a * (slippage(a) / 100)]. *)
Theorem slippage_non_decreasing (a1 a2 : Q) :
  0 < a1 -> a1 <= a2 ->
  ArbitrageDetectorAgent._estimate_slippage a1
    <= ArbitrageDetectorAgent._estimate_slippage a2
  /\ a1 * (ArbitrageDetectorAgent._estimate_slippage a1 / 100)
     <= a2 * (ArbitrageDetectorAgent._estimate_slippage a2 / 100)
  /\ InvestmentOptimizerAgent._estimate_slippage_for_amount a1
     <= InvestmentOptimizerAgent._estimate_slippage_for_amount a2
  /\ a1 * (InvestmentOptimizerAgent._estimate_slippage_for_amount a1 / 100)
     <= a2 * (InvestmentOptimizerAgent._estimate_slippage_for_amount a2 / 100).
Proof.
  intros Ha H12.
  split; [apply detector_slippage_monotone, H12|].
  split.
  { apply cost_monotone; auto using detector_slippage_nonneg,
      detector_slippage_monotone. }
  split; [apply optimizer_slippage_monotone, H12|].
  apply cost_monotone; auto using optimizer_slippage_nonneg,
    optimizer_slippage_monotone.
Qed.

(** The band edge at 5,000 USD, from 4,999 to 5,000. *)
Lemma slippage_non_decreasing_witness :
  ArbitrageDetectorAgent._estimate_slippage 4999
    <= ArbitrageDetectorAgent._estimate_slippage 5000
  /\ InvestmentOptimizerAgent._estimate_slippage_for_amount 4999
     <= InvestmentOptimizerAgent._estimate_slippage_for_amount 5000.
Proof.
  destruct (slippage_non_decreasing 4999 5000) as (H1 & _ & H2 & _).
  - reflexivity.
  - discriminate.
  - split; [exact H1 | exact H2].
Defined.

(** * The optimizer's assumed spread *)

(** C10. The optimizer's assumed price spread is a function of the
    direction only: two agents with any two price sets return the same
    value, which is 1.2 for usdc->usdt, 1.1 for usdt->usdc, 0.9 when either
    token is apt, and 0.7 otherwise; and the gross profit computed for any
    investment size is exactly that percentage of the trade amount. *)
Theorem optimizer_spread_direction_only
    (self self' : InvestmentOptimizerAgent.agent)
    (from_token to_token : string) :
  InvestmentOptimizerAgent._calculate_price_difference self from_token to_token
  = InvestmentOptimizerAgent._calculate_price_difference self' from_token to_token
  /\ (from_token = "usdc"%string -> to_token = "usdt"%string ->
      InvestmentOptimizerAgent._calculate_price_difference self
        from_token to_token = 1.2)
  /\ (from_token = "usdt"%string -> to_token = "usdc"%string ->
      InvestmentOptimizerAgent._calculate_price_difference self
        from_token to_token = 1.1)
  /\ (from_token = "apt"%string \/ to_token = "apt"%string ->
      InvestmentOptimizerAgent._calculate_price_difference self
        from_token to_token = 0.9)
  /\ (~ (from_token = "usdc"%string /\ to_token = "usdt"%string) ->
      ~ (from_token = "usdt"%string /\ to_token = "usdc"%string) ->
      from_token <> "apt"%string -> to_token <> "apt"%string ->
      InvestmentOptimizerAgent._calculate_price_difference self
        from_token to_token = 0.7)
  /\ (forall (apt_amount trade_amount_usd : Q) (custom_dex_fees : Py.dict Q),
      InvestmentOptimizerAgent.gross_profit
        (InvestmentOptimizerAgent._calculate_profit_for_amount self
           apt_amount trade_amount_usd from_token to_token custom_dex_fees)
      = trade_amount_usd
        * (InvestmentOptimizerAgent._calculate_price_difference self'
             from_token to_token / 100)).
Proof.
  unfold InvestmentOptimizerAgent._calculate_price_difference.
  split; [reflexivity|].
  split.
  { intros -> ->. reflexivity. }
  split.
  { intros -> ->. reflexivity. }
  split.
  { intros Hapt.
    destruct (String.eqb from_token "usdc" && String.eqb to_token "usdt") eqn:E1.
    { apply andb_true_iff in E1 as [E1 E2].
      apply String.eqb_eq in E1, E2. subst. destruct Hapt; discriminate. }
    destruct (String.eqb from_token "usdt" && String.eqb to_token "usdc") eqn:E2.
    { apply andb_true_iff in E2 as [E2 E3].
      apply String.eqb_eq in E2, E3. subst. destruct Hapt; discriminate. }
    rewrite bool_decide_eq_true_2; [reflexivity|].
    destruct Hapt as [-> | ->]; set_solver. }
  split.
  { intros H1 H2 H3 H4.
    destruct (String.eqb from_token "usdc" && String.eqb to_token "usdt") eqn:E1.
    { apply andb_true_iff in E1 as [E1 E2].
      apply String.eqb_eq in E1, E2. tauto. }
    destruct (String.eqb from_token "usdt" && String.eqb to_token "usdc") eqn:E2.
    { apply andb_true_iff in E2 as [E2 E3].
      apply String.eqb_eq in E2, E3. tauto. }
    rewrite bool_decide_eq_false_2; [reflexivity|].
    intros Hin. apply elem_of_cons in Hin as [Hin | Hin]; [congruence|].
    apply elem_of_cons in Hin as [Hin | Hin]; [congruence|].
    inversion Hin. }
  intros apt_amount trade_amount_usd custom_dex_fees. reflexivity.
Qed.

(** The usdc->usdt direction at two different price sets. *)
Lemma optimizer_spread_direction_only_witness :
  InvestmentOptimizerAgent._calculate_price_difference
    InvestmentOptimizerAgent.init "usdc" "usdt" = 1.2
  /\ InvestmentOptimizerAgent._calculate_price_difference
       (InvestmentOptimizerAgent.mkAgent (mkPrices 8 1.01 0.98)) "usdc" "usdt"
     = 1.2.
Proof.
  destruct (optimizer_spread_direction_only InvestmentOptimizerAgent.init
              (InvestmentOptimizerAgent.mkAgent (mkPrices 8 1.01 0.98))
              "usdc" "usdt") as (Heq & H12 & _).
  split; [|rewrite <- Heq]; apply H12; reflexivity.
Defined.

(** * The detector's spread model *)

Lemma is_generic_dex_spec (dex : string) :
  ArbitrageDetectorAgent.is_generic_dex dex = true
  <-> Spec.generic_placeholder dex.
Proof.
  unfold ArbitrageDetectorAgent.is_generic_dex, Spec.generic_placeholder.
  rewrite bool_decide_eq_true, !elem_of_cons, elem_of_nil. tauto.
Qed.

Lemma is_round_trip_spec (from_pair to_pair : string) :
  ArbitrageDetectorAgent._is_round_trip_same_pair from_pair to_pair = true
  <-> Spec.tokens from_pair = Spec.tokens to_pair.
Proof.
  unfold ArbitrageDetectorAgent._is_round_trip_same_pair, Spec.tokens.
  apply bool_decide_eq_true.
Qed.

(** The price validation loop passes exactly on positive price sets. *)
Lemma price_validation_passes (p : PriceSet) :
  Spec.positive_prices p ->
  existsb (fun tp : string * Q => Py.leb tp.2 0) (price_items p) = false.
Proof.
  intros (Ha & Hc & Ht). unfold price_items. cbn [existsb snd].
  rewrite !(proj2 (leb_false _ _)); auto.
Qed.

Lemma dex_spread_agrees (from_dex to_dex : string) :
  (if ArbitrageDetectorAgent.is_generic_dex from_dex
      && ArbitrageDetectorAgent.is_generic_dex to_dex
   then 0.0
   else Qabs (Py.get ArbitrageDetectorAgent.dex_price_factors from_dex 1.0
              - Py.get ArbitrageDetectorAgent.dex_price_factors to_dex 1.0)
        * 100)
  == Spec.dex_spread from_dex to_dex.
Proof.
  unfold Spec.dex_spread, Spec.factor.
  destruct (decide _) as [[Hf Ht] | Hn].
  - apply is_generic_dex_spec in Hf, Ht. rewrite Hf, Ht. reflexivity.
  - destruct (ArbitrageDetectorAgent.is_generic_dex from_dex) eqn:Ef;
      destruct (ArbitrageDetectorAgent.is_generic_dex to_dex) eqn:Et;
      cbn [andb]; try reflexivity.
    exfalso. apply Hn. split; apply is_generic_dex_spec; assumption.
Qed.

Lemma rate_positive (x y : Q) : 0 < x -> 0 < y -> 0 < x / y.
Proof.
  intros Hx Hy. apply Qlt_shift_div_l; [exact Hy | lra].
Qed.

(** C5. For every price set with positive prices and every pair of DEX
    identifiers, the spread model applied to the route usdc_apt -> usdt_apt
    returns [min(0.6 + 0.1 * relative_rate_difference_percent + dex_spread,
    3.0)], with the cross rates [apt/usdc] and [apt/usdt] and the DEX spread
    taken from the fixed factor table (zero between generic placeholders).
    No route with these two pairs is an impossible round trip, so the
    formula applies to all of them. *)
Theorem usdc_apt_to_usdt_apt_spread_formula
    (self : ArbitrageDetectorAgent.agent) (from_dex to_dex : string) :
  Spec.positive_prices (ArbitrageDetectorAgent.current_prices self) ->
  ArbitrageDetectorAgent._calculate_price_difference self
    "usdc_apt" "usdt_apt" from_dex to_dex
  == Spec.usdc_apt_to_usdt_apt_spread
       (ArbitrageDetectorAgent.current_prices self) from_dex to_dex.
Proof.
  intros Hpos. pose proof Hpos as (Ha & Hc & Ht).
  unfold ArbitrageDetectorAgent._calculate_price_difference.
  rewrite (price_validation_passes _ Hpos).
  assert (Hrt : ArbitrageDetectorAgent._is_round_trip_same_pair
                  "usdc_apt" "usdt_apt" = false)
    by (vm_compute; reflexivity).
  rewrite Hrt, andb_false_r.
  change (String.eqb "usdc_apt" "usdc_apt" && String.eqb "usdt_apt" "usdt_apt")
    with true.
  cbv iota.
  rewrite !(proj2 (gtb_true _ _)) by assumption.
  rewrite !(proj2 (eqb_false _ _)).
  2: { intros H. pose proof (rate_positive _ _ Ha Ht). lra. }
  2: { intros H. pose proof (rate_positive _ _ Ha Hc). lra. }
  cbn [orb].
  rewrite min_Qmin. unfold Spec.usdc_apt_to_usdt_apt_spread.
  rewrite dex_spread_agrees.
  unfold Spec.relative_rate_difference_percent.
  apply Q.min_compat; [|reflexivity].
  ring.
Qed.

(** The initial prices (apt 12.45, usdc 1.00, usdt 0.999) between
    pancakeswap and thalaswap. *)
Lemma usdc_apt_to_usdt_apt_spread_formula_witness :
  ArbitrageDetectorAgent._calculate_price_difference
    ArbitrageDetectorAgent.init "usdc_apt" "usdt_apt" "pancakeswap" "thalaswap"
  == Spec.usdc_apt_to_usdt_apt_spread
       (ArbitrageDetectorAgent.current_prices ArbitrageDetectorAgent.init)
       "pancakeswap" "thalaswap".
Proof.
  apply (usdc_apt_to_usdt_apt_spread_formula ArbitrageDetectorAgent.init).
  repeat split.
Defined.

(** * Fee resolution and charge calculation *)

Lemma get_opt_In {V} (d : Py.dict V) (k : string) (v : V) :
  Py.get_opt d k = Some v -> In v (Py.values d).
Proof.
  induction d as [|[k' v'] d IH]; simpl; [discriminate|].
  destruct (String.eqb k' k).
  - intros [= ->]. left. reflexivity.
  - intros H. right. apply IH, H.
Qed.

(** What the fee resolution can return: a pair of entries of the schedule,
    of the 0.25 default, or of zero. *)
Lemma resolve_dex_fees_returns
    (custom_dex_fees : Py.dict Q) (from_dex to_dex : string) :
  exists from_fee to_fee,
    ArbitrageDetectorAgent.resolve_dex_fees custom_dex_fees from_dex to_dex
    = Py.Ret (from_fee, to_fee)
    /\ (In from_fee (Py.values custom_dex_fees)
        \/ from_fee = 0.25 \/ from_fee = 0.0)
    /\ (In to_fee (Py.values custom_dex_fees)
        \/ to_fee = 0.25 \/ to_fee = 0.0).
Proof.
  unfold ArbitrageDetectorAgent.resolve_dex_fees.
  destruct (Py.nonempty custom_dex_fees) eqn:Ene.
  2: { eexists _, _. split; [reflexivity|]. auto. }
  destruct (Py.nonempty (ArbitrageDetectorAgent.specific_dex_names _)).
  { eexists _, _. split; [reflexivity|].
    unfold Py.get.
    split.
    - destruct (Py.get_opt custom_dex_fees from_dex) eqn:Ef;
        [left; eapply get_opt_In, Ef | right; left; reflexivity].
    - destruct (Py.get_opt custom_dex_fees to_dex) eqn:Et;
        [left; eapply get_opt_In, Et | right; left; reflexivity]. }
  unfold Py.mem, Py.getitem.
  destruct (Py.get_opt custom_dex_fees "Smart Contract") eqn:Esc.
  { eexists _, _. split; [reflexivity|].
    split; left; eapply get_opt_In, Esc. }
  assert (Hgen : exists fee,
    Py.or_else (Py.get_opt custom_dex_fees "default")
      (Py.or_else (Py.get_opt custom_dex_fees "fee")
         (Py.head (Py.values custom_dex_fees))) = Py.Ret fee
    /\ In fee (Py.values custom_dex_fees)).
  { unfold Py.or_else.
    destruct (Py.get_opt custom_dex_fees "default") as [d|] eqn:Ed.
    - destruct (Py.eqb d 0); [|exists d; split; [reflexivity | eapply get_opt_In, Ed]].
      destruct (Py.get_opt custom_dex_fees "fee") as [f|] eqn:Efee.
      + destruct (Py.eqb f 0); [|exists f; split; [reflexivity | eapply get_opt_In, Efee]].
        destruct custom_dex_fees as [|[k v] rest]; [discriminate|].
        exists v. split; [reflexivity | left; reflexivity].
      + destruct custom_dex_fees as [|[k v] rest]; [discriminate|].
        exists v. split; [reflexivity | left; reflexivity].
    - destruct (Py.get_opt custom_dex_fees "fee") as [f|] eqn:Efee.
      + destruct (Py.eqb f 0); [|exists f; split; [reflexivity | eapply get_opt_In, Efee]].
        destruct custom_dex_fees as [|[k v] rest]; [discriminate|].
        exists v. split; [reflexivity | left; reflexivity].
      + destruct custom_dex_fees as [|[k v] rest]; [discriminate|].
        exists v. split; [reflexivity | left; reflexivity]. }
  destruct Hgen as (fee & -> & Hin).
  eexists _, _. split; [reflexivity|]. auto.
Qed.

(** A zero trade amount makes the percentage division raise, and the
    handler turns that into the error response. *)
Lemma calculate_charges_zero
    (self : ArbitrageDetectorAgent.agent)
    (input : ArbitrageDetectorAgent.input_data) :
  Request.amount input == 0 ->
  ArbitrageDetectorAgent._calculate_charges self input
  = StatusError (ArbitrageDetectorAgent.ChargeCalculationFailed
                   Py.ZeroDivisionError).
Proof.
  intros Hz.
  unfold ArbitrageDetectorAgent._calculate_charges,
    ArbitrageDetectorAgent.calculate_charges_body.
  destruct (resolve_dex_fees_returns (Request.fees input)
              (ArbitrageDetectorAgent.from_dex (Request.route input))
              (ArbitrageDetectorAgent.to_dex (Request.route input)))
    as (ff & tf & Hres & _).
  unfold Request.route, Request.fees in Hres. cbn [ArbitrageDetectorAgent.from_dex
    ArbitrageDetectorAgent.to_dex] in Hres.
  rewrite Hres.
  unfold mbind, Py.M_bind, Py.div.
  change (Py.getitem ArbitrageDetectorAgent.gas_unit_costs "swap")
    with (Py.Ret 1000%Z).
  cbv iota beta.
  unfold Request.amount in Hz.
  rewrite (proj2 (eqb_true _ _) Hz). reflexivity.
Qed.

(** Any other trade amount yields a breakdown, whose fields are the
    rounded raw components. *)
Lemma calculate_charges_nonzero
    (self : ArbitrageDetectorAgent.agent)
    (input : ArbitrageDetectorAgent.input_data) :
  ~ Request.amount input == 0 ->
  exists r from_fee to_fee,
    ArbitrageDetectorAgent.resolve_dex_fees (Request.fees input)
      (ArbitrageDetectorAgent.from_dex (Request.route input))
      (ArbitrageDetectorAgent.to_dex (Request.route input))
    = Py.Ret (from_fee, to_fee)
    /\ ArbitrageDetectorAgent._calculate_charges self input = Success r
    /\ ArbitrageDetectorAgent.cr_route r = Request.route input
    /\ (let c := ArbitrageDetectorAgent.cr_charges r in
        let a := Request.amount input in
        ArbitrageDetectorAgent.from_dex_fee_percent c = from_fee
        /\ ArbitrageDetectorAgent.to_dex_fee_percent c = to_fee
        /\ ArbitrageDetectorAgent.total_trading_fees_usd c
           = Py.round (Cost.trading_fees a from_fee to_fee) 4
        /\ ArbitrageDetectorAgent.total_gas_cost_usd c
           = Py.round (Cost.gas_usd self) 4
        /\ ArbitrageDetectorAgent.estimated_slippage_cost_usd c
           = Py.round (Cost.slippage a) 4
        /\ ArbitrageDetectorAgent.total_fees_usd c
           = Py.round (Cost.total self a from_fee to_fee) 4
        /\ ArbitrageDetectorAgent.cost_percentage c
           = Py.round (Cost.total self a from_fee to_fee / a * 100) 4).
Proof.
  intros Hnz.
  destruct (resolve_dex_fees_returns (Request.fees input)
              (ArbitrageDetectorAgent.from_dex (Request.route input))
              (ArbitrageDetectorAgent.to_dex (Request.route input)))
    as (ff & tf & Hres & _).
  unfold ArbitrageDetectorAgent._calculate_charges,
    ArbitrageDetectorAgent.calculate_charges_body.
  pose proof Hres as Hres'.
  unfold Request.route, Request.fees in Hres'. cbn [ArbitrageDetectorAgent.from_dex
    ArbitrageDetectorAgent.to_dex] in Hres'.
  rewrite Hres'.
  unfold mbind, Py.M_bind, Py.div.
  change (Py.getitem ArbitrageDetectorAgent.gas_unit_costs "swap")
    with (Py.Ret 1000%Z).
  cbv iota beta.
  unfold Request.amount in Hnz.
  rewrite (proj2 (eqb_false _ _) Hnz).
  eexists _, ff, tf. split; [exact Hres|].
  split; [reflexivity|].
  split; [reflexivity|].
  cbv zeta. repeat split; reflexivity.
Qed.

(** * Impossible routes *)

(** Between generic placeholders (equal or not) a round trip on one token
    set is answered by the sentinel, whatever the prices. *)
Lemma generic_round_trip_sentinel
    (self : ArbitrageDetectorAgent.agent)
    (from_pair to_pair from_dex to_dex : string) :
  Spec.generic_placeholder from_dex -> Spec.generic_placeholder to_dex ->
  Spec.tokens from_pair = Spec.tokens to_pair ->
  ArbitrageDetectorAgent._calculate_price_difference self
    from_pair to_pair from_dex to_dex
  = ArbitrageDetectorAgent.SENTINEL.
Proof.
  intros Hf Ht Htok.
  apply is_generic_dex_spec in Hf, Ht. apply is_round_trip_spec in Htok.
  unfold ArbitrageDetectorAgent._calculate_price_difference.
  destruct (existsb _ _); [reflexivity|].
  rewrite Hf, Ht, Htok. reflexivity.
Qed.

(** The evaluator turns a sentinel spread into the impossible-arbitrage
    error, provided the charge calculation went through. *)
Lemma check_profitability_sentinel
    (self : ArbitrageDetectorAgent.agent)
    (input : ArbitrageDetectorAgent.input_data) :
  ~ Request.amount input == 0 ->
  ArbitrageDetectorAgent._calculate_price_difference self
    (ArbitrageDetectorAgent.from_pair (Request.route input))
    (ArbitrageDetectorAgent.to_pair (Request.route input))
    (ArbitrageDetectorAgent.from_dex (Request.route input))
    (ArbitrageDetectorAgent.to_dex (Request.route input))
  = ArbitrageDetectorAgent.SENTINEL ->
  ArbitrageDetectorAgent._check_profitability self input
  = StatusError (ArbitrageDetectorAgent.ImpossibleArbitrage
                   (ArbitrageDetectorAgent.current_prices self)
                   (Request.route input)).
Proof.
  intros Hnz Hs.
  destruct (calculate_charges_nonzero self input Hnz)
    as (r & ff & tf & _ & Hc & _).
  unfold ArbitrageDetectorAgent._check_profitability.
  rewrite Hc.
  unfold ArbitrageDetectorAgent.check_profitability_body.
  unfold Request.route, Request.fees in Hs.
  cbn [ArbitrageDetectorAgent.from_pair ArbitrageDetectorAgent.to_pair
       ArbitrageDetectorAgent.from_dex ArbitrageDetectorAgent.to_dex] in Hs.
  rewrite Hs. reflexivity.
Qed.




(** * Rounding *)

Lemma ltb_comp (x x' y y' : Q) :
  x == x' -> y == y' -> Py.ltb x y = Py.ltb x' y'.
Proof.
  intros Hx Hy. unfold Py.ltb. f_equal. apply Qleb_comp; assumption.
Qed.

(** [round] does not distinguish equal rationals. *)
Lemma round_comp (x y : Q) (ndigits : nat) :
  x == y -> Py.round x ndigits = Py.round y ndigits.
Proof.
  intros Hxy. unfold Py.round.
  set (scale := inject_Z (10 ^ Z.of_nat ndigits)).
  assert (Hs : x * scale == y * scale) by (rewrite Hxy; reflexivity).
  rewrite (Qfloor_comp _ _ Hs).
  rewrite (ltb_comp (x * scale - inject_Z (Qfloor (y * scale)))
             (y * scale - inject_Z (Qfloor (y * scale))) (1 # 2) (1 # 2));
    [|rewrite Hs; reflexivity | reflexivity].
  rewrite (ltb_comp (1 # 2) (1 # 2)
             (x * scale - inject_Z (Qfloor (y * scale)))
             (y * scale - inject_Z (Qfloor (y * scale))));
    [reflexivity | reflexivity | rewrite Hs; reflexivity].
Qed.

Lemma scale_positive (ndigits : nat) : 0 < inject_Z (10 ^ Z.of_nat ndigits).
Proof.
  change 0 with (inject_Z 0). rewrite <- Zlt_Qlt.
  apply Z.pow_pos_nonneg; lia.
Qed.

(** Rounding keeps a non-negative amount non-negative. *)
Lemma round_nonneg (x : Q) (ndigits : nat) :
  0 <= x -> 0 <= Py.round x ndigits.
Proof.
  intros Hx. unfold Py.round.
  pose proof (scale_positive ndigits) as Hsc.
  set (scale := inject_Z (10 ^ Z.of_nat ndigits)) in *.
  assert (Hfl : (0 <= Qfloor (x * scale))%Z).
  { change 0%Z with (Qfloor 0). apply Qfloor_resp_le.
    apply Qmult_le_0_compat; [exact Hx | apply Qlt_le_weak, Hsc]. }
  apply Qle_shift_div_l; [exact Hsc|].
  rewrite Qmult_0_l. change 0 with (inject_Z 0). rewrite <- Zle_Qle.
  destruct (if Py.ltb _ _ then false else _); lia.
Qed.

Lemma round_zero (x : Q) (ndigits : nat) :
  x == 0 -> Py.round x ndigits == 0.
Proof.
  intros Hx. rewrite (round_comp x 0 ndigits Hx).
  unfold Py.round.
  set (scale := inject_Z (10 ^ Z.of_nat ndigits)).
  assert (Hfl : Qfloor (0 * scale) = 0%Z).
  { rewrite (Qfloor_comp (0 * scale) 0); [reflexivity | apply Qmult_0_l]. }
  rewrite Hfl.
  assert (Hlt : Py.ltb (0 * scale - inject_Z 0) (1 # 2) = true).
  { apply ltb_true. change (inject_Z 0) with 0. lra. }
  rewrite Hlt. unfold Qdiv. apply Qmult_0_l.
Qed.

(** * Non-positive trade amounts *)

(** C2, as stated, fails: for the trade amount -1 the charge calculation
    answers with a breakdown whose cost percentage is -2.47. *)
Lemma negative_amount_gets_a_breakdown :
  exists r,
    ArbitrageDetectorAgent._calculate_charges ArbitrageDetectorAgent.init
      (ArbitrageDetectorAgent.mkInput None None (Some (-1)) None None None)
    = Success r
    /\ ArbitrageDetectorAgent.cost_percentage
         (ArbitrageDetectorAgent.cr_charges r) == -2.47
    /\ ArbitrageDetectorAgent.cost_percentage
         (ArbitrageDetectorAgent.cr_charges r) < 0.
Proof.
  eexists. split; [vm_compute; reflexivity|].
  split; vm_compute; reflexivity.
Qed.

(** C2, amended. For a trade amount equal to zero the charge calculation
    returns an explicit error result (the division by zero caught by its
    handler) and no cost breakdown.  For a negative trade amount the code
    performs no validation: it returns a cost breakdown for the requested
    route, whose cost percentage is the rounded quotient
    [total / amount * 100]. *)
Theorem charges_of_non_positive_amount
    (self : ArbitrageDetectorAgent.agent)
    (input : ArbitrageDetectorAgent.input_data) :
  (Request.amount input == 0 ->
   ArbitrageDetectorAgent._calculate_charges self input
   = StatusError (ArbitrageDetectorAgent.ChargeCalculationFailed
                    Py.ZeroDivisionError))
  /\ (Request.amount input < 0 ->
      exists r,
        ArbitrageDetectorAgent._calculate_charges self input = Success r
        /\ ArbitrageDetectorAgent.cr_route r = Request.route input
        /\ ArbitrageDetectorAgent.cost_percentage
             (ArbitrageDetectorAgent.cr_charges r)
           = Py.round
               (Cost.total self (Request.amount input)
                  (ArbitrageDetectorAgent.from_dex_fee_percent
                     (ArbitrageDetectorAgent.cr_charges r))
                  (ArbitrageDetectorAgent.to_dex_fee_percent
                     (ArbitrageDetectorAgent.cr_charges r))
                / Request.amount input * 100) 4).
Proof.
  split.
  - apply calculate_charges_zero.
  - intros Hneg.
    destruct (calculate_charges_nonzero self input)
      as (r & ff & tf & _ & Hc & Hroute & Hff & Htf & _ & _ & _ & _ & Hpct).
    { intros Hz. rewrite Hz in Hneg. discriminate. }
    exists r. rewrite Hff, Htf. auto.
Qed.

(** A zero amount and the amount -1 on the initial agent. *)
Lemma charges_of_non_positive_amount_witness :
  ArbitrageDetectorAgent._calculate_charges ArbitrageDetectorAgent.init
    (ArbitrageDetectorAgent.mkInput None None (Some 0) None None None)
  = StatusError (ArbitrageDetectorAgent.ChargeCalculationFailed
                   Py.ZeroDivisionError)
  /\ exists r,
       ArbitrageDetectorAgent._calculate_charges ArbitrageDetectorAgent.init
         (ArbitrageDetectorAgent.mkInput None None (Some (-1)) None None None)
       = Success r.
Proof.
  split.
  - apply (charges_of_non_positive_amount ArbitrageDetectorAgent.init
             (ArbitrageDetectorAgent.mkInput None None (Some 0) None None None)).
    reflexivity.
  - destruct (charges_of_non_positive_amount ArbitrageDetectorAgent.init
                (ArbitrageDetectorAgent.mkInput None None (Some (-1))
                   None None None)) as [_ Hneg].
    destruct Hneg as (r & Hr & _); [reflexivity|].
    exists r. exact Hr.
Defined.

(** * Empty fee schedules *)

(** C3, as stated, fails for the optimizer: with an empty fee schedule it
    charges 0.25% on the first leg and 0.30% on the second, 6.8475 USD of
    trading fees on a 1,245 USD trade. *)
Lemma optimizer_charges_default_fees :
  InvestmentOptimizerAgent.from_dex_fee_of [] == 0.25
  /\ InvestmentOptimizerAgent.to_dex_fee_of [] == 0.30
  /\ InvestmentOptimizerAgent.trading_fees
       (InvestmentOptimizerAgent._calculate_profit_for_amount
          InvestmentOptimizerAgent.init 100 1245 "usdc" "usdt" [])
     == 6.8475
  /\ ~ InvestmentOptimizerAgent.from_dex_fee_of [] == 0
  /\ ~ InvestmentOptimizerAgent.to_dex_fee_of [] == 0.
Proof.
  repeat split; vm_compute; try reflexivity; discriminate.
Qed.

(** C3, amended. With an empty fee schedule the detector's charge
    calculation assumes zero fees: both legs' fee percent and the trading
    fees are zero in every breakdown it returns, and it returns one for
    every non-zero trade amount.  The optimizer's per-amount profit
    calculation instead falls back to its built-in defaults, 0.25% for the
    first leg and 0.30% for the second. *)
Theorem empty_fee_schedule_fees
    (self : ArbitrageDetectorAgent.agent)
    (input : ArbitrageDetectorAgent.input_data)
    (optimizer : InvestmentOptimizerAgent.agent)
    (apt_amount trade_amount_usd : Q) (from_token to_token : string) :
  Request.fees input = [] ->
  (forall r,
     ArbitrageDetectorAgent._calculate_charges self input = Success r ->
     let c := ArbitrageDetectorAgent.cr_charges r in
     ArbitrageDetectorAgent.from_dex_fee_percent c == 0
     /\ ArbitrageDetectorAgent.to_dex_fee_percent c == 0
     /\ ArbitrageDetectorAgent.total_trading_fees_usd c == 0)
  /\ (~ Request.amount input == 0 ->
      exists r, ArbitrageDetectorAgent._calculate_charges self input = Success r)
  /\ InvestmentOptimizerAgent.from_dex_fee_of [] = 0.25
  /\ InvestmentOptimizerAgent.to_dex_fee_of [] = 0.30
  /\ InvestmentOptimizerAgent.trading_fees
       (InvestmentOptimizerAgent._calculate_profit_for_amount optimizer
          apt_amount trade_amount_usd from_token to_token [])
     = trade_amount_usd * (0.25 / 100) + trade_amount_usd * (0.30 / 100).
Proof.
  intros Hempty. split; [|split; [|repeat split]].
  - intros r Hr c.
    destruct (Qeq_dec (Request.amount input) 0) as [Hz | Hnz].
    { rewrite (calculate_charges_zero self input Hz) in Hr. discriminate. }
    destruct (calculate_charges_nonzero self input Hnz)
      as (r' & ff & tf & Hres & Hc & _ & Hff & Htf & Htrade & _).
    rewrite Hc in Hr. injection Hr as <-.
    rewrite Hempty in Hres. injection Hres as <- <-.
    subst c. rewrite Hff, Htf, Htrade.
    split; [reflexivity|]. split; [reflexivity|].
    apply round_zero. unfold Cost.trading_fees. percent. ring.
  - intros Hnz.
    destruct (calculate_charges_nonzero self input Hnz) as (r & _ & _ & _ & Hc & _).
    exists r. exact Hc.
Qed.

(** A 1,000 USD request without fees on the initial agent. *)
Lemma empty_fee_schedule_fees_witness :
  exists r,
    ArbitrageDetectorAgent._calculate_charges ArbitrageDetectorAgent.init
      (ArbitrageDetectorAgent.mkInput None None (Some 1000) (Some []) None None)
    = Success r
    /\ ArbitrageDetectorAgent.from_dex_fee_percent
         (ArbitrageDetectorAgent.cr_charges r) == 0
    /\ ArbitrageDetectorAgent.to_dex_fee_percent
         (ArbitrageDetectorAgent.cr_charges r) == 0.
Proof.
  destruct (empty_fee_schedule_fees ArbitrageDetectorAgent.init
              (ArbitrageDetectorAgent.mkInput None None (Some 1000) (Some [])
                 None None)
              InvestmentOptimizerAgent.init 100 1245 "usdc" "usdt")
    as (Hzero & Hret & _).
  { reflexivity. }
  destruct Hret as (r & Hr); [discriminate|].
  exists r. split; [exact Hr|].
  destruct (Hzero r Hr) as (Hf & Ht & _). split; assumption.
Defined.

(** * The cost breakdown *)

Lemma gas_cost_apt_nonneg (gas_unit_price : Z) :
  (0 <= gas_unit_price)%Z ->
  0 <= ArbitrageDetectorAgent._calculate_gas_cost_apt "swap" gas_unit_price.
Proof.
  intros Hg. unfold ArbitrageDetectorAgent._calculate_gas_cost_apt.
  change (Py.get ArbitrageDetectorAgent.gas_unit_costs "swap" 1000%Z)
    with 1000%Z.
  apply Qle_shift_div_l; [reflexivity|].
  rewrite Qmult_0_l. change 0 with (inject_Z 0). rewrite <- Zle_Qle. lia.
Qed.

Lemma trading_fees_nonneg (a from_fee to_fee : Q) :
  0 <= a -> 0 <= from_fee -> 0 <= to_fee ->
  0 <= Cost.trading_fees a from_fee to_fee.
Proof.
  intros Ha Hf Ht. unfold Cost.trading_fees. percent.
  assert (0 <= a * (from_fee * (1 # 100)))
    by (apply Qmult_le_0_compat; lra).
  assert (0 <= a * (to_fee * (1 # 100)))
    by (apply Qmult_le_0_compat; lra).
  lra.
Qed.

Lemma gas_usd_nonneg (self : ArbitrageDetectorAgent.agent) :
  (0 <= ArbitrageDetectorAgent._cached_gas_price self)%Z ->
  0 <= apt (ArbitrageDetectorAgent.current_prices self) ->
  0 <= Cost.gas_usd self.
Proof.
  intros Hg Hp. unfold Cost.gas_usd.
  apply Qmult_le_0_compat; [|exact Hp].
  pose proof (gas_cost_apt_nonneg _ Hg). lra.
Qed.

Lemma slippage_cost_nonneg (a : Q) : 0 <= a -> 0 <= Cost.slippage a.
Proof.
  intros Ha. unfold Cost.slippage. percent.
  apply Qmult_le_0_compat; [exact Ha|].
  pose proof (detector_slippage_nonneg a). lra.
Qed.

Lemma resolved_fee_nonneg (fees : Py.dict Q) (fee : Q) :
  Forall (fun v => 0 <= v) (Py.values fees) ->
  In fee (Py.values fees) \/ fee = 0.25 \/ fee = 0.0 ->
  0 <= fee.
Proof.
  intros Hall [Hin | [-> | ->]]; try discriminate.
  rewrite List.Forall_forall in Hall. apply Hall, Hin.
Qed.

(** C4, as stated, fails on the last point: for 1,000 USD without fees the
    total cost is 0.5249 USD, so total / amount * 100 is 0.05249, but the
    reported cost percentage is 0.0525, the value rounded to four places.
    The gas component follows the sign of the cached gas unit price, which
    the claim leaves open: at -100 octas it is negative. *)
Lemma reported_percentage_is_rounded :
  exists r,
    ArbitrageDetectorAgent._calculate_charges ArbitrageDetectorAgent.init
      (ArbitrageDetectorAgent.mkInput None None (Some 1000) None None None)
    = Success r
    /\ Cost.total ArbitrageDetectorAgent.init 1000 0 0 == 0.5249
    /\ ArbitrageDetectorAgent.total_fees_usd
         (ArbitrageDetectorAgent.cr_charges r) == 0.5249
    /\ ArbitrageDetectorAgent.cost_percentage
         (ArbitrageDetectorAgent.cr_charges r) == 0.0525
    /\ ~ ArbitrageDetectorAgent.cost_percentage
           (ArbitrageDetectorAgent.cr_charges r)
         == Cost.total ArbitrageDetectorAgent.init 1000 0 0 / 1000 * 100
    /\ ~ ArbitrageDetectorAgent.cost_percentage
           (ArbitrageDetectorAgent.cr_charges r)
         == ArbitrageDetectorAgent.total_fees_usd
              (ArbitrageDetectorAgent.cr_charges r) / 1000 * 100
    /\ Cost.gas_usd
         (ArbitrageDetectorAgent.mkAgent (mkPrices 12.45 1.00 0.999) (-100))
       < 0.
Proof.
  eexists. split; [vm_compute; reflexivity|].
  repeat split; vm_compute; try reflexivity; discriminate.
Qed.

(** C4, amended. For every trade amount [a > 0], every fee schedule with
    non-negative fee percentages, every price set with positive prices and
    a non-negative cached gas unit price, the charge calculation returns a
    breakdown in which both fee percents, each raw cost component (trading
    fees, gas, slippage) and their total are [>= 0]; every reported amount
    is the raw amount rounded to four decimal places and is [>= 0]; and the
    reported cost percentage is [total / a * 100] rounded to four decimal
    places, where [total] is the unrounded total cost. *)
Theorem cost_breakdown_non_negative
    (self : ArbitrageDetectorAgent.agent)
    (input : ArbitrageDetectorAgent.input_data) :
  0 < Request.amount input ->
  Forall (fun fee => 0 <= fee) (Py.values (Request.fees input)) ->
  Spec.positive_prices (ArbitrageDetectorAgent.current_prices self) ->
  (0 <= ArbitrageDetectorAgent._cached_gas_price self)%Z ->
  exists r,
    ArbitrageDetectorAgent._calculate_charges self input = Success r
    /\ (let c := ArbitrageDetectorAgent.cr_charges r in
        let a := Request.amount input in
        let from_fee := ArbitrageDetectorAgent.from_dex_fee_percent c in
        let to_fee := ArbitrageDetectorAgent.to_dex_fee_percent c in
        let total := Cost.total self a from_fee to_fee in
        (0 <= from_fee /\ 0 <= to_fee)
        /\ (0 <= Cost.trading_fees a from_fee to_fee
            /\ 0 <= Cost.gas_usd self
            /\ 0 <= Cost.slippage a
            /\ 0 <= total)
        /\ (ArbitrageDetectorAgent.total_trading_fees_usd c
              = Py.round (Cost.trading_fees a from_fee to_fee) 4
            /\ ArbitrageDetectorAgent.total_gas_cost_usd c
               = Py.round (Cost.gas_usd self) 4
            /\ ArbitrageDetectorAgent.estimated_slippage_cost_usd c
               = Py.round (Cost.slippage a) 4
            /\ ArbitrageDetectorAgent.total_fees_usd c = Py.round total 4
            /\ ArbitrageDetectorAgent.cost_percentage c
               = Py.round (total / a * 100) 4)
        /\ (0 <= ArbitrageDetectorAgent.total_trading_fees_usd c
            /\ 0 <= ArbitrageDetectorAgent.total_gas_cost_usd c
            /\ 0 <= ArbitrageDetectorAgent.estimated_slippage_cost_usd c
            /\ 0 <= ArbitrageDetectorAgent.total_fees_usd c
            /\ 0 <= ArbitrageDetectorAgent.cost_percentage c)).
Proof.
  intros Ha Hfees (Hapt & _ & _) Hgas.
  destruct (calculate_charges_nonzero self input)
    as (r & ff & tf & Hres & Hc & _ & Hff & Htf & Htr & Hg & Hsl & Htot & Hpct).
  { intros Hz. rewrite Hz in Ha. discriminate. }
  destruct (resolve_dex_fees_returns (Request.fees input)
              (ArbitrageDetectorAgent.from_dex (Request.route input))
              (ArbitrageDetectorAgent.to_dex (Request.route input)))
    as (ff' & tf' & Hres' & Hinf & Hint).
  rewrite Hres in Hres'. injection Hres' as <- <-.
  pose proof (resolved_fee_nonneg _ _ Hfees Hinf) as Hf0.
  pose proof (resolved_fee_nonneg _ _ Hfees Hint) as Ht0.
  exists r. split; [exact Hc|].
  cbv zeta. rewrite Hff, Htf, Htr, Hg, Hsl, Htot, Hpct.
  assert (Htrade : 0 <= Cost.trading_fees (Request.amount input) ff tf)
    by (apply trading_fees_nonneg; auto using Qlt_le_weak).
  assert (Hgusd : 0 <= Cost.gas_usd self)
    by (apply gas_usd_nonneg; auto using Qlt_le_weak).
  assert (Hslip : 0 <= Cost.slippage (Request.amount input))
    by (apply slippage_cost_nonneg; auto using Qlt_le_weak).
  assert (Htotal : 0 <= Cost.total self (Request.amount input) ff tf)
    by (unfold Cost.total; lra).
  assert (Hratio : 0 <= Cost.total self (Request.amount input) ff tf
                        / Request.amount input * 100).
  { apply Qmult_le_0_compat; [|discriminate].
    apply Qle_shift_div_l; [exact Ha|]. rewrite Qmult_0_l. exact Htotal. }
  repeat split; auto using round_nonneg.
Qed.

(** 5,000 USD between dexX (0.25%) and dexY (0.30%) on the initial agent. *)
Lemma cost_breakdown_non_negative_witness :
  exists r,
    ArbitrageDetectorAgent._calculate_charges ArbitrageDetectorAgent.init
      (ArbitrageDetectorAgent.mkInput None None (Some 5000)
         (Some [("dexX"%string, 0.25); ("dexY"%string, 0.30)]) None None)
    = Success r
    /\ 0 <= ArbitrageDetectorAgent.total_fees_usd
              (ArbitrageDetectorAgent.cr_charges r).
Proof.
  destruct (cost_breakdown_non_negative ArbitrageDetectorAgent.init
              (ArbitrageDetectorAgent.mkInput None None (Some 5000)
                 (Some [("dexX"%string, 0.25); ("dexY"%string, 0.30)])
                 None None))
    as (r & Hr & _ & _ & _ & _ & _ & _ & Htot & _).
  - reflexivity.
  - repeat constructor; discriminate.
  - repeat split.
  - discriminate.
  - exists r. split; [exact Hr | exact Htot].
Defined.

(** * The break-even search *)

Section Bisection.
Import InvestmentOptimizerAgent.
Variable self : agent.
Variables from_token to_token : string.
Variable custom_dex_fees : Py.dict Q.

Local Abbreviation trace :=
  (bisect_trace self from_token to_token custom_dex_fees).
Local Abbreviation search :=
  (bisect self from_token to_token custom_dex_fees).
Local Abbreviation done :=
  (Search.converged self from_token to_token custom_dex_fees).

Lemma half_between (lo hi : Q) :
  lo <= hi -> lo <= (lo + hi) / 2 /\ (lo + hi) / 2 <= hi.
Proof.
  intros H. unfold Qdiv. change (/ 2) with (1 # 2). split; lra.
Qed.

(** Names the net profit at the current midpoint of the loop body. *)
Ltac name_net net :=
  unfold net_at;
  match goal with
  | |- context [Py.ltb (Qabs ?x) _] => set (net := x)
  end.

Lemma trace_length (n : nat) (lo hi : Q) :
  (length (trace n lo hi) <= n)%nat.
Proof.
  revert lo hi. induction n as [|n IH]; intros lo hi;
    cbn [bisect_trace]; [simpl; lia|].
  name_net net.
  destruct (Py.ltb (Qabs net) 0.01); [simpl; lia|].
  specialize (IH ((lo + hi) / 2) hi) as IH1.
  specialize (IH lo ((lo + hi) / 2)) as IH2.
  destruct (Py.ltb net 0); cbn [length]; lia.
Qed.

Lemma trace_nonempty (n : nat) (lo hi : Q) :
  (1 <= length (trace (S n) lo hi))%nat.
Proof. cbn [bisect_trace length]. lia. Qed.

(** Every iteration works on a sub-interval of the initial one. *)
Lemma trace_bisects (n : nat) (lo hi : Q) :
  1 <= lo -> lo <= hi -> hi <= 100000 ->
  Forall Search.bisects (trace n lo hi).
Proof.
  revert lo hi. induction n as [|n IH]; intros lo hi H1 Hle H2;
    cbn [bisect_trace].
  { constructor. }
  destruct (half_between lo hi Hle) as [Hl Hh].
  constructor.
  { unfold Search.bisects. repeat split; assumption. }
  name_net net.
  destruct (Py.ltb (Qabs net) 0.01); [constructor|].
  destruct (Py.ltb net 0); apply IH; try assumption; lra.
Qed.

Lemma halved_comp (w w' : Q) (i : nat) :
  w == w' -> Search.halved w i == Search.halved w' i.
Proof.
  intros H. induction i as [|i IH]; simpl; [exact H|].
  rewrite IH. reflexivity.
Qed.

Lemma halved_succ (w : Q) (i : nat) :
  Search.halved w (S i) = Search.halved (w / 2) i.
Proof.
  unfold Search.halved.
  exact (Nat.iter_succ_r i (fun x : Q => x / 2) w).
Qed.

(** The interval of iteration [i] is the initial one halved [i] times. *)
Lemma trace_width (n : nat) (lo hi : Q) (i : nat) (l h m : Q) :
  trace n lo hi !! i = Some (l, h, m) ->
  h - l == Search.halved (hi - lo) i.
Proof.
  revert lo hi i. induction n as [|n IH]; intros lo hi i;
    cbn [bisect_trace].
  { discriminate. }
  destruct i as [|i].
  { intros [= -> -> _]. reflexivity. }
  rewrite halved_succ. cbn [lookup list_lookup].
  name_net net.
  destruct (Py.ltb (Qabs net) 0.01); [discriminate|].
  destruct (Py.ltb net 0); intros Hi; apply IH in Hi; rewrite Hi;
    apply halved_comp; unfold Qdiv; change (/ 2) with (1 # 2); ring.
Qed.

Lemma trace_head (n : nat) (lo hi l h m : Q) :
  trace n lo hi !! 0%nat = Some (l, h, m) -> l = lo /\ h = hi.
Proof.
  destruct n as [|n]; cbn [bisect_trace]; [discriminate|].
  intros [= <- <- _]. split; reflexivity.
Qed.

(** From one iteration to the next the loop keeps the upper half of the
    interval when the net profit at the midpoint is negative, and the lower
    half otherwise. *)
Lemma trace_step (n : nat) (lo hi : Q) (i : nat) (l h m l' h' m' : Q) :
  trace n lo hi !! i = Some (l, h, m) ->
  trace n lo hi !! S i = Some (l', h', m') ->
  (net_at self from_token to_token custom_dex_fees m < 0
   /\ l' = m /\ h' = h)
  \/ (0 <= net_at self from_token to_token custom_dex_fees m
      /\ l' = l /\ h' = m).
Proof.
  revert lo hi i. induction n as [|n IH]; intros lo hi i;
    cbn [bisect_trace].
  { discriminate. }
  destruct i as [|i].
  - intros [= <- <- <-]. cbn [lookup list_lookup].
    destruct (Py.ltb (Qabs _) 0.01); [discriminate|].
    case_ltb (net_at self from_token to_token custom_dex_fees ((lo + hi) / 2)) 0;
      intros Hnext; apply trace_head in Hnext as [-> ->]; auto.
  - cbn [lookup list_lookup].
    destruct (Py.ltb (Qabs _) 0.01); [discriminate|].
    destruct (Py.ltb _ 0); apply IH.
Qed.

(** The loop's answer, read off the iterations it performed. *)
Lemma bisect_outcome (n : nat) (lo hi : Q) :
  match search n lo hi with
  | Some m =>
      done m
      /\ exists earlier l h,
           trace n lo hi = earlier ++ [(l, h, m)]
           /\ Forall (fun step => ~ done step.2) earlier
  | None =>
      length (trace n lo hi) = n
      /\ Forall (fun step => ~ done step.2) (trace n lo hi)
  end.
Proof.
  revert lo hi. induction n as [|n IH]; intros lo hi;
    cbn [bisect bisect_trace].
  { split; [reflexivity | constructor]. }
  name_net net.
  case_ltb (Qabs net) 0.01.
  { split; [exact E|]. exists [], lo, hi. split; [reflexivity | constructor]. }
  assert (Hnot : ~ done ((lo + hi) / 2)).
  { unfold Search.converged, net_at. fold net. intros Hc. lra. }
  destruct (Py.ltb net 0).
  - specialize (IH ((lo + hi) / 2) hi).
    destruct (search n ((lo + hi) / 2) hi) as [m|].
    + destruct IH as (Hm & earlier & l & h & Heq & Hall).
      split; [exact Hm|].
      exists ((lo, hi, (lo + hi) / 2) :: earlier), l, h.
      split; [rewrite Heq; reflexivity|].
      constructor; assumption.
    + destruct IH as (Hlen & Hall). split.
      * cbn [length]. rewrite Hlen. reflexivity.
      * constructor; assumption.
  - specialize (IH lo ((lo + hi) / 2)).
    destruct (search n lo ((lo + hi) / 2)) as [m|].
    + destruct IH as (Hm & earlier & l & h & Heq & Hall).
      split; [exact Hm|].
      exists ((lo, hi, (lo + hi) / 2) :: earlier), l, h.
      split; [rewrite Heq; reflexivity|].
      constructor; assumption.
    + destruct IH as (Hlen & Hall). split.
      * cbn [length]. rewrite Hlen. reflexivity.
      * constructor; assumption.
Qed.

End Bisection.

(** C8. For every input, the break-even search succeeds and performs
    between 1 and 20 iterations; iteration [i] bisects an interval inside
    [[1, 100000]] whose width is 99999 halved [i] times, the next
    interval being the upper half when the net profit at the midpoint is
    negative and the lower half otherwise.  It reports a
    break-even amount [m] only when [m] is the midpoint of the last
    iteration performed and the net profit there has absolute value below
    0.01 USD (no earlier midpoint passed the test); then [found] is true
    and the USD amount is [m] times the APT price.  If no midpoint passes
    within 20 iterations, all 20 are performed and the result has
    [found = false] and no break-even amount. *)
Theorem breakeven_search_outcome
    (self : InvestmentOptimizerAgent.agent)
    (input : InvestmentOptimizerAgent.input_data) :
  let from_token :=
    default "usdc"%string (InvestmentOptimizerAgent.in_from_token input) in
  let to_token :=
    default "usdt"%string (InvestmentOptimizerAgent.in_to_token input) in
  let fees := default [] (InvestmentOptimizerAgent.in_dex_fees input) in
  let trace :=
    InvestmentOptimizerAgent.bisect_trace self from_token to_token fees
      20 1 100000 in
  let done := Search.converged self from_token to_token fees in
  exists r,
    InvestmentOptimizerAgent._find_breakeven_amount self input = Success r
    /\ (1 <= length trace <= 20)%nat
    /\ Forall Search.bisects trace
    /\ (forall i l h m,
          trace !! i = Some (l, h, m) -> h - l == Search.halved 99999 i)
    /\ (forall i l h m l' h' m',
          trace !! i = Some (l, h, m) ->
          trace !! S i = Some (l', h', m') ->
          (InvestmentOptimizerAgent.net_at self from_token to_token fees m < 0
           /\ l' = m /\ h' = h)
          \/ (0 <= InvestmentOptimizerAgent.net_at self from_token to_token
                     fees m
              /\ l' = l /\ h' = m))
    /\ match InvestmentOptimizerAgent.breakeven_apt_amount r with
       | Some m =>
           InvestmentOptimizerAgent.found r = true
           /\ InvestmentOptimizerAgent.breakeven_usd_amount r
              = Some (m * apt (InvestmentOptimizerAgent.current_prices self))
           /\ done m
           /\ exists earlier l h,
                trace = earlier ++ [(l, h, m)]
                /\ Forall (fun step => ~ done step.2) earlier
       | None =>
           InvestmentOptimizerAgent.found r = false
           /\ InvestmentOptimizerAgent.breakeven_usd_amount r = None
           /\ length trace = 20%nat
           /\ Forall (fun step => ~ done step.2) trace
       end.
Proof.
  intros from_token to_token fees trace done.
  eexists. split; [reflexivity|].
  assert (Hbis : Forall Search.bisects trace).
  { apply trace_bisects; discriminate. }
  split.
  { split; [apply trace_nonempty | apply trace_length]. }
  split; [exact Hbis|].
  split.
  { intros i l h m Hi. apply trace_width in Hi. rewrite Hi.
    apply halved_comp. reflexivity. }
  split; [apply trace_step|].
  cbn [InvestmentOptimizerAgent.breakeven_apt_amount
       InvestmentOptimizerAgent.breakeven_usd_amount
       InvestmentOptimizerAgent.found].
  pose proof (bisect_outcome self from_token to_token fees 20 1 100000) as Hout.
  fold from_token to_token fees.
  destruct (InvestmentOptimizerAgent.bisect self from_token to_token fees
              20 1 100000) as [m|].
  - destruct Hout as (Hm & earlier & l & h & Heq & Hall).
    split; [reflexivity|].
    split.
    { fold trace in Heq. rewrite Heq in Hbis.
      apply Forall_app in Hbis as [_ Hlast].
      apply Forall_cons in Hlast as [(H1 & _ & _ & _ & Hlm & _) _].
      rewrite (proj2 (eqb_false m 0)); [reflexivity|].
      intros Hz. lra. }
    split; [exact Hm|].
    exists earlier, l, h. split; assumption.
  - destruct Hout as (Hlen & Hall).
    split; [reflexivity|]. split; [reflexivity|]. split; assumption.
Qed.

(** On the initial agent with the default request none of the 20
    midpoints breaks even. *)
Lemma breakeven_search_outcome_witness :
  exists r,
    InvestmentOptimizerAgent._find_breakeven_amount
      InvestmentOptimizerAgent.init
      (InvestmentOptimizerAgent.mkInput None None None) = Success r
    /\ InvestmentOptimizerAgent.found r = false
    /\ InvestmentOptimizerAgent.breakeven_apt_amount r = None.
Proof.
  destruct (breakeven_search_outcome InvestmentOptimizerAgent.init
              (InvestmentOptimizerAgent.mkInput None None None))
    as (r & Hr & _ & _ & _ & _ & Hcase).
  exists r. split; [exact Hr|].
  assert (Hnone : InvestmentOptimizerAgent.breakeven_apt_amount r = None).
  { vm_compute in Hr. injection Hr as <-. reflexivity. }
  rewrite Hnone in Hcase. destruct Hcase as (Hf & _).
  split; [exact Hf | exact Hnone].
Defined.

(** * Ranking *)

Section SortDescFacts.
Context {A : Type} (key : A -> Q).

Local Abbreviation ranked_before := (fun x y : A => key y <= key x).

Lemma insert_desc_perm (x : A) (l : list A) :
  Permutation (Py.insert_desc key x l) (x :: l).
Proof.
  induction l as [|y l IH]; simpl; [reflexivity|].
  destruct (Py.ltb (key x) (key y)); [|reflexivity].
  rewrite IH. apply perm_swap.
Qed.

Lemma sort_desc_perm (l : list A) : Permutation (Py.sort_desc key l) l.
Proof.
  induction l as [|x l IH]; simpl; [reflexivity|].
  rewrite insert_desc_perm. apply perm_skip, IH.
Qed.

Lemma sort_desc_length (l : list A) :
  length (Py.sort_desc key l) = length l.
Proof. apply Permutation_length, sort_desc_perm. Qed.

Lemma insert_desc_sorted (x : A) (l : list A) :
  StronglySorted ranked_before l ->
  StronglySorted ranked_before (Py.insert_desc key x l).
Proof.
  induction 1 as [|y l Hs IH Hall]; simpl.
  { repeat constructor. }
  case_ltb (key x) (key y).
  - constructor; [exact IH|].
    rewrite insert_desc_perm.
    constructor; [apply Qlt_le_weak, E | exact Hall].
  - constructor; [constructor; assumption|].
    constructor; [exact E|].
    eapply Forall_impl; [exact Hall|].
    intros z Hz. simpl in *. lra.
Qed.

Lemma sort_desc_sorted (l : list A) :
  StronglySorted ranked_before (Py.sort_desc key l).
Proof.
  induction l as [|x l IH]; simpl; [constructor|].
  apply insert_desc_sorted, IH.
Qed.

(** A prefix of a ranked list is ranked. *)
Lemma take_sorted (n : nat) (l : list A) :
  StronglySorted ranked_before l ->
  StronglySorted ranked_before (take n l).
Proof.
  intros Hs. revert n. induction Hs as [|y l Hs IH Hall]; intros n.
  { destruct n; constructor. }
  destruct n as [|n]; simpl; [constructor|].
  constructor; [apply IH|]. apply Forall_take, Hall.
Qed.

(** Equal keys keep the order in which they were appended. *)
Lemma insert_desc_stable (x : A) (l : list A) :
  Forall (fun y => key y <= key x) l -> Py.insert_desc key x l = x :: l.
Proof.
  intros Hall. destruct l as [|y l]; simpl; [reflexivity|].
  apply Forall_cons in Hall as [Hy _].
  rewrite (proj2 (ltb_false _ _) Hy). reflexivity.
Qed.

End SortDescFacts.

(** * The opportunity enumerator *)




(** The requests are exactly the four pair directions crossed with the
    ordered pairs of distinct DEX names. *)
Lemma check_data_list_spec (trade_amount : Q) (fees : Py.dict Q)
    (dexs : list string) (check_data : ArbitrageDetectorAgent.input_data) :
  In check_data (ArbitrageDetectorAgent.check_data_list trade_amount fees dexs)
  <-> exists pair from_dex to_dex,
        In pair ArbitrageDetectorAgent.pair_combinations
        /\ In from_dex dexs /\ In to_dex dexs /\ from_dex <> to_dex
        /\ check_data
           = ArbitrageDetectorAgent.mkInput (Some pair.1) (Some pair.2)
               (Some trade_amount) (Some fees) (Some from_dex) (Some to_dex).
Proof.
  unfold ArbitrageDetectorAgent.check_data_list.
  rewrite in_flat_map. split.
  - intros (pair & Hp & H). apply in_flat_map in H as (fd & Hfd & H).
    apply in_flat_map in H as (td & Htd & H).
    destruct (String.eqb fd td) eqn:E; simpl in H; [contradiction|].
    destruct H as [<- | []]. apply String.eqb_neq in E.
    exists pair, fd, td. auto.
  - intros (pair & fd & td & Hp & Hfd & Htd & Hne & ->).
    exists pair. split; [exact Hp|].
    apply in_flat_map. exists fd. split; [exact Hfd|].
    apply in_flat_map. exists td. split; [exact Htd|].
    apply String.eqb_neq in Hne. rewrite Hne. left. reflexivity.
Qed.

Lemma collect_profitable
    (results : list (response ArbitrageDetectorAgent.error
                       ArbitrageDetectorAgent.ProfitResult)) :
  Forall (fun o => ArbitrageDetectorAgent.is_profitable
                     (ArbitrageDetectorAgent.op_profitability o) = true)
    (omap ArbitrageDetectorAgent.collect results).
Proof.
  induction results as [|res results IH]; simpl; [constructor|].
  destruct res as [r|e]; simpl; [|exact IH].
  destruct (ArbitrageDetectorAgent.is_profitable _) eqn:E; simpl;
    [|exact IH].
  constructor; [exact E | exact IH].
Qed.

Lemma filter_all {A : Type} (f : A -> bool) (l : list A) :
  Forall (fun x => f x = true) l -> List.filter f l = l.
Proof.
  induction 1 as [|x l Hx _ IH]; simpl; [reflexivity|].
  rewrite Hx, IH. reflexivity.
Qed.

(** At least one specific DEX name makes the enumerator use exactly the
    specific names of the fee schedule. *)
Lemma extract_specific (fees : Py.dict Q) :
  ArbitrageDetectorAgent.specific_dex_names fees <> [] ->
  ArbitrageDetectorAgent.extract_available_dexs fees
  = ArbitrageDetectorAgent.specific_dex_names fees.
Proof.
  intros Hne. unfold ArbitrageDetectorAgent.extract_available_dexs.
  destruct fees as [|kv fees]; [contradiction Hne; reflexivity|].
  cbn [Py.nonempty].
  destruct (ArbitrageDetectorAgent.specific_dex_names (kv :: fees));
    [contradiction | reflexivity].
Qed.

Lemma omap_map {A B C : Type} (f : A -> B) (g : B -> option C) (l : list A) :
  omap (fun x => g (f x)) l = omap g (map f l).
Proof.
  induction l as [|x l IH]; [reflexivity|].
  cbn. rewrite <- IH. reflexivity.
Qed.



(** * Further properties of the spread model *)

Lemma price_validation_fails (p : PriceSet) :
  ~ Spec.positive_prices p ->
  existsb (fun tp : string * Q => Py.leb tp.2 0) (price_items p) = true.
Proof.
  intros Hnot. unfold price_items. cbn [existsb snd].
  destruct (Py.leb (apt p) 0) eqn:Ea; [reflexivity|].
  destruct (Py.leb (usdc p) 0) eqn:Ec; [reflexivity|].
  destruct (Py.leb (usdt p) 0) eqn:Et; [reflexivity|].
  apply leb_false in Ea, Ec, Et. exfalso. apply Hnot.
  repeat split; assumption.
Qed.

Lemma positive_prices_dec (p : PriceSet) :
  Spec.positive_prices p \/ ~ Spec.positive_prices p.
Proof.
  unfold Spec.positive_prices.
  destruct (Qlt_le_dec 0 (apt p)) as [Ha | Ha];
    destruct (Qlt_le_dec 0 (usdc p)) as [Hc | Hc];
    destruct (Qlt_le_dec 0 (usdt p)) as [Ht | Ht];
    try (left; repeat split; assumption);
    right; intros (Ha' & Hc' & Ht'); lra.
Qed.

(** Every factor of the table, and the default, lies within 0.2% of 1. *)
Lemma factor_bounds (dex : string) :
  0.998 <= Spec.factor dex /\ Spec.factor dex <= 1.002.
Proof.
  unfold Spec.factor, Py.get, ArbitrageDetectorAgent.dex_price_factors.
  cbn [Py.get_opt].
  repeat (destruct (String.eqb _ dex); [split; discriminate|]).
  split; discriminate.
Qed.

Lemma dex_spread_bounds (from_dex to_dex : string) :
  0 <= Spec.dex_spread from_dex to_dex
  /\ Spec.dex_spread from_dex to_dex <= 0.4.
Proof.
  unfold Spec.dex_spread. destruct (decide _); [split; discriminate|].
  pose proof (factor_bounds from_dex) as [Hf1 Hf2].
  pose proof (factor_bounds to_dex) as [Ht1 Ht2].
  pose proof (Qabs_nonneg (Spec.factor from_dex - Spec.factor to_dex)) as H0.
  assert (Hle : Qabs (Spec.factor from_dex - Spec.factor to_dex) <= 0.004).
  { apply Qabs_Qle_condition. split; lra. }
  split; lra.
Qed.

Lemma dex_spread_sym (from_dex to_dex : string) :
  Spec.dex_spread from_dex to_dex == Spec.dex_spread to_dex from_dex.
Proof.
  unfold Spec.dex_spread.
  destruct (decide (Spec.generic_placeholder from_dex
                    /\ Spec.generic_placeholder to_dex)) as [H | H];
    destruct (decide (Spec.generic_placeholder to_dex
                      /\ Spec.generic_placeholder from_dex)) as [H' | H'];
    try reflexivity; try tauto.
  rewrite Qabs_Qminus. reflexivity.
Qed.

Lemma min_comp (a a' b : Q) : a == a' -> Py.min a b == Py.min a' b.
Proof.
  intros H. rewrite !min_Qmin. apply Q.min_compat; [exact H | reflexivity].
Qed.

Lemma min_bounds (lo a b : Q) :
  lo <= a -> lo <= b -> lo <= Py.min a b /\ Py.min a b <= b.
Proof.
  intros Ha Hb. unfold Py.min. case_ltb b a; split; lra.
Qed.

Lemma relative_difference_nonneg (x y : Q) : 0 < y -> 0 <= Qabs x / y * 100.
Proof.
  intros Hy. apply Qmult_le_0_compat; [|discriminate].
  apply Qle_shift_div_l; [exact Hy|]. rewrite Qmult_0_l. apply Qabs_nonneg.
Qed.

(** The spread model on a valid price set and a route that is not a
    generic round trip, branch by branch, with the DEX spread named. *)
Lemma spread_by_branch
    (self : ArbitrageDetectorAgent.agent)
    (from_pair to_pair from_dex to_dex : string) :
  Spec.positive_prices (ArbitrageDetectorAgent.current_prices self) ->
  ~ (Spec.generic_placeholder from_dex /\ Spec.generic_placeholder to_dex
     /\ Spec.tokens from_pair = Spec.tokens to_pair) ->
  let p := ArbitrageDetectorAgent.current_prices self in
  let ds := Spec.dex_spread from_dex to_dex in
  ArbitrageDetectorAgent._calculate_price_difference self
    from_pair to_pair from_dex to_dex
  == if String.eqb from_pair "usdc_apt" && String.eqb to_pair "usdt_apt" then
       Qmin (0.6 + 0.1 * (Qabs (apt p / usdc p - apt p / usdt p)
                          / (apt p / usdc p) * 100) + ds) 3.0
     else if String.eqb from_pair "usdt_apt" && String.eqb to_pair "usdc_apt" then
       Qmin (0.5 + 0.1 * (Qabs (apt p / usdt p - apt p / usdc p)
                          / (apt p / usdt p) * 100) + ds) 3.0
     else if String.eqb from_pair "apt_usdc" && String.eqb to_pair "apt_usdt" then
       Qmin (0.3 + Qabs (usdc p - usdt p) / usdc p * 100 + ds) 2.0
     else if String.eqb from_pair "apt_usdt" && String.eqb to_pair "apt_usdc" then
       Qmin (0.4 + Qabs (usdt p - usdc p) / usdt p * 100 + ds) 2.0
     else if Qeq_bool ds 0 then 0.05
     else 0.2 + ds.
Proof.
  intros Hpos Hnot p ds. subst p. pose proof Hpos as (Ha & Hc & Ht).
  set (p := ArbitrageDetectorAgent.current_prices self) in *.
  unfold ArbitrageDetectorAgent._calculate_price_difference.
  fold p.
  rewrite (price_validation_passes _ Hpos).
  assert (Hgr : ArbitrageDetectorAgent.is_generic_dex from_dex
                && ArbitrageDetectorAgent.is_generic_dex to_dex
                && ArbitrageDetectorAgent._is_round_trip_same_pair
                     from_pair to_pair = false).
  { destruct (_ && _ && _) eqn:E; [|reflexivity].
    exfalso. apply Hnot.
    apply andb_true_iff in E as [E Ert]. apply andb_true_iff in E as [Ef Et].
    repeat split;
      [apply is_generic_dex_spec, Ef | apply is_generic_dex_spec, Et
      | apply is_round_trip_spec, Ert]. }
  rewrite Hgr.
  pose proof (dex_spread_agrees from_dex to_dex) as Hds. fold ds in Hds.
  set (ds' := if ArbitrageDetectorAgent.is_generic_dex from_dex
                 && ArbitrageDetectorAgent.is_generic_dex to_dex
              then 0.0 else _) in *.
  fold p.
  rewrite !(proj2 (gtb_true _ _)) by assumption.
  assert (Hr1 : Py.eqb (apt p / usdc p) 0 = false).
  { apply eqb_false. intros H. pose proof (rate_positive _ _ Ha Hc). lra. }
  assert (Hr2 : Py.eqb (apt p / usdt p) 0 = false).
  { apply eqb_false. intros H. pose proof (rate_positive _ _ Ha Ht). lra. }
  assert (Hpa : Py.eqb (apt p) 0 = false) by (apply eqb_false; lra).
  assert (Hpc : Py.eqb (usdc p) 0 = false) by (apply eqb_false; lra).
  assert (Hpt : Py.eqb (usdt p) 0 = false) by (apply eqb_false; lra).
  rewrite Hr1, Hr2, Hpa, Hpc, Hpt. cbn [orb].
  destruct (String.eqb from_pair "usdc_apt" && String.eqb to_pair "usdt_apt").
  { rewrite min_Qmin. apply Q.min_compat; [|reflexivity]. rewrite Hds. ring. }
  destruct (String.eqb from_pair "usdt_apt" && String.eqb to_pair "usdc_apt").
  { rewrite min_Qmin. apply Q.min_compat; [|reflexivity]. rewrite Hds. ring. }
  destruct (String.eqb from_pair "apt_usdc" && String.eqb to_pair "apt_usdt").
  { rewrite min_Qmin. apply Q.min_compat; [|reflexivity]. rewrite Hds.
    reflexivity. }
  destruct (String.eqb from_pair "apt_usdt" && String.eqb to_pair "apt_usdc").
  { rewrite min_Qmin. apply Q.min_compat; [|reflexivity]. rewrite Hds.
    reflexivity. }
  unfold Py.eqb.
  rewrite (Qeqb_comp ds' ds Hds 0.0 0 ltac:(reflexivity)).
  destruct (Qeq_bool ds 0); [reflexivity|]. rewrite Hds. reflexivity.
Qed.

(** X1. The spread model answers with the sentinel -999.0 exactly when a
    price of the price set is not positive, or both DEXs are generic
    placeholders and the two pairs involve the same token set.  In every
    other case it returns a spread between 0.05 and 3.0 percent. *)
Theorem spread_sentinel_iff
    (self : ArbitrageDetectorAgent.agent)
    (from_pair to_pair from_dex to_dex : string) :
  let spread :=
    ArbitrageDetectorAgent._calculate_price_difference self
      from_pair to_pair from_dex to_dex in
  let rejected :=
    ~ Spec.positive_prices (ArbitrageDetectorAgent.current_prices self)
    \/ (Spec.generic_placeholder from_dex /\ Spec.generic_placeholder to_dex
        /\ Spec.tokens from_pair = Spec.tokens to_pair) in
  (spread == ArbitrageDetectorAgent.SENTINEL <-> rejected)
  /\ (~ rejected -> 0.05 <= spread /\ spread <= 3.0).
Proof.
  intros spread rejected.
  assert (Hrange : ~ rejected -> 0.05 <= spread /\ spread <= 3.0).
  { intros Hok.
    destruct (positive_prices_dec
                (ArbitrageDetectorAgent.current_prices self)) as [Hpos | Hneg];
      [|exfalso; apply Hok; left; exact Hneg].
    assert (Hnot : ~ (Spec.generic_placeholder from_dex
                      /\ Spec.generic_placeholder to_dex
                      /\ Spec.tokens from_pair = Spec.tokens to_pair))
      by (intros H; apply Hok; right; exact H).
    pose proof (spread_by_branch self from_pair to_pair from_dex to_dex
                  Hpos Hnot) as Heq.
    cbv zeta in Heq. fold spread in Heq.
    destruct Hpos as (Ha & Hc & Ht).
    pose proof (dex_spread_bounds from_dex to_dex) as [Hd0 Hd1].
    pose proof (relative_difference_nonneg
                  (apt (ArbitrageDetectorAgent.current_prices self)
                   / usdc (ArbitrageDetectorAgent.current_prices self)
                   - apt (ArbitrageDetectorAgent.current_prices self)
                     / usdt (ArbitrageDetectorAgent.current_prices self))
                  _ (rate_positive _ _ Ha Hc)) as Hrel1.
    pose proof (relative_difference_nonneg
                  (apt (ArbitrageDetectorAgent.current_prices self)
                   / usdt (ArbitrageDetectorAgent.current_prices self)
                   - apt (ArbitrageDetectorAgent.current_prices self)
                     / usdc (ArbitrageDetectorAgent.current_prices self))
                  _ (rate_positive _ _ Ha Ht)) as Hrel2.
    pose proof (relative_difference_nonneg
                  (usdc (ArbitrageDetectorAgent.current_prices self)
                   - usdt (ArbitrageDetectorAgent.current_prices self))
                  _ Hc) as Hrel3.
    pose proof (relative_difference_nonneg
                  (usdt (ArbitrageDetectorAgent.current_prices self)
                   - usdc (ArbitrageDetectorAgent.current_prices self))
                  _ Ht) as Hrel4.
    rewrite Heq.
    repeat match goal with
           | |- context [if ?b then _ else _] => destruct b
           end;
      try (split;
           [apply Q.min_glb; lra
           | eapply Qle_trans; [apply Q.le_min_r | discriminate]]);
      split; lra. }
  split; [|exact Hrange].
  split.
  - intros Hs.
    destruct (positive_prices_dec
                (ArbitrageDetectorAgent.current_prices self)) as [Hpos | Hneg];
      [|left; exact Hneg].
    destruct (decide (Spec.generic_placeholder from_dex
                      /\ Spec.generic_placeholder to_dex)) as [[Hf Ht] | Hng].
    + destruct (decide (Spec.tokens from_pair = Spec.tokens to_pair))
        as [Htok | Hntok]; [right; auto|].
      exfalso. destruct Hrange as [Hlo _].
      { intros [Hn | (_ & _ & Htok)]; [apply Hn, Hpos | apply Hntok, Htok]. }
      rewrite Hs in Hlo. unfold ArbitrageDetectorAgent.SENTINEL in Hlo. lra.
    + exfalso. destruct Hrange as [Hlo _].
      { intros [Hn | (Hf & Ht & _)]; [apply Hn, Hpos | apply Hng; auto]. }
      rewrite Hs in Hlo. unfold ArbitrageDetectorAgent.SENTINEL in Hlo. lra.
  - intros [Hneg | (Hf & Ht & Htok)].
    + subst spread.
      unfold ArbitrageDetectorAgent._calculate_price_difference.
      rewrite (price_validation_fails _ Hneg). reflexivity.
    + subst spread. rewrite generic_round_trip_sentinel by assumption.
      reflexivity.
Qed.

(** The initial prices between pancakeswap and thalaswap on a route outside
    the four canonical directions. *)
Lemma spread_sentinel_iff_witness :
  0.05 <= ArbitrageDetectorAgent._calculate_price_difference
            ArbitrageDetectorAgent.init "usdc_apt" "apt_usdt"
            "pancakeswap" "thalaswap"
  /\ ArbitrageDetectorAgent._calculate_price_difference
       ArbitrageDetectorAgent.init "usdc_apt" "apt_usdt"
       "pancakeswap" "thalaswap" <= 3.0.
Proof.
  apply (spread_sentinel_iff ArbitrageDetectorAgent.init
           "usdc_apt" "apt_usdt" "pancakeswap" "thalaswap").
  intros [Hneg | (Hf & _)].
  - apply Hneg. repeat split.
  - destruct Hf; discriminate.
Defined.

(** X2. Exchanging the two DEXs of a route does not change the spread. *)
Theorem spread_symmetric_in_dexs
    (self : ArbitrageDetectorAgent.agent)
    (from_pair to_pair dex1 dex2 : string) :
  ArbitrageDetectorAgent._calculate_price_difference self
    from_pair to_pair dex1 dex2
  == ArbitrageDetectorAgent._calculate_price_difference self
       from_pair to_pair dex2 dex1.
Proof.
  destruct (positive_prices_dec
              (ArbitrageDetectorAgent.current_prices self)) as [Hpos | Hneg].
  2: { unfold ArbitrageDetectorAgent._calculate_price_difference.
       rewrite (price_validation_fails _ Hneg). reflexivity. }
  destruct (decide (Spec.generic_placeholder dex1
                    /\ Spec.generic_placeholder dex2
                    /\ Spec.tokens from_pair = Spec.tokens to_pair))
    as [(H1 & H2 & Htok) | Hnot].
  { rewrite !generic_round_trip_sentinel by assumption. reflexivity. }
  assert (Hnot' : ~ (Spec.generic_placeholder dex2
                     /\ Spec.generic_placeholder dex1
                     /\ Spec.tokens from_pair = Spec.tokens to_pair)) by tauto.
  rewrite (spread_by_branch self from_pair to_pair dex1 dex2 Hpos Hnot).
  rewrite (spread_by_branch self from_pair to_pair dex2 dex1 Hpos Hnot').
  cbv zeta.
  pose proof (dex_spread_sym dex1 dex2) as Hsym.
  rewrite (Qeqb_comp _ _ Hsym 0 0 ltac:(reflexivity)).
  repeat match goal with
         | |- context [if ?b then _ else _] => destruct b
         end;
    try reflexivity;
    try (apply Q.min_compat; [|reflexivity]);
    rewrite Hsym; reflexivity.
Qed.

(** X3. For positive prices and every pair of DEXs, the three remaining
    canonical directions are priced as
    [min(0.5 + 0.1 * |usdt_rate - usdc_rate| / usdt_rate * 100 + dex_spread, 3.0)]
    for usdt_apt -> usdc_apt,
    [min(0.3 + |usdc - usdt| / usdc * 100 + dex_spread, 2.0)] for
    apt_usdc -> apt_usdt, and
    [min(0.4 + |usdt - usdc| / usdt * 100 + dex_spread, 2.0)] for
    apt_usdt -> apt_usdc. *)
Theorem remaining_canonical_spreads
    (self : ArbitrageDetectorAgent.agent) (from_dex to_dex : string) :
  Spec.positive_prices (ArbitrageDetectorAgent.current_prices self) ->
  let p := ArbitrageDetectorAgent.current_prices self in
  let ds := Spec.dex_spread from_dex to_dex in
  ArbitrageDetectorAgent._calculate_price_difference self
    "usdt_apt" "usdc_apt" from_dex to_dex
  == Qmin (0.5 + 0.1 * (Qabs (apt p / usdt p - apt p / usdc p)
                        / (apt p / usdt p) * 100) + ds) 3.0
  /\ ArbitrageDetectorAgent._calculate_price_difference self
       "apt_usdc" "apt_usdt" from_dex to_dex
     == Qmin (0.3 + Qabs (usdc p - usdt p) / usdc p * 100 + ds) 2.0
  /\ ArbitrageDetectorAgent._calculate_price_difference self
       "apt_usdt" "apt_usdc" from_dex to_dex
     == Qmin (0.4 + Qabs (usdt p - usdc p) / usdt p * 100 + ds) 2.0.
Proof.
  intros Hpos p ds.
  assert (Hno : forall a b,
             ArbitrageDetectorAgent._is_round_trip_same_pair a b = false ->
             ~ (Spec.generic_placeholder from_dex
                /\ Spec.generic_placeholder to_dex
                /\ Spec.tokens a = Spec.tokens b)).
  { intros a b Hf (_ & _ & Htok). apply is_round_trip_spec in Htok.
    congruence. }
  split; [|split].
  - rewrite (spread_by_branch self "usdt_apt" "usdc_apt" from_dex to_dex Hpos)
      by (apply Hno; vm_compute; reflexivity).
    reflexivity.
  - rewrite (spread_by_branch self "apt_usdc" "apt_usdt" from_dex to_dex Hpos)
      by (apply Hno; vm_compute; reflexivity).
    reflexivity.
  - rewrite (spread_by_branch self "apt_usdt" "apt_usdc" from_dex to_dex Hpos)
      by (apply Hno; vm_compute; reflexivity).
    reflexivity.
Qed.

(** The initial prices between hippo and liquidswap. *)
Lemma remaining_canonical_spreads_witness :
  ArbitrageDetectorAgent._calculate_price_difference
    ArbitrageDetectorAgent.init "apt_usdc" "apt_usdt" "hippo" "liquidswap"
  == 0.5.
Proof.
  destruct (remaining_canonical_spreads ArbitrageDetectorAgent.init
              "hippo" "liquidswap") as (_ & H & _).
  - repeat split.
  - rewrite H. vm_compute. reflexivity.
Defined.

(** * Further properties of the profitability evaluator *)

(** A non-zero amount and a spread other than the sentinel give a verdict,
    whose fields are these. *)
Lemma check_profitability_success
    (self : ArbitrageDetectorAgent.agent)
    (input : ArbitrageDetectorAgent.input_data) :
  ~ Request.amount input == 0 ->
  ~ request_spread self input == ArbitrageDetectorAgent.SENTINEL ->
  exists r cr,
    ArbitrageDetectorAgent._check_profitability self input = Success r
    /\ ArbitrageDetectorAgent._calculate_charges self input = Success cr
    /\ ArbitrageDetectorAgent.pr_route r = Request.route input
    /\ ArbitrageDetectorAgent.pr_charges r = ArbitrageDetectorAgent.cr_charges cr
    /\ (let p := ArbitrageDetectorAgent.pr_profitability r in
        let c := ArbitrageDetectorAgent.cr_charges cr in
        let a := Request.amount input in
        let net := request_net self input c in
        let margin := request_margin self input c in
        ArbitrageDetectorAgent.is_profitable p = Py.gtb net 0
        /\ ArbitrageDetectorAgent.price_difference_percent p
           = Py.round (request_spread self input) 4
        /\ ArbitrageDetectorAgent.net_profit_usd p = Py.round net 4
        /\ ArbitrageDetectorAgent.profit_margin_percent p = Py.round margin 4
        /\ ArbitrageDetectorAgent.roi_percent p
           = (if Py.gtb a 0 then Py.round (net / a * 100) 4 else 0)
        /\ ArbitrageDetectorAgent.pr_recommendation r
           = (if Py.gtb net 0 && Py.gtb margin 0.5 then EXECUTE else SKIP)
        /\ ArbitrageDetectorAgent.pr_risk_level r
           = ArbitrageDetectorAgent._assess_risk_level margin a).
Proof.
  intros Hnz Hns.
  destruct (calculate_charges_nonzero self input Hnz)
    as (cr & ff & tf & _ & Hc & Hroute & _).
  unfold ArbitrageDetectorAgent._check_profitability.
  rewrite Hc.
  unfold ArbitrageDetectorAgent.check_profitability_body.
  unfold request_margin, request_net.
  unfold request_spread, Request.route, Request.fees, Request.amount in *.
  cbn [ArbitrageDetectorAgent.from_pair ArbitrageDetectorAgent.to_pair
       ArbitrageDetectorAgent.from_dex ArbitrageDetectorAgent.to_dex] in *.
  rewrite (proj2 (eqb_false _ _) Hns).
  unfold mbind, Py.M_bind, mret, Py.M_ret, Py.div.
  rewrite (proj2 (eqb_false _ _) Hnz).
  destruct (Py.gtb (default 1000.0
                      (ArbitrageDetectorAgent.in_trade_amount input)) 0);
    eexists _, cr; (split; [reflexivity|]); (split; [reflexivity|]);
    (split; [exact Hroute|]); (split; [reflexivity|]);
    cbv zeta; repeat split; reflexivity.
Qed.

(** The two error outcomes of the evaluator. *)
Lemma check_profitability_errors
    (self : ArbitrageDetectorAgent.agent)
    (input : ArbitrageDetectorAgent.input_data) :
  (Request.amount input == 0 ->
   ArbitrageDetectorAgent._check_profitability self input
   = StatusError (ArbitrageDetectorAgent.ChargeCalculationFailed
                    Py.ZeroDivisionError))
  /\ (~ Request.amount input == 0 ->
      request_spread self input == ArbitrageDetectorAgent.SENTINEL ->
      ArbitrageDetectorAgent._check_profitability self input
      = StatusError (ArbitrageDetectorAgent.ImpossibleArbitrage
                       (ArbitrageDetectorAgent.current_prices self)
                       (Request.route input))).
Proof.
  split.
  - intros Hz. unfold ArbitrageDetectorAgent._check_profitability.
    rewrite (calculate_charges_zero self input Hz). reflexivity.
  - intros Hnz Hs.
    destruct (calculate_charges_nonzero self input Hnz)
      as (cr & ff & tf & _ & Hc & Hroute & _).
    unfold ArbitrageDetectorAgent._check_profitability. rewrite Hc.
    unfold ArbitrageDetectorAgent.check_profitability_body.
    unfold request_spread, Request.route, Request.fees, Request.amount in *.
    cbn [ArbitrageDetectorAgent.from_pair ArbitrageDetectorAgent.to_pair
         ArbitrageDetectorAgent.from_dex ArbitrageDetectorAgent.to_dex] in *.
    rewrite (proj2 (eqb_true _ _) Hs). reflexivity.
Qed.

(** X4. The evaluator has exactly three outcomes.  A zero trade amount
    gives the charge-calculation error.  Otherwise a sentinel spread gives
    the impossible-arbitrage error with the prices and the route echoed.
    Otherwise it returns a verdict for the requested route whose charges
    are those of the charge calculation on the same input, which is flagged
    profitable exactly when the spread share of the amount exceeds the
    reported total cost.  It never fails with an error of its own. *)
Theorem check_profitability_outcomes
    (self : ArbitrageDetectorAgent.agent)
    (input : ArbitrageDetectorAgent.input_data) :
  let a := Request.amount input in
  let spread := request_spread self input in
  (a == 0 ->
   ArbitrageDetectorAgent._check_profitability self input
   = StatusError (ArbitrageDetectorAgent.ChargeCalculationFailed
                    Py.ZeroDivisionError))
  /\ (~ a == 0 -> spread == ArbitrageDetectorAgent.SENTINEL ->
      ArbitrageDetectorAgent._check_profitability self input
      = StatusError (ArbitrageDetectorAgent.ImpossibleArbitrage
                       (ArbitrageDetectorAgent.current_prices self)
                       (Request.route input)))
  /\ (~ a == 0 -> ~ spread == ArbitrageDetectorAgent.SENTINEL ->
      exists r cr,
        ArbitrageDetectorAgent._check_profitability self input = Success r
        /\ ArbitrageDetectorAgent._calculate_charges self input = Success cr
        /\ ArbitrageDetectorAgent.pr_route r = Request.route input
        /\ ArbitrageDetectorAgent.pr_charges r
           = ArbitrageDetectorAgent.cr_charges cr
        /\ (ArbitrageDetectorAgent.is_profitable
              (ArbitrageDetectorAgent.pr_profitability r) = true
            <-> ArbitrageDetectorAgent.total_fees_usd
                  (ArbitrageDetectorAgent.cr_charges cr)
                < a * (spread / 100))).
Proof.
  intros a spread.
  destruct (check_profitability_errors self input) as [Hzero Hsent].
  split; [exact Hzero|]. split; [exact Hsent|].
  - intros Hnz Hns.
    destruct (check_profitability_success self input Hnz Hns)
      as (r & cr & Hr & Hc & Hroute & Hch & Hprof & _).
    exists r, cr. repeat split; try assumption.
    + intros Hp. rewrite Hprof in Hp. apply gtb_true in Hp.
      unfold request_net in Hp. fold a spread in Hp. lra.
    + intros Hlt. rewrite Hprof. apply gtb_true.
      unfold request_net. fold a spread. lra.
Qed.

(** 1,000 USD on the default route of the initial agent. *)
Lemma check_profitability_outcomes_witness :
  exists r,
    ArbitrageDetectorAgent._check_profitability ArbitrageDetectorAgent.init
      (ArbitrageDetectorAgent.mkInput None None None None None None)
    = Success r.
Proof.
  destruct (check_profitability_outcomes ArbitrageDetectorAgent.init
              (ArbitrageDetectorAgent.mkInput None None None None None None))
    as (_ & _ & Hok).
  destruct Hok as (r & _ & Hr & _).
  - discriminate.
  - vm_compute. discriminate.
  - exists r. exact Hr.
Defined.

(** A verdict is only returned for a non-zero amount and a spread other
    than the sentinel, and then its fields are those listed above. *)
Lemma check_profitability_inv
    (self : ArbitrageDetectorAgent.agent)
    (input : ArbitrageDetectorAgent.input_data)
    (r : ArbitrageDetectorAgent.ProfitResult) :
  ArbitrageDetectorAgent._check_profitability self input = Success r ->
  ~ Request.amount input == 0
  /\ ~ request_spread self input == ArbitrageDetectorAgent.SENTINEL.
Proof.
  intros Hr.
  destruct (check_profitability_errors self input) as (Hzero & Hsent).
  split.
  - intros Hz. rewrite (Hzero Hz) in Hr. discriminate.
  - intros Hs.
    destruct (Qeq_dec (Request.amount input) 0) as [Hz | Hnz].
    + rewrite (Hzero Hz) in Hr. discriminate.
    + rewrite (Hsent Hnz Hs) in Hr. discriminate.
Qed.

(** X5. Whenever the evaluator recommends EXECUTE, the trade amount is
    positive, the verdict is flagged profitable and the risk tier is not
    VERY_HIGH.  For a negative trade amount the recommendation is always
    SKIP and the risk tier VERY_HIGH. *)
Theorem execute_recommendation_sound
    (self : ArbitrageDetectorAgent.agent)
    (input : ArbitrageDetectorAgent.input_data)
    (r : ArbitrageDetectorAgent.ProfitResult) :
  ArbitrageDetectorAgent._check_profitability self input = Success r ->
  (ArbitrageDetectorAgent.pr_recommendation r = EXECUTE ->
   0 < Request.amount input
   /\ ArbitrageDetectorAgent.is_profitable
        (ArbitrageDetectorAgent.pr_profitability r) = true
   /\ ArbitrageDetectorAgent.pr_risk_level r <> VERY_HIGH)
  /\ (Request.amount input < 0 ->
      ArbitrageDetectorAgent.pr_recommendation r = SKIP
      /\ ArbitrageDetectorAgent.pr_risk_level r = VERY_HIGH).
Proof.
  intros Hr. destruct (check_profitability_inv self input r Hr) as [Hnz Hns].
  destruct (check_profitability_success self input Hnz Hns)
    as (r' & cr & Hr' & _ & _ & _ & Hprof & _ & _ & _ & _ & Hrec & Hrisk).
  rewrite Hr in Hr'. injection Hr' as <-.
  cbv zeta in Hprof, Hrec, Hrisk.
  rewrite Hprof, Hrec, Hrisk. unfold request_margin.
  split.
  - intros Hex.
    match type of Hex with
    | (if ?b then _ else _) = _ =>
        assert (Hb : b = true) by (destruct b; [reflexivity | discriminate Hex])
    end.
    apply andb_true_iff in Hb as [En Em].
    rewrite En. apply gtb_true in Em.
    case_gtb (Request.amount input) 0; [|lra].
    split; [exact E|]. split; [reflexivity|].
    intros Hv.
    pose proof (detector_risk_level_spec
                  (request_net self input
                     (ArbitrageDetectorAgent.cr_charges cr)
                   / Request.amount input * 100)
                  (Request.amount input)) as Hspec.
    rewrite Hv in Hspec. simpl in Hspec. destruct Hspec as (_ & _ & Hlow).
    apply Hlow. lra.
  - intros Hneg.
    rewrite (proj2 (gtb_false (Request.amount input) 0))
      by (apply Qlt_le_weak, Hneg).
    change (Py.gtb 0 0.5) with false. rewrite andb_false_r.
    split; reflexivity.
Qed.

(** 5,000 USD from pancakeswap (0.01%) to thalaswap (0.02%): EXECUTE at
    MEDIUM risk. *)
Lemma execute_recommendation_sound_witness :
  exists r,
    ArbitrageDetectorAgent._check_profitability ArbitrageDetectorAgent.init
      (ArbitrageDetectorAgent.mkInput None None (Some 5000)
         (Some [("pancakeswap"%string, 0.01); ("thalaswap"%string, 0.02)])
         None None) = Success r
    /\ ArbitrageDetectorAgent.pr_recommendation r = EXECUTE
    /\ ArbitrageDetectorAgent.pr_risk_level r <> VERY_HIGH.
Proof.
  eexists. split; [vm_compute; reflexivity|].
  split; [vm_compute; reflexivity|].
  eapply (execute_recommendation_sound ArbitrageDetectorAgent.init
            (ArbitrageDetectorAgent.mkInput None None (Some 5000)
               (Some [("pancakeswap"%string, 0.01);
                      ("thalaswap"%string, 0.02)])
               None None)).
  - vm_compute. reflexivity.
  - vm_compute. reflexivity.
Defined.

(** * Further properties of the opportunity enumerator *)

(** The enumerator's response for every input, in terms of the ranked list
    of profitable evaluations over the DEX names it extracts. *)
Lemma find_possibilities_result
    (self : ArbitrageDetectorAgent.agent)
    (input : ArbitrageDetectorAgent.input_data) :
  let dexs :=
    ArbitrageDetectorAgent.extract_available_dexs (Request.fees input) in
  let found :=
    Py.sort_desc ArbitrageDetectorAgent.margin_key
      (omap ArbitrageDetectorAgent.collect
         (map (ArbitrageDetectorAgent._check_profitability self)
            (ArbitrageDetectorAgent.check_data_list
               (Request.amount input) (Request.fees input) dexs))) in
  exists r,
    ArbitrageDetectorAgent._find_possibilities self input = Success r
    /\ ArbitrageDetectorAgent.top_opportunities r = take 10 found
    /\ ArbitrageDetectorAgent.total_found r = length found
    /\ ArbitrageDetectorAgent.profitable_count r = length found
    /\ ArbitrageDetectorAgent.available_dexs r = dexs
    /\ ArbitrageDetectorAgent.pairs_checked r
       = (4 * Z.of_nat (length dexs) * (Z.of_nat (length dexs) - 1))%Z
    /\ ArbitrageDetectorAgent.best_profit_margin r
       = match take 10 found with
         | best :: _ => ArbitrageDetectorAgent.margin_key best
         | [] => 0
         end
    /\ ArbitrageDetectorAgent.average_profit_margin r
       = match take 10 found with
         | _ :: _ =>
             Py.sum (map ArbitrageDetectorAgent.margin_key (take 10 found))
             / inject_Z (Z.of_nat (length (take 10 found)))
         | [] => 0
         end
    /\ ArbitrageDetectorAgent.recommended_trades r
       = length (List.filter ArbitrageDetectorAgent.is_execute (take 10 found))
    /\ ArbitrageDetectorAgent.message r
       = (if Py.nonempty dexs then None
          else Some "No DEXs provided in input. Please specify DEX fees to analyze opportunities."%string).
Proof.
  intros dexs found.
  unfold ArbitrageDetectorAgent._find_possibilities,
    ArbitrageDetectorAgent.find_possibilities_body.
  fold (Request.fees input) (Request.amount input). fold dexs.
  destruct dexs as [|d dexs'] eqn:Edexs.
  { eexists. split; [reflexivity|]. subst found. cbn.
    repeat split; try reflexivity. }
  cbn [Py.nonempty negb].
  rewrite (omap_map (ArbitrageDetectorAgent._check_profitability self)
             ArbitrageDetectorAgent.collect).
  fold found.
  pose proof (collect_profitable
                (map (ArbitrageDetectorAgent._check_profitability self)
                   (ArbitrageDetectorAgent.check_data_list
                      (Request.amount input) (Request.fees input)
                      (d :: dexs')))) as Hprof.
  assert (Hcount : length (List.filter
                     (fun o => ArbitrageDetectorAgent.is_profitable
                                 (ArbitrageDetectorAgent.op_profitability o))
                     found) = length found).
  { rewrite filter_all; [reflexivity|].
    unfold found. rewrite sort_desc_perm. exact Hprof. }
  assert (Hdiv : forall (o : ArbitrageDetectorAgent.Opportunity) rest s,
    Py.div s (inject_Z (Z.of_nat (length (o :: rest))))
    = Py.Ret (s / inject_Z (Z.of_nat (length (o :: rest))))).
  { intros o rest s. unfold Py.div.
    rewrite (proj2 (eqb_false _ _)); [reflexivity|].
    intros Hz. unfold Qeq in Hz.
    cbn [Qnum Qden inject_Z length] in Hz. lia. }
  assert (Hpairs :
    (Z.of_nat (length ArbitrageDetectorAgent.pair_combinations)
     * Z.of_nat (length (d :: dexs')) * (Z.of_nat (length (d :: dexs')) - 1))%Z
    = (4 * Z.of_nat (length (d :: dexs'))
       * (Z.of_nat (length (d :: dexs')) - 1))%Z) by reflexivity.
  destruct (take 10 found) as [|best rest] eqn:Etop.
  - eexists. split; [reflexivity|].
    cbn [ArbitrageDetectorAgent.pairs_checked
         ArbitrageDetectorAgent.available_dexs
         ArbitrageDetectorAgent.top_opportunities
         ArbitrageDetectorAgent.total_found
         ArbitrageDetectorAgent.profitable_count
         ArbitrageDetectorAgent.best_profit_margin
         ArbitrageDetectorAgent.average_profit_margin
         ArbitrageDetectorAgent.recommended_trades
         ArbitrageDetectorAgent.message].
    repeat split; try reflexivity; try assumption; try discriminate.
  - cbn [Py.nonempty Py.head].
    unfold mbind, Py.M_bind, mret, Py.M_ret.
    rewrite Hdiv.
    eexists. split; [reflexivity|].
    cbn [ArbitrageDetectorAgent.pairs_checked
         ArbitrageDetectorAgent.available_dexs
         ArbitrageDetectorAgent.top_opportunities
         ArbitrageDetectorAgent.total_found
         ArbitrageDetectorAgent.profitable_count
         ArbitrageDetectorAgent.best_profit_margin
         ArbitrageDetectorAgent.average_profit_margin
         ArbitrageDetectorAgent.recommended_trades
         ArbitrageDetectorAgent.message].
    repeat split; try reflexivity; try assumption; try discriminate.
Qed.

(** What the enumerator appends for a request of its loops: a profitable
    verdict on exactly the requested route. *)
Lemma collect_route
    (self : ArbitrageDetectorAgent.agent)
    (check_data : ArbitrageDetectorAgent.input_data)
    (o : ArbitrageDetectorAgent.Opportunity) :
  ArbitrageDetectorAgent.collect
    (ArbitrageDetectorAgent._check_profitability self check_data) = Some o ->
  ArbitrageDetectorAgent.op_route o = Request.route check_data
  /\ ArbitrageDetectorAgent.is_profitable
       (ArbitrageDetectorAgent.op_profitability o) = true
  /\ ~ Request.amount check_data == 0.
Proof.
  unfold ArbitrageDetectorAgent.collect.
  destruct (ArbitrageDetectorAgent._check_profitability self check_data)
    as [r|e] eqn:Hr; [|discriminate].
  destruct (ArbitrageDetectorAgent.is_profitable _) eqn:Ep; [|discriminate].
  intros [= <-]. cbn.
  destruct (check_profitability_inv self check_data r Hr) as [Hnz Hns].
  destruct (check_profitability_success self check_data Hnz Hns)
    as (r' & cr & Hr' & _ & Hroute & _).
  rewrite Hr in Hr'. injection Hr' as <-.
  repeat split; assumption.
Qed.

Lemma In_omap {A B : Type} (f : A -> option B) (l : list A) (y : B) :
  In y (omap f l) <-> exists x, In x l /\ f x = Some y.
Proof.
  rewrite <- list_elem_of_In, list_elem_of_omap.
  split; intros (x & Hx & Hf); exists x; split; try assumption;
    apply list_elem_of_In; assumption.
Qed.

(** X6. Every opportunity that the enumerator lists is flagged profitable
    and is a route between two different DEXs of the available list, on one
    of the four canonical pair directions, for the requested (non-zero)
    trade amount. *)
Theorem listed_opportunities_are_valid
    (self : ArbitrageDetectorAgent.agent)
    (input : ArbitrageDetectorAgent.input_data)
    (r : ArbitrageDetectorAgent.Possibilities)
    (o : ArbitrageDetectorAgent.Opportunity) :
  ArbitrageDetectorAgent._find_possibilities self input = Success r ->
  In o (ArbitrageDetectorAgent.top_opportunities r) ->
  let route := ArbitrageDetectorAgent.op_route o in
  ArbitrageDetectorAgent.is_profitable
    (ArbitrageDetectorAgent.op_profitability o) = true
  /\ In (ArbitrageDetectorAgent.from_pair route,
         ArbitrageDetectorAgent.to_pair route)
       ArbitrageDetectorAgent.pair_combinations
  /\ In (ArbitrageDetectorAgent.from_dex route)
       (ArbitrageDetectorAgent.available_dexs r)
  /\ In (ArbitrageDetectorAgent.to_dex route)
       (ArbitrageDetectorAgent.available_dexs r)
  /\ ArbitrageDetectorAgent.from_dex route
     <> ArbitrageDetectorAgent.to_dex route
  /\ ArbitrageDetectorAgent.trade_amount route = Request.amount input
  /\ ~ Request.amount input == 0.
Proof.
  intros Hr Ho route.
  destruct (find_possibilities_result self input)
    as (r' & Hr' & Htop & _ & _ & Hav & _).
  rewrite Hr in Hr'. injection Hr' as <-.
  rewrite Htop in Ho. apply list_elem_of_In, elem_of_take in Ho.
  destruct Ho as (i & Ho & _).
  apply list_elem_of_lookup_2, list_elem_of_In in Ho.
  apply (Permutation_in o
           (sort_desc_perm ArbitrageDetectorAgent.margin_key _)) in Ho.
  apply In_omap in Ho as (res & Hres & Hcol).
  apply in_map_iff in Hres as (cd & <- & Hcd).
  apply check_data_list_spec in Hcd
    as (pair & fd & td & Hp & Hfd & Htd & Hne & ->).
  destruct (collect_route self _ o Hcol) as (Hroute & Hprof & Hnz).
  subst route. rewrite Hroute, Hav. cbn.
  destruct pair as [p1 p2]. repeat split; assumption.
Qed.

(** The eight opportunities between pancakeswap and thalaswap. *)
Lemma listed_opportunities_are_valid_witness :
  exists r o,
    ArbitrageDetectorAgent._find_possibilities ArbitrageDetectorAgent.init
      (ArbitrageDetectorAgent.mkInput None None (Some 5000)
         (Some [("pancakeswap"%string, 0.01); ("thalaswap"%string, 0.02)])
         None None) = Success r
    /\ In o (ArbitrageDetectorAgent.top_opportunities r)
    /\ ArbitrageDetectorAgent.from_dex (ArbitrageDetectorAgent.op_route o)
       <> ArbitrageDetectorAgent.to_dex (ArbitrageDetectorAgent.op_route o).
Proof.
  eexists. eexists.
  split; [vm_compute; reflexivity|].
  split; [left; reflexivity|].
  eapply (listed_opportunities_are_valid ArbitrageDetectorAgent.init
            (ArbitrageDetectorAgent.mkInput None None (Some 5000)
               (Some [("pancakeswap"%string, 0.01);
                      ("thalaswap"%string, 0.02)])
               None None)).
  - vm_compute. reflexivity.
  - left. reflexivity.
Defined.

Lemma inject_nat_succ (n : nat) :
  inject_Z (Z.of_nat (S n)) == inject_Z (Z.of_nat n) + 1.
Proof.
  rewrite Nat2Z.inj_succ, <- Z.add_1_r, inject_Z_plus. reflexivity.
Qed.



Lemma sum_upper (hi : Q) (l : list Q) (acc : Q) :
  Forall (fun x => x <= hi) l ->
  fold_left Qplus l acc <= acc + inject_Z (Z.of_nat (length l)) * hi.
Proof.
  intros Hall. revert acc.
  induction Hall as [|x l Hhi _ IH]; intros acc; cbn [fold_left length].
  { change (inject_Z (Z.of_nat 0)) with 0. lra. }
  specialize (IH (acc + x)). rewrite inject_nat_succ. lra.
Qed.

Lemma average_upper (hi : Q) (x : Q) (l : list Q) :
  Forall (fun x => x <= hi) (x :: l) ->
  Py.sum (x :: l) / inject_Z (Z.of_nat (length (x :: l))) <= hi.
Proof.
  intros Hall. pose proof (sum_upper hi (x :: l) 0 Hall) as H.
  assert (Hpos : 0 < inject_Z (Z.of_nat (length (x :: l)))).
  { change 0 with (inject_Z 0). rewrite <- Zlt_Qlt. cbn [length]. lia. }
  unfold Py.sum. apply Qle_shift_div_r; [exact Hpos | lra].
Qed.

(** In a ranked list the first element has the greatest key. *)
Lemma sorted_head_max {A : Type} (key : A -> Q) (x : A) (l : list A) :
  StronglySorted (fun a b => key b <= key a) (x :: l) ->
  Forall (fun y => key y <= key x) (x :: l).
Proof.
  intros Hs. apply StronglySorted_inv in Hs as [_ Hall].
  constructor; [apply Qle_refl | exact Hall].
Qed.



(** With a non-positive price the evaluator only returns errors. *)
Lemma invalid_price_no_verdict
    (self : ArbitrageDetectorAgent.agent)
    (input : ArbitrageDetectorAgent.input_data) :
  ~ Spec.positive_prices (ArbitrageDetectorAgent.current_prices self) ->
  (Request.amount input == 0 ->
   ArbitrageDetectorAgent._check_profitability self input
   = StatusError (ArbitrageDetectorAgent.ChargeCalculationFailed
                    Py.ZeroDivisionError))
  /\ (~ Request.amount input == 0 ->
      ArbitrageDetectorAgent._check_profitability self input
      = StatusError (ArbitrageDetectorAgent.ImpossibleArbitrage
                       (ArbitrageDetectorAgent.current_prices self)
                       (Request.route input))).
Proof.
  intros Hneg.
  destruct (check_profitability_errors self input) as (Hzero & Hsent).
  split; [exact Hzero|]. intros Hnz. apply (Hsent Hnz).
  unfold request_spread,
    ArbitrageDetectorAgent._calculate_price_difference.
  rewrite (price_validation_fails _ Hneg). reflexivity.
Qed.

Lemma omap_all_none {A B : Type} (f : A -> option B) (l : list A) :
  (forall x, In x l -> f x = None) -> omap f l = [].
Proof.
  induction l as [|x l IH]; intros H; [reflexivity|].
  cbn. rewrite (H x) by (left; reflexivity).
  apply IH. intros y Hy. apply H. right. exact Hy.
Qed.

(** X8. When the trade amount is zero, or when a price of the price set is
    not positive, the enumerator still succeeds but finds nothing: every
    evaluation it attempts ends in an error, the list is empty and all
    statistics are zero. *)
Theorem enumerator_finds_nothing
    (self : ArbitrageDetectorAgent.agent)
    (input : ArbitrageDetectorAgent.input_data) :
  Request.amount input == 0
  \/ ~ Spec.positive_prices (ArbitrageDetectorAgent.current_prices self) ->
  exists r,
    ArbitrageDetectorAgent._find_possibilities self input = Success r
    /\ ArbitrageDetectorAgent.top_opportunities r = []
    /\ ArbitrageDetectorAgent.total_found r = 0%nat
    /\ ArbitrageDetectorAgent.profitable_count r = 0%nat
    /\ ArbitrageDetectorAgent.recommended_trades r = 0%nat
    /\ ArbitrageDetectorAgent.best_profit_margin r = 0
    /\ ArbitrageDetectorAgent.average_profit_margin r = 0
    /\ (forall check_data,
          In check_data
            (ArbitrageDetectorAgent.check_data_list (Request.amount input)
               (Request.fees input) (ArbitrageDetectorAgent.available_dexs r)) ->
          exists e,
            ArbitrageDetectorAgent._check_profitability self check_data
            = StatusError e).
Proof.
  intros Hcase.
  assert (Herr : forall dexs check_data,
    In check_data
      (ArbitrageDetectorAgent.check_data_list (Request.amount input)
         (Request.fees input) dexs) ->
    exists e,
      ArbitrageDetectorAgent._check_profitability self check_data
      = StatusError e).
  { intros dexs cd Hcd.
    apply check_data_list_spec in Hcd as (pair & fd & td & _ & _ & _ & _ & ->).
    destruct Hcase as [Hz | Hneg].
    - destruct (check_profitability_errors self
                  (ArbitrageDetectorAgent.mkInput (Some pair.1) (Some pair.2)
                     (Some (Request.amount input)) (Some (Request.fees input))
                     (Some fd) (Some td))) as (Hzero & _).
      eexists. apply Hzero. exact Hz.
    - destruct (Qeq_dec (Request.amount input) 0) as [Hz | Hnz].
      + eexists. apply (proj1 (invalid_price_no_verdict self _ Hneg)).
        exact Hz.
      + eexists. apply (proj2 (invalid_price_no_verdict self _ Hneg)).
        exact Hnz. }
  destruct (find_possibilities_result self input)
    as (r & Hr & Htop & Htotal & Hcount & Hav & _ & Hbest & Havg & Hrec & _).
  assert (Hnone : omap ArbitrageDetectorAgent.collect
            (map (ArbitrageDetectorAgent._check_profitability self)
               (ArbitrageDetectorAgent.check_data_list (Request.amount input)
                  (Request.fees input)
                  (ArbitrageDetectorAgent.extract_available_dexs
                     (Request.fees input)))) = []).
  { apply omap_all_none. intros res Hres.
    apply in_map_iff in Hres as (cd & <- & Hcd).
    destruct (Herr _ cd Hcd) as (e & ->). reflexivity. }
  rewrite Hnone in *. cbn in Htop, Htotal, Hcount, Hbest, Havg, Hrec.
  exists r. repeat split; try assumption.
  intros cd Hcd. rewrite Hav in Hcd. apply (Herr _ cd Hcd).
Qed.

(** A zero trade amount over pancakeswap and thalaswap. *)
Lemma enumerator_finds_nothing_witness :
  exists r,
    ArbitrageDetectorAgent._find_possibilities ArbitrageDetectorAgent.init
      (ArbitrageDetectorAgent.mkInput None None (Some 0)
         (Some [("pancakeswap"%string, 0.01); ("thalaswap"%string, 0.02)])
         None None) = Success r
    /\ ArbitrageDetectorAgent.top_opportunities r = [].
Proof.
  destruct (enumerator_finds_nothing ArbitrageDetectorAgent.init
              (ArbitrageDetectorAgent.mkInput None None (Some 0)
                 (Some [("pancakeswap"%string, 0.01);
                        ("thalaswap"%string, 0.02)])
                 None None)) as (r & Hr & Htop & _).
  - left. reflexivity.
  - exists r. split; assumption.
Defined.

Lemma get_opt_not_in {V : Type} (d : Py.dict V) (k : string) :
  ~ In k (Py.keys d) -> Py.get_opt d k = None.
Proof.
  induction d as [|[k' v] d IH]; intros Hk; [reflexivity|].
  cbn [Py.get_opt].
  destruct (String.eqb k' k) eqn:E.
  - apply String.eqb_eq in E. subst. exfalso. apply Hk. left. reflexivity.
  - apply IH. intros Hin. apply Hk. right. exact Hin.
Qed.

Lemma get_opt_in {V : Type} (d : Py.dict V) (k : string) :
  In k (Py.keys d) -> exists v, Py.get_opt d k = Some v.
Proof.
  induction d as [|[k' v] d IH]; intros Hk; [destruct Hk|].
  cbn [Py.get_opt].
  destruct (String.eqb k' k) eqn:E; [eauto|].
  destruct Hk as [Hk | Hk]; [|apply IH, Hk].
  cbn in Hk. subst. rewrite String.eqb_refl in E. discriminate.
Qed.

(** The names that the agent extracts when the schedule names no DEX. *)
Lemma extract_without_specific (fees : Py.dict Q) :
  Forall (fun k => In k ArbitrageDetectorAgent.generic_keys) (Py.keys fees) ->
  ArbitrageDetectorAgent.extract_available_dexs fees
  = if Py.mem fees "Smart Contract" then ["dex_a"; "dex_b"]%string else [].
Proof.
  intros Hall.
  assert (Hspec : ArbitrageDetectorAgent.specific_dex_names fees = []).
  { unfold ArbitrageDetectorAgent.specific_dex_names.
    induction Hall as [|k ks Hk _ IH]; [reflexivity|].
    rewrite filter_cons. destruct (decide _) as [Hn | _]; [|exact IH].
    exfalso. apply Hn. apply list_elem_of_In. exact Hk. }
  unfold ArbitrageDetectorAgent.extract_available_dexs. rewrite Hspec.
  cbn [Py.nonempty negb andb].
  destruct fees as [|kv fees]; [reflexivity|]. reflexivity.
Qed.

(** X9. A fee schedule whose keys are all generic names no DEX.  Without a
    ["Smart Contract"] entry (in particular when it is empty) the
    enumerator attempts nothing and answers with the guidance message and
    zero statistics, although fees were supplied.  With a
    ["Smart Contract"] entry it enumerates the two generic venues dex_a and
    dex_b: eight evaluations, and no message. *)
Theorem generic_schedule_enumeration
    (self : ArbitrageDetectorAgent.agent)
    (input : ArbitrageDetectorAgent.input_data) :
  Forall (fun k => In k ArbitrageDetectorAgent.generic_keys)
    (Py.keys (Request.fees input)) ->
  exists r,
    ArbitrageDetectorAgent._find_possibilities self input = Success r
    /\ (~ In "Smart Contract"%string (Py.keys (Request.fees input)) ->
        ArbitrageDetectorAgent.message r
        = Some "No DEXs provided in input. Please specify DEX fees to analyze opportunities."%string
        /\ ArbitrageDetectorAgent.available_dexs r = []
        /\ ArbitrageDetectorAgent.pairs_checked r = 0%Z
        /\ ArbitrageDetectorAgent.top_opportunities r = []
        /\ ArbitrageDetectorAgent.total_found r = 0%nat)
    /\ (In "Smart Contract"%string (Py.keys (Request.fees input)) ->
        ArbitrageDetectorAgent.message r = None
        /\ ArbitrageDetectorAgent.available_dexs r
           = ["dex_a"; "dex_b"]%string
        /\ ArbitrageDetectorAgent.pairs_checked r = 8%Z
        /\ length (ArbitrageDetectorAgent.check_data_list
                     (Request.amount input) (Request.fees input)
                     (ArbitrageDetectorAgent.available_dexs r)) = 8%nat).
Proof.
  intros Hall.
  destruct (find_possibilities_result self input)
    as (r & Hr & Htop & Htotal & _ & Hav & Hpairs & _ & _ & _ & Hmsg).
  rewrite (extract_without_specific _ Hall) in *.
  exists r. split; [exact Hr|]. split.
  - intros Hno. unfold Py.mem in *.
    rewrite (get_opt_not_in _ _ Hno) in *.
    cbn in Htop, Htotal, Hpairs, Hmsg. auto.
  - intros Hsc. unfold Py.mem in *.
    destruct (get_opt_in _ _ Hsc) as (v & Hv). rewrite Hv in *.
    rewrite Hav. cbn in Hpairs, Hmsg. auto.
Qed.

(** The schedules [{"default": 0.25}] and [{"Smart Contract": 0.25}]. *)
Lemma generic_schedule_enumeration_witness :
  (exists r,
     ArbitrageDetectorAgent._find_possibilities ArbitrageDetectorAgent.init
       (ArbitrageDetectorAgent.mkInput None None None
          (Some [("default"%string, 0.25)]) None None) = Success r
     /\ ArbitrageDetectorAgent.pairs_checked r = 0%Z)
  /\ (exists r,
        ArbitrageDetectorAgent._find_possibilities ArbitrageDetectorAgent.init
          (ArbitrageDetectorAgent.mkInput None None None
             (Some [("Smart Contract"%string, 0.25)]) None None) = Success r
        /\ ArbitrageDetectorAgent.pairs_checked r = 8%Z).
Proof.
  split.
  - destruct (generic_schedule_enumeration ArbitrageDetectorAgent.init
                (ArbitrageDetectorAgent.mkInput None None None
                   (Some [("default"%string, 0.25)]) None None))
      as (r & Hr & Hno & _).
    + constructor; [right; left; reflexivity | constructor].
    + exists r. split; [exact Hr|]. apply Hno. cbn. intros [H | []].
      discriminate.
  - destruct (generic_schedule_enumeration ArbitrageDetectorAgent.init
                (ArbitrageDetectorAgent.mkInput None None None
                   (Some [("Smart Contract"%string, 0.25)]) None None))
      as (r & Hr & _ & Hsc).
    + constructor; [left; reflexivity | constructor].
    + exists r. split; [exact Hr|]. apply Hsc. left. reflexivity.
Defined.

(** * Further properties of the charge calculation *)

Lemma resolve_without_specific (fees : Py.dict Q) (from_dex to_dex : string) :
  Forall (fun k => In k ArbitrageDetectorAgent.generic_keys) (Py.keys fees) ->
  fees <> [] ->
  ArbitrageDetectorAgent.resolve_dex_fees fees from_dex to_dex
  = Py.Ret (generic_fee fees, generic_fee fees).
Proof.
  intros Hall Hne.
  assert (Hspec : ArbitrageDetectorAgent.specific_dex_names fees = []).
  { unfold ArbitrageDetectorAgent.specific_dex_names.
    clear Hne. induction Hall as [|k ks Hk _ IH]; [reflexivity|].
    rewrite filter_cons. destruct (decide _) as [Hn | _]; [|exact IH].
    exfalso. apply Hn. apply list_elem_of_In. exact Hk. }
  unfold ArbitrageDetectorAgent.resolve_dex_fees, generic_fee.
  rewrite Hspec. destruct fees as [|[k v] rest]; [contradiction|].
  cbn [Py.nonempty]. unfold Py.mem, Py.getitem, Py.or_else.
  destruct (Py.get_opt ((k, v) :: rest) "Smart Contract"); [reflexivity|].
  destruct (Py.get_opt ((k, v) :: rest) "default") as [d|];
    [destruct (Py.eqb d 0)|];
    destruct (Py.get_opt ((k, v) :: rest) "fee") as [f|];
    try destruct (Py.eqb f 0); reflexivity.
Qed.

(** X10. When no key of a non-empty fee schedule names a DEX, the charge
    calculation charges both legs the same fee percent: the
    ["Smart Contract"] entry if there is one, else the ["default"] entry
    unless it is zero, else the ["fee"] entry unless it is zero, else the
    first entry of the schedule.  The DEX names of the request play no
    part. *)
Theorem generic_schedule_fee_is_symmetric
    (self : ArbitrageDetectorAgent.agent)
    (input : ArbitrageDetectorAgent.input_data)
    (r : ArbitrageDetectorAgent.ChargesResult) :
  Forall (fun k => In k ArbitrageDetectorAgent.generic_keys)
    (Py.keys (Request.fees input)) ->
  Request.fees input <> [] ->
  ArbitrageDetectorAgent._calculate_charges self input = Success r ->
  let c := ArbitrageDetectorAgent.cr_charges r in
  ArbitrageDetectorAgent.from_dex_fee_percent c = generic_fee (Request.fees input)
  /\ ArbitrageDetectorAgent.to_dex_fee_percent c
     = generic_fee (Request.fees input)
  /\ ArbitrageDetectorAgent.total_trading_fees_usd c
     = Py.round
         (Request.amount input * (generic_fee (Request.fees input) / 100)
          + Request.amount input * (generic_fee (Request.fees input) / 100))
         4.
Proof.
  intros Hall Hne Hr c.
  destruct (Qeq_dec (Request.amount input) 0) as [Hz | Hnz].
  { rewrite (calculate_charges_zero self input Hz) in Hr. discriminate. }
  destruct (calculate_charges_nonzero self input Hnz)
    as (r' & ff & tf & Hres & Hc & _ & Hff & Htf & Htrade & _).
  rewrite Hr in Hc. injection Hc as <-.
  rewrite (resolve_without_specific _ _ _ Hall Hne) in Hres.
  injection Hres as <- <-.
  subst c. rewrite Hff, Htf, Htrade. repeat split; reflexivity.
Qed.

(** The schedule [{"default": 0, "fee": 0.3}]: the zero default is passed
    over. *)
Lemma generic_schedule_fee_is_symmetric_witness :
  exists r,
    ArbitrageDetectorAgent._calculate_charges ArbitrageDetectorAgent.init
      (ArbitrageDetectorAgent.mkInput None None None
         (Some [("default"%string, 0); ("fee"%string, 0.3)]) None None)
    = Success r
    /\ ArbitrageDetectorAgent.from_dex_fee_percent
         (ArbitrageDetectorAgent.cr_charges r) = 0.3
    /\ ArbitrageDetectorAgent.to_dex_fee_percent
         (ArbitrageDetectorAgent.cr_charges r) = 0.3.
Proof.
  eexists. split; [vm_compute; reflexivity|].
  destruct (generic_schedule_fee_is_symmetric ArbitrageDetectorAgent.init
              (ArbitrageDetectorAgent.mkInput None None None
                 (Some [("default"%string, 0); ("fee"%string, 0.3)])
                 None None) _
              ltac:(constructor;
                    [right; left; reflexivity
                    | constructor;
                      [right; right; left; reflexivity | constructor]])
              ltac:(discriminate) eq_refl) as (Hf & Ht & _).
  split; [exact Hf | exact Ht].
Defined.

(** X11. When exactly one key of the fee schedule names a DEX, and the
    request names no DEX itself, the first leg is routed over that DEX at
    its fee and the second leg over the placeholder dex_b, which is charged
    the 0.25% default (unless the named DEX is dex_b itself). *)
Theorem single_named_dex_second_leg_default
    (self : ArbitrageDetectorAgent.agent)
    (input : ArbitrageDetectorAgent.input_data)
    (r : ArbitrageDetectorAgent.ChargesResult) (dex : string) :
  ArbitrageDetectorAgent.specific_dex_names (Request.fees input) = [dex] ->
  dex <> "dex_b"%string ->
  ArbitrageDetectorAgent.in_from_dex input = None ->
  ArbitrageDetectorAgent.in_to_dex input = None ->
  ArbitrageDetectorAgent._calculate_charges self input = Success r ->
  ArbitrageDetectorAgent.from_dex (ArbitrageDetectorAgent.cr_route r) = dex
  /\ ArbitrageDetectorAgent.to_dex (ArbitrageDetectorAgent.cr_route r)
     = "dex_b"%string
  /\ Py.get_opt (Request.fees input) dex
     = Some (ArbitrageDetectorAgent.from_dex_fee_percent
               (ArbitrageDetectorAgent.cr_charges r))
  /\ ArbitrageDetectorAgent.to_dex_fee_percent
       (ArbitrageDetectorAgent.cr_charges r) = 0.25.
Proof.
  intros Hspec Hne Hfrom Hto Hr.
  destruct (Qeq_dec (Request.amount input) 0) as [Hz | Hnz].
  { rewrite (calculate_charges_zero self input Hz) in Hr. discriminate. }
  destruct (calculate_charges_nonzero self input Hnz)
    as (r' & ff & tf & Hres & Hc & Hroute & Hff & Htf & _).
  rewrite Hr in Hc. injection Hc as <-.
  assert (Hav : ArbitrageDetectorAgent.extract_available_dexs
                  (Request.fees input) = [dex]).
  { rewrite extract_specific; [exact Hspec | rewrite Hspec; discriminate]. }
  assert (Hfd : ArbitrageDetectorAgent.from_dex (Request.route input) = dex).
  { unfold Request.route. cbn [ArbitrageDetectorAgent.from_dex].
    unfold ArbitrageDetectorAgent.route_from_dex. rewrite Hav, Hfrom.
    reflexivity. }
  assert (Htd : ArbitrageDetectorAgent.to_dex (Request.route input)
                = "dex_b"%string).
  { unfold Request.route. cbn [ArbitrageDetectorAgent.to_dex].
    unfold ArbitrageDetectorAgent.route_to_dex. rewrite Hav, Hto.
    reflexivity. }
  rewrite Hfd, Htd in Hres.
  assert (Hin : In dex (Py.keys (Request.fees input))).
  { assert (Hd : dex ∈ ArbitrageDetectorAgent.specific_dex_names
                         (Request.fees input))
      by (rewrite Hspec; left).
    unfold ArbitrageDetectorAgent.specific_dex_names in Hd.
    apply list_elem_of_filter in Hd as [_ Hd].
    apply list_elem_of_In. exact Hd. }
  assert (Hnb : ~ In "dex_b"%string (Py.keys (Request.fees input))).
  { intros Hb.
    assert (Hd : "dex_b"%string
                 ∈ ArbitrageDetectorAgent.specific_dex_names
                     (Request.fees input)).
    { unfold ArbitrageDetectorAgent.specific_dex_names.
      apply list_elem_of_filter. split; [|apply list_elem_of_In, Hb].
      unfold ArbitrageDetectorAgent.generic_keys.
      rewrite !elem_of_cons, elem_of_nil.
      intros [H | [H | [H | [H | [H | []]]]]]; discriminate. }
    rewrite Hspec in Hd. apply list_elem_of_singleton in Hd. congruence. }
  destruct (get_opt_in _ _ Hin) as (v & Hv).
  unfold ArbitrageDetectorAgent.resolve_dex_fees in Hres.
  fold (ArbitrageDetectorAgent.specific_dex_names (Request.fees input))
    in Hres.
  rewrite Hspec in Hres.
  destruct (Request.fees input) as [|kv rest] eqn:Efees; [destruct Hin|].
  cbn [Py.nonempty] in Hres. unfold Py.get in Hres.
  rewrite Hv, (get_opt_not_in _ _ Hnb) in Hres.
  injection Hres as <- <-.
  rewrite Hroute, Hfd, Htd, Hff, Htf. repeat split; try reflexivity.
  exact Hv.
Qed.

(** The schedule [{"pancakeswap": 0.1}] without DEX names in the
    request. *)
Lemma single_named_dex_second_leg_default_witness :
  exists r,
    ArbitrageDetectorAgent._calculate_charges ArbitrageDetectorAgent.init
      (ArbitrageDetectorAgent.mkInput None None None
         (Some [("pancakeswap"%string, 0.1)]) None None)
    = Success r
    /\ ArbitrageDetectorAgent.to_dex_fee_percent
         (ArbitrageDetectorAgent.cr_charges r) = 0.25.
Proof.
  eexists. split; [vm_compute; reflexivity|].
  eapply (single_named_dex_second_leg_default ArbitrageDetectorAgent.init
            (ArbitrageDetectorAgent.mkInput None None None
               (Some [("pancakeswap"%string, 0.1)]) None None)
            _ "pancakeswap").
  - reflexivity.
  - discriminate.
  - reflexivity.
  - reflexivity.
  - vm_compute. reflexivity.
Defined.

(** * Gas and slippage *)

Lemma gas_cost_apt_value (operation : string) (gas_unit_price : Z) :
  ArbitrageDetectorAgent._calculate_gas_cost_apt operation gas_unit_price
  == inject_Z (Py.get ArbitrageDetectorAgent.gas_unit_costs operation 1000%Z)
     * inject_Z gas_unit_price * (1 # 100000000).
Proof.
  unfold ArbitrageDetectorAgent._calculate_gas_cost_apt.
  rewrite inject_Z_mult. unfold Qdiv.
  change (/ 100000000) with (1 # 100000000). reflexivity.
Qed.

(** X12. The gas cost of an operation is linear in the gas unit price: it
    is additive, it scales with an integer factor, and it is monotone.  An
    operation outside the table is priced like a swap, and adding or
    removing liquidity costs twice a swap. *)
Theorem gas_cost_linear (operation : string) (g1 g2 k : Z) :
  ArbitrageDetectorAgent._calculate_gas_cost_apt operation (g1 + g2)
  == ArbitrageDetectorAgent._calculate_gas_cost_apt operation g1
     + ArbitrageDetectorAgent._calculate_gas_cost_apt operation g2
  /\ ArbitrageDetectorAgent._calculate_gas_cost_apt operation (k * g1)
     == inject_Z k
        * ArbitrageDetectorAgent._calculate_gas_cost_apt operation g1
  /\ ((g1 <= g2)%Z ->
      ArbitrageDetectorAgent._calculate_gas_cost_apt operation g1
      <= ArbitrageDetectorAgent._calculate_gas_cost_apt operation g2)
  /\ (~ In operation (Py.keys ArbitrageDetectorAgent.gas_unit_costs) ->
      ArbitrageDetectorAgent._calculate_gas_cost_apt operation g1
      = ArbitrageDetectorAgent._calculate_gas_cost_apt "swap" g1)
  /\ ArbitrageDetectorAgent._calculate_gas_cost_apt "add_liquidity" g1
     == 2 * ArbitrageDetectorAgent._calculate_gas_cost_apt "swap" g1
  /\ ArbitrageDetectorAgent._calculate_gas_cost_apt "remove_liquidity" g1
     == 2 * ArbitrageDetectorAgent._calculate_gas_cost_apt "swap" g1.
Proof.
  assert (Hunits : (0 <= Py.get ArbitrageDetectorAgent.gas_unit_costs
                          operation 1000)%Z).
  { unfold Py.get, ArbitrageDetectorAgent.gas_unit_costs. cbn [Py.get_opt].
    repeat (destruct (String.eqb _ operation); [lia|]). lia. }
  split; [|split; [|split; [|split; [|split]]]].
  - rewrite !gas_cost_apt_value, inject_Z_plus. ring.
  - rewrite !gas_cost_apt_value, inject_Z_mult. ring.
  - intros Hle. rewrite !gas_cost_apt_value.
    apply Qmult_le_compat_r; [|discriminate].
    rewrite <- !inject_Z_mult, <- Zle_Qle.
    apply Z.mul_le_mono_nonneg_l; assumption.
  - intros Hnot. unfold ArbitrageDetectorAgent._calculate_gas_cost_apt, Py.get.
    rewrite (get_opt_not_in _ _ Hnot). reflexivity.
  - rewrite !gas_cost_apt_value.
    change (Py.get ArbitrageDetectorAgent.gas_unit_costs "add_liquidity" 1000%Z)
      with 2000%Z.
    change (Py.get ArbitrageDetectorAgent.gas_unit_costs "swap" 1000%Z)
      with 1000%Z.
    change (inject_Z 2000) with (2 * inject_Z 1000). ring.
  - rewrite !gas_cost_apt_value.
    change (Py.get ArbitrageDetectorAgent.gas_unit_costs "remove_liquidity"
              1000%Z) with 2000%Z.
    change (Py.get ArbitrageDetectorAgent.gas_unit_costs "swap" 1000%Z)
      with 1000%Z.
    change (inject_Z 2000) with (2 * inject_Z 1000). ring.
Qed.

(** A swap at 100 and at 150 octas per unit, and an operation that the
    table does not list. *)
Lemma gas_cost_linear_witness :
  ArbitrageDetectorAgent._calculate_gas_cost_apt "swap" 100
  <= ArbitrageDetectorAgent._calculate_gas_cost_apt "swap" 150
  /\ ArbitrageDetectorAgent._calculate_gas_cost_apt "transfer" 100
     = ArbitrageDetectorAgent._calculate_gas_cost_apt "swap" 100.
Proof.
  destruct (gas_cost_linear "swap" 100 150 1) as (_ & _ & Hmono & _).
  destruct (gas_cost_linear "transfer" 100 150 1) as (_ & _ & _ & Hother & _).
  split.
  - apply Hmono. lia.
  - apply Hother. cbn. intros [H | [H | [H | []]]]; discriminate.
Defined.

(** X13. The detector's and the optimizer's slippage policies give the
    same percentage exactly for the trade amounts below 20,000 USD. *)
Theorem slippage_policies_agree_below_20000 (a : Q) :
  ArbitrageDetectorAgent._estimate_slippage a
  == InvestmentOptimizerAgent._estimate_slippage_for_amount a
  <-> a < 20000.
Proof.
  unfold ArbitrageDetectorAgent._estimate_slippage,
    InvestmentOptimizerAgent._estimate_slippage_for_amount.
  case_ltb a 1000; case_ltb a 5000; case_ltb a 20000; case_ltb a 25000;
    case_ltb a 100000; split; intros H; try lra; try reflexivity;
    try (exfalso; revert H; discriminate).
Qed.

(** * Price overrides *)

Lemma last_cons {A : Type} (x d : A) (l : list A) :
  List.last (x :: l) d = List.last l x.
Proof.
  revert x d. induction l as [|y l IH]; intros x d; [reflexivity|].
  change (List.last (x :: y :: l) d) with (List.last (y :: l) d).
  rewrite (IH y d), (IH y x). reflexivity.
Qed.

Lemma update_prices_step (p : PriceSet) (token : string) (price : Q)
    (prices : Py.dict Q) :
  update_prices p ((token, price) :: prices)
  = update_prices
      (if has_price (Py.lower token) then set_price p (Py.lower token) price
       else p)
      prices.
Proof. reflexivity. Qed.

(** X14. [_update_prices] leaves each of the three prices at the last
    value given for its token under any letter case, or unchanged when
    none is given; entries for other tokens have no effect. *)
Theorem update_prices_last_wins (p : PriceSet) (prices : Py.dict Q) :
  apt (update_prices p prices) = List.last (given_for prices "apt") (apt p)
  /\ usdc (update_prices p prices)
     = List.last (given_for prices "usdc") (usdc p)
  /\ usdt (update_prices p prices)
     = List.last (given_for prices "usdt") (usdt p).
Proof.
  revert p. induction prices as [|[token price] prices IH]; intros p.
  { repeat split. }
  rewrite update_prices_step. unfold given_for in *. cbn [List.filter fst].
  destruct (IH (if has_price (Py.lower token)
                then set_price p (Py.lower token) price else p))
    as (Ha & Hc & Ht).
  rewrite Ha, Hc, Ht. clear Ha Hc Ht IH.
  unfold has_price, set_price.
  destruct (String.eqb (Py.lower token) "apt") eqn:Ea.
  { apply String.eqb_eq in Ea. rewrite Ea. cbn [map snd]. rewrite last_cons.
    repeat split; reflexivity. }
  destruct (String.eqb (Py.lower token) "usdc") eqn:Ec.
  { apply String.eqb_eq in Ec. rewrite Ec. cbn [map snd]. rewrite last_cons.
    repeat split; reflexivity. }
  destruct (String.eqb (Py.lower token) "usdt") eqn:Et.
  { apply String.eqb_eq in Et. rewrite Et. cbn [map snd]. rewrite last_cons.
    repeat split; reflexivity. }
  destruct (bool_decide _); repeat split; reflexivity.
Qed.

(** Three entries in mixed case and one for an unknown token. *)
Lemma update_prices_last_wins_witness :
  apt (update_prices (mkPrices 12.45 1.00 0.999)
         [("APT"%string, 10); ("doge"%string, 3); ("Apt"%string, 11)]) = 11
  /\ usdc (update_prices (mkPrices 12.45 1.00 0.999)
             [("APT"%string, 10); ("doge"%string, 3); ("Apt"%string, 11)])
     = 1.00.
Proof.
  destruct (update_prices_last_wins (mkPrices 12.45 1.00 0.999)
              [("APT"%string, 10); ("doge"%string, 3); ("Apt"%string, 11)])
    as (Ha & Hc & _).
  split; [exact Ha | exact Hc].
Defined.

(** * Dispatch *)

Lemma detector_prices_after_execute
    (self : ArbitrageDetectorAgent.instance)
    (w : ArbitrageDetectorAgent.world)
    (req : ArbitrageDetectorAgent.request) :
  ArbitrageDetectorAgent.current_prices
    (ArbitrageDetectorAgent.inst_fields
       (ArbitrageDetectorAgent.execute self w req).1)
  = overridden
      (ArbitrageDetectorAgent.current_prices
         (ArbitrageDetectorAgent.inst_fields self))
      (ArbitrageDetectorAgent.rq_current_prices req)
      (ArbitrageDetectorAgent.rq_apt_price req).
Proof.
  unfold ArbitrageDetectorAgent.execute, overridden. cbn [fst].
  unfold ArbitrageDetectorAgent._fetch_live_gas_price.
  cbn [ArbitrageDetectorAgent._gas_price_timestamp
       ArbitrageDetectorAgent.inst_fields].
  destruct (ArbitrageDetectorAgent.rq_current_prices req) as [[|kv given]|];
    destruct (ArbitrageDetectorAgent.rq_apt_price req) as [p|];
    cbn [Py.nonempty default];
    destruct (Py.ltb _ 30); try destruct (ArbitrageDetectorAgent.rpc w);
    reflexivity.
Qed.

(** X15. [execute] of the detector writes the price overrides of a request
    to the instance before it dispatches: the given prices are merged,
    then a direct APT price replaces the APT price, whatever the given
    prices say; for a charge request with a non-zero amount the breakdown
    reports that APT price as the one used.  The overrides stay on the
    instance: a later request without overrides is served at the same
    prices.  An unknown action is answered by an error naming it, after
    the overrides were written. *)
Theorem detector_execute_overrides
    (self : ArbitrageDetectorAgent.instance)
    (w w' : ArbitrageDetectorAgent.world)
    (req req' : ArbitrageDetectorAgent.request) (p : Q) :
  let after := (ArbitrageDetectorAgent.execute self w req).1 in
  let prices_after :=
    ArbitrageDetectorAgent.current_prices
      (ArbitrageDetectorAgent.inst_fields after) in
  (ArbitrageDetectorAgent.rq_apt_price req = Some p -> apt prices_after = p)
  /\ (ArbitrageDetectorAgent.rq_apt_price req = Some p ->
      ArbitrageDetectorAgent.rq_action req = Some "getcharges"%string ->
      ~ Request.amount (ArbitrageDetectorAgent.rq_fields req) == 0 ->
      exists r,
        (ArbitrageDetectorAgent.execute self w req).2
        = Success (ArbitrageDetectorAgent.ChargesPayload r)
        /\ ArbitrageDetectorAgent.apt_price_used
             (ArbitrageDetectorAgent.cr_charges r) = p)
  /\ (ArbitrageDetectorAgent.rq_current_prices req' = None ->
      ArbitrageDetectorAgent.rq_apt_price req' = None ->
      ArbitrageDetectorAgent.current_prices
        (ArbitrageDetectorAgent.inst_fields
           (ArbitrageDetectorAgent.execute after w' req').1)
      = prices_after)
  /\ (forall action,
        ArbitrageDetectorAgent.rq_action req = Some action ->
        action <> "getcharges"%string ->
        action <> "isprofitable"%string ->
        action <> "possibilities"%string ->
        (ArbitrageDetectorAgent.execute self w req).2
        = StatusError (ArbitrageDetectorAgent.UnknownAction action)).
Proof.
  intros after prices_after.
  assert (Hprices : prices_after
                    = overridden
                        (ArbitrageDetectorAgent.current_prices
                           (ArbitrageDetectorAgent.inst_fields self))
                        (ArbitrageDetectorAgent.rq_current_prices req)
                        (ArbitrageDetectorAgent.rq_apt_price req))
    by apply detector_prices_after_execute.
  split; [|split; [|split]].
  - intros Hp. rewrite Hprices, Hp. reflexivity.
  - intros Hp Hact Hnz.
    assert (Hresp : (ArbitrageDetectorAgent.execute self w req).2
                    = ArbitrageDetectorAgent.answer
                        ArbitrageDetectorAgent.ChargesPayload
                        (ArbitrageDetectorAgent._calculate_charges
                           (ArbitrageDetectorAgent.inst_fields after)
                           (ArbitrageDetectorAgent.rq_fields req))).
    { unfold after, ArbitrageDetectorAgent.execute. rewrite Hact.
      reflexivity. }
    rewrite Hresp.
    destruct (calculate_charges_nonzero
                (ArbitrageDetectorAgent.inst_fields after)
                (ArbitrageDetectorAgent.rq_fields req) Hnz)
      as (r & ff & tf & Hres & Hc & _).
    exists r. rewrite Hc. split; [reflexivity|].
    assert (Hused : ArbitrageDetectorAgent.apt_price_used
                      (ArbitrageDetectorAgent.cr_charges r)
                    = apt prices_after).
    { clear - Hc Hnz.
      unfold ArbitrageDetectorAgent._calculate_charges,
        ArbitrageDetectorAgent.calculate_charges_body in Hc.
      destruct (ArbitrageDetectorAgent.resolve_dex_fees _ _ _)
        as [[ff tf]|e]; [|discriminate].
      unfold mbind, Py.M_bind, Py.div in Hc.
      change (Py.getitem ArbitrageDetectorAgent.gas_unit_costs "swap")
        with (Py.Ret 1000%Z) in Hc.
      cbv iota beta in Hc. unfold Request.amount in Hnz.
      rewrite (proj2 (eqb_false _ _) Hnz) in Hc.
      injection Hc as <-. reflexivity. }
    rewrite Hused, Hprices, Hp. reflexivity.
  - intros Hnone Hnone'.
    rewrite detector_prices_after_execute, Hnone, Hnone'. reflexivity.
  - intros action Hact H1 H2 H3.
    unfold ArbitrageDetectorAgent.execute. rewrite Hact.
    cbn [from_option id snd].
    apply String.eqb_neq in H1, H2, H3. rewrite H1, H2, H3. reflexivity.
Qed.

(** A charge request that carries the APT price 10 beside a given APT price
    of 9. *)
Lemma detector_execute_overrides_witness :
  apt (ArbitrageDetectorAgent.current_prices
         (ArbitrageDetectorAgent.inst_fields
            (ArbitrageDetectorAgent.execute
               ArbitrageDetectorAgent.init_instance
               (ArbitrageDetectorAgent.mkWorld 1000
                  ArbitrageDetectorAgent.RpcFailed 1000)
               (ArbitrageDetectorAgent.mkRequest (Some "getcharges"%string)
                  (Some [("apt"%string, 9)]) (Some 10)
                  (ArbitrageDetectorAgent.mkInput None None None None
                     None None))).1))
  = 10.
Proof.
  apply (detector_execute_overrides ArbitrageDetectorAgent.init_instance
           (ArbitrageDetectorAgent.mkWorld 1000
              ArbitrageDetectorAgent.RpcFailed 1000)
           (ArbitrageDetectorAgent.mkWorld 1000
              ArbitrageDetectorAgent.RpcFailed 1000)
           (ArbitrageDetectorAgent.mkRequest (Some "getcharges"%string)
              (Some [("apt"%string, 9)]) (Some 10)
              (ArbitrageDetectorAgent.mkInput None None None None None None))
           (ArbitrageDetectorAgent.mkRequest None None None
              (ArbitrageDetectorAgent.mkInput None None None None None None))
           10).
  reflexivity.
Defined.

Lemma detector_gas_after_execute
    (self : ArbitrageDetectorAgent.instance)
    (w : ArbitrageDetectorAgent.world)
    (req : ArbitrageDetectorAgent.request) :
  let after := (ArbitrageDetectorAgent.execute self w req).1 in
  (ArbitrageDetectorAgent._cached_gas_price
     (ArbitrageDetectorAgent.inst_fields after),
   ArbitrageDetectorAgent._gas_price_timestamp after)
  = if Py.ltb (ArbitrageDetectorAgent.clock_at_check w
               - ArbitrageDetectorAgent._gas_price_timestamp self) 30
    then (ArbitrageDetectorAgent._cached_gas_price
            (ArbitrageDetectorAgent.inst_fields self),
          ArbitrageDetectorAgent._gas_price_timestamp self)
    else match ArbitrageDetectorAgent.rpc w with
         | ArbitrageDetectorAgent.RpcOk gas_estimate =>
             (default 100%Z gas_estimate,
              ArbitrageDetectorAgent.clock_at_store w)
         | ArbitrageDetectorAgent.RpcFailed =>
             (ArbitrageDetectorAgent._cached_gas_price
                (ArbitrageDetectorAgent.inst_fields self),
              ArbitrageDetectorAgent._gas_price_timestamp self)
         end.
Proof.
  unfold ArbitrageDetectorAgent.execute. cbn [fst].
  unfold ArbitrageDetectorAgent._fetch_live_gas_price.
  cbn [ArbitrageDetectorAgent._gas_price_timestamp
       ArbitrageDetectorAgent.inst_fields].
  destruct (ArbitrageDetectorAgent.rq_current_prices req) as [[|kv given]|];
    destruct (ArbitrageDetectorAgent.rq_apt_price req) as [p|];
    cbn [Py.nonempty];
    destruct (Py.ltb _ 30); try destruct (ArbitrageDetectorAgent.rpc w);
    reflexivity.
Qed.

(** X16. [execute] refreshes the gas unit price only when the cached one is
    at least 30 seconds old, and then only from a successful reply: a
    reply without the estimate sets it to 100, a failed request keeps the
    cached price and its time stamp.  A charge request with a non-zero
    amount reports the gas unit price that the call leaves on the
    instance. *)
Theorem detector_gas_price_refresh
    (self : ArbitrageDetectorAgent.instance)
    (w : ArbitrageDetectorAgent.world)
    (req : ArbitrageDetectorAgent.request) :
  let after := (ArbitrageDetectorAgent.execute self w req).1 in
  let gas i :=
    ArbitrageDetectorAgent._cached_gas_price
      (ArbitrageDetectorAgent.inst_fields i) in
  let age :=
    ArbitrageDetectorAgent.clock_at_check w
    - ArbitrageDetectorAgent._gas_price_timestamp self in
  (age < 30 ->
   gas after = gas self
   /\ ArbitrageDetectorAgent._gas_price_timestamp after
      = ArbitrageDetectorAgent._gas_price_timestamp self)
  /\ (30 <= age ->
      forall gas_estimate,
        ArbitrageDetectorAgent.rpc w
        = ArbitrageDetectorAgent.RpcOk gas_estimate ->
        gas after = default 100%Z gas_estimate
        /\ ArbitrageDetectorAgent._gas_price_timestamp after
           = ArbitrageDetectorAgent.clock_at_store w)
  /\ (ArbitrageDetectorAgent.rpc w = ArbitrageDetectorAgent.RpcFailed ->
      gas after = gas self
      /\ ArbitrageDetectorAgent._gas_price_timestamp after
         = ArbitrageDetectorAgent._gas_price_timestamp self)
  /\ (ArbitrageDetectorAgent.rq_action req = Some "getcharges"%string ->
      ~ Request.amount (ArbitrageDetectorAgent.rq_fields req) == 0 ->
      exists r,
        (ArbitrageDetectorAgent.execute self w req).2
        = Success (ArbitrageDetectorAgent.ChargesPayload r)
        /\ ArbitrageDetectorAgent.gas_unit_price_octas
             (ArbitrageDetectorAgent.cr_charges r) = gas after).
Proof.
  intros after gas age.
  pose proof (detector_gas_after_execute self w req) as Hgas.
  cbv zeta in Hgas. fold after in Hgas. fold age in Hgas.
  split; [|split; [|split]].
  - intros Hfresh. rewrite (proj2 (ltb_true _ _) Hfresh) in Hgas.
    injection Hgas as Hg Ht. split; assumption.
  - intros Hstale gas_estimate Hrpc.
    rewrite (proj2 (ltb_false _ _) Hstale), Hrpc in Hgas.
    injection Hgas as Hg Ht. split; assumption.
  - intros Hrpc. rewrite Hrpc in Hgas.
    destruct (Py.ltb age 30); injection Hgas as Hg Ht; split; assumption.
  - intros Hact Hnz.
    assert (Hresp : (ArbitrageDetectorAgent.execute self w req).2
                    = ArbitrageDetectorAgent.answer
                        ArbitrageDetectorAgent.ChargesPayload
                        (ArbitrageDetectorAgent._calculate_charges
                           (ArbitrageDetectorAgent.inst_fields after)
                           (ArbitrageDetectorAgent.rq_fields req))).
    { unfold after, ArbitrageDetectorAgent.execute. rewrite Hact.
      reflexivity. }
    rewrite Hresp.
    destruct (calculate_charges_nonzero
                (ArbitrageDetectorAgent.inst_fields after)
                (ArbitrageDetectorAgent.rq_fields req) Hnz)
      as (r & ff & tf & Hres & Hc & _).
    exists r. rewrite Hc. split; [reflexivity|].
    clear - Hc Hnz.
    unfold ArbitrageDetectorAgent._calculate_charges,
      ArbitrageDetectorAgent.calculate_charges_body in Hc.
    destruct (ArbitrageDetectorAgent.resolve_dex_fees _ _ _)
      as [[ff tf]|e]; [|discriminate].
    unfold mbind, Py.M_bind, Py.div in Hc.
    change (Py.getitem ArbitrageDetectorAgent.gas_unit_costs "swap")
      with (Py.Ret 1000%Z) in Hc.
    cbv iota beta in Hc. unfold Request.amount in Hnz.
    rewrite (proj2 (eqb_false _ _) Hnz) in Hc.
    injection Hc as <-. reflexivity.
Qed.

(** A stale cache and a reply with the estimate 150. *)
Lemma detector_gas_price_refresh_witness :
  ArbitrageDetectorAgent._cached_gas_price
    (ArbitrageDetectorAgent.inst_fields
       (ArbitrageDetectorAgent.execute ArbitrageDetectorAgent.init_instance
          (ArbitrageDetectorAgent.mkWorld 1000
             (ArbitrageDetectorAgent.RpcOk (Some 150%Z)) 1001)
          (ArbitrageDetectorAgent.mkRequest None None None
             (ArbitrageDetectorAgent.mkInput None None None None None
                None))).1)
  = 150%Z.
Proof.
  destruct (detector_gas_price_refresh ArbitrageDetectorAgent.init_instance
              (ArbitrageDetectorAgent.mkWorld 1000
                 (ArbitrageDetectorAgent.RpcOk (Some 150%Z)) 1001)
              (ArbitrageDetectorAgent.mkRequest None None None
                 (ArbitrageDetectorAgent.mkInput None None None None None
                    None))) as (_ & Hstale & _).
  destruct (Hstale ltac:(discriminate) (Some 150%Z) eq_refl) as [Hg _].
  exact Hg.
Defined.

(** * The last-result cache *)

(** X17. A result stored in the cache is returned by [get_cached_result]
    for as long as less than 30 seconds have passed since it was stored,
    and no longer; storing a result replaces the one stored before.  The
    cache of a new agent is valid only during the first 30 seconds of the
    clock. *)
Theorem cache_round_trip {R : Type} (c : BaseAgent.cache R)
    (result : R) (stored read : Q) :
  (read - stored < 30 ->
   BaseAgent.get_cached_result (BaseAgent.cache_result c result stored) read
   = Some result)
  /\ (30 <= read - stored ->
      BaseAgent.get_cached_result (BaseAgent.cache_result c result stored) read
      = None)
  /\ BaseAgent.get_cache_age (BaseAgent.cache_result c result stored) read
     = read - stored
  /\ (forall empty : R,
        BaseAgent.get_cached_result (BaseAgent.init empty) read
        = if Py.ltb read 30 then Some empty else None).
Proof.
  unfold BaseAgent.get_cached_result, BaseAgent.is_cache_valid,
    BaseAgent.cache_result, BaseAgent.cache_duration, BaseAgent.get_cache_age,
    BaseAgent.init.
  cbn [BaseAgent.last_update BaseAgent.last_result].
  split; [|split; [|split]].
  - intros H. rewrite (proj2 (ltb_true _ _)); [reflexivity | lra].
  - intros H. rewrite (proj2 (ltb_false _ _)); [reflexivity | lra].
  - reflexivity.
  - intros empty. rewrite (ltb_comp (read - 0) read 30.0 30);
      [reflexivity | ring | reflexivity].
Qed.

(** A result stored at time 100 and read at time 129, then at 130. *)
Lemma cache_round_trip_witness :
  BaseAgent.get_cached_result
    (BaseAgent.cache_result (BaseAgent.init 0%nat) 7%nat 100) 129 = Some 7%nat
  /\ BaseAgent.get_cached_result
       (BaseAgent.cache_result (BaseAgent.init 0%nat) 7%nat 100) 130 = None.
Proof.
  destruct (cache_round_trip (BaseAgent.init 0%nat) 7%nat 100 129)
    as (Hhit & _).
  destruct (cache_round_trip (BaseAgent.init 0%nat) 7%nat 100 130)
    as (_ & Hmiss & _).
  split; [apply Hhit; reflexivity | apply Hmiss; discriminate].
Defined.

(** * The optimizer's profit calculation *)

Lemma optimizer_profit_closed_form (self : InvestmentOptimizerAgent.agent)
    (a : Q) (from_token to_token : string) (fees : Py.dict Q) :
  let P := apt (InvestmentOptimizerAgent.current_prices self) in
  let d :=
    InvestmentOptimizerAgent._calculate_profit_for_amount self a (a * P)
      from_token to_token fees in
  0 < a -> 0 < P ->
  InvestmentOptimizerAgent.profit_margin_percent d
  == optimizer_margin self from_token to_token fees a
  /\ InvestmentOptimizerAgent.net_profit_usd d
     == a * P * (optimizer_margin self from_token to_token fees a / 100)
  /\ (InvestmentOptimizerAgent.is_profitable d = true
      <-> 0 < optimizer_margin self from_token to_token fees a).
Proof.
  intros P d Ha HP.
  assert (HaP : 0 < a * P) by (apply Qmult_lt_0_compat; assumption).
  assert (Hnet : InvestmentOptimizerAgent.net_profit_usd d
                 == a * P * (optimizer_margin self from_token to_token fees a
                             / 100)).
  { unfold d, InvestmentOptimizerAgent._calculate_profit_for_amount,
      optimizer_margin.
    cbn [InvestmentOptimizerAgent.net_profit_usd]. fold P.
    change InvestmentOptimizerAgent.gas_cost_swap with 0.001.
    field. lra. }
  split; [|split].
  - unfold d, InvestmentOptimizerAgent._calculate_profit_for_amount.
    cbn [InvestmentOptimizerAgent.profit_margin_percent]. fold P.
    rewrite (proj2 (gtb_true _ _) HaP).
    unfold optimizer_margin. fold P.
    change InvestmentOptimizerAgent.gas_cost_swap with 0.001.
    field. split; lra.
  - exact Hnet.
  - assert (His : InvestmentOptimizerAgent.is_profitable d
                  = Py.gtb (InvestmentOptimizerAgent.net_profit_usd d) 0)
      by reflexivity.
    rewrite His, gtb_true, Hnet.
    set (m := optimizer_margin self from_token to_token fees a).
    split; intros H.
    + destruct (Qlt_le_dec 0 m) as [Hm|Hm]; [exact Hm|].
      exfalso. assert (0 <= a * P * (- m * (1 # 100))); [|revert H; percent; lra].
      apply Qmult_le_0_compat; lra.
    + assert (0 < a * P * (m * (1 # 100))); [|percent; lra].
      apply Qmult_lt_0_compat; lra.
Qed.




(** * The optimizer's ladder of test amounts *)

Lemma sorted_set_of_sorted (l : list Z) :
  StronglySorted Z.lt l -> Py.sorted_set l = l.
Proof.
  induction 1 as [|x l Hs IH Hall]; [reflexivity|].
  unfold Py.sorted_set in *. cbn [fold_right]. rewrite IH.
  destruct l as [|y l']; [reflexivity|].
  cbn [Py.insert_unique]. inversion Hall as [|? ? Hxy _]; subst.
  apply Z.ltb_lt in Hxy. rewrite Hxy. reflexivity.
Qed.

Lemma filter_strongly_sorted {A : Type} (R : A -> A -> Prop)
    (f : A -> bool) (l : list A) :
  StronglySorted R l -> StronglySorted R (List.filter f l).
Proof.
  induction 1 as [|x l Hs IH Hall]; [constructor|].
  cbn [List.filter]. destruct (f x); [|exact IH].
  constructor; [exact IH|].
  apply List.Forall_forall. intros y Hy. apply List.filter_In in Hy.
  rewrite List.Forall_forall in Hall. apply Hall, Hy.
Qed.

Lemma filter_length_lt {A : Type} (f : A -> bool) (l : list A) (x : A) :
  In x l -> f x = false -> (length (List.filter f l) < length l)%nat.
Proof.
  induction l as [|y l IH]; intros Hin Hx; [destruct Hin|].
  cbn [List.filter]. pose proof (List.filter_length_le f l) as Hle.
  destruct Hin as [->|Hin].
  - rewrite Hx. cbn [length]. lia.
  - specialize (IH Hin Hx). destruct (f y); cbn [length]; lia.
Qed.

Lemma ladder_bounds (amt : Z) : In amt ladder -> (1 <= amt <= 50000)%Z.
Proof.
  unfold ladder. cbn. intros Hl.
  repeat (destruct Hl as [<-|Hl]; [lia|]). destruct Hl.
Qed.

Lemma ladder_sorted : StronglySorted Z.lt ladder.
Proof.
  unfold ladder. cbn.
  repeat (constructor; [|repeat (constructor; [lia|]); constructor]).
  constructor.
Qed.

Lemma test_amounts_filter (cap : Q) :
  InvestmentOptimizerAgent.test_amounts cap
  = List.filter (fun amt => Py.leb (inject_Z amt) cap) ladder.
Proof.
  unfold InvestmentOptimizerAgent.test_amounts.
  set (p := fun amt => Py.leb (inject_Z amt) cap).
  assert (Hflat : flat_map (fun range_group => List.filter p range_group)
                    InvestmentOptimizerAgent.apt_test_ranges
                  = List.filter p ladder).
  { unfold ladder, InvestmentOptimizerAgent.apt_test_ranges.
    cbn [flat_map concat]. rewrite !List.filter_app, !app_nil_r.
    reflexivity. }
  rewrite Hflat. apply sorted_set_of_sorted, filter_strongly_sorted,
    ladder_sorted.
Qed.

(** X19. The amounts that the optimizer tests are the ladder entries not
    above the cap, in the order of the ladder: removing duplicates and
    sorting change nothing, because the ladder is strictly increasing.
    Hence they are strictly increasing, lie between 1 and 50,000 APT, and
    number at most 20; all 20 are tested when the request gives no cap or a
    cap of at least 50,000, and none below a cap of 1. *)
Theorem optimizer_test_amounts (self : InvestmentOptimizerAgent.agent)
    (req : InvestmentOptimizerAgent.request) :
  let cap := default 50000 (InvestmentOptimizerAgent.rq_max_investment_apt req) in
  let tested := InvestmentOptimizerAgent.test_amounts cap in
  tested = List.filter (fun amt => Py.leb (inject_Z amt) cap) ladder
  /\ StronglySorted Z.lt tested
  /\ (forall amt, In amt tested ->
        (1 <= amt <= 50000)%Z /\ inject_Z amt <= cap)
  /\ InvestmentOptimizerAgent.amounts_tested
       (InvestmentOptimizerAgent._optimize_investment_amount self req)
     = length tested
  /\ (length tested <= 20)%nat
  /\ (50000 <= cap <-> length tested = 20%nat)
  /\ (cap < 1 <-> tested = []).
Proof.
  intros cap tested.
  pose proof (test_amounts_filter cap) as Hf. fold tested in Hf.
  split; [exact Hf|].
  split; [rewrite Hf; apply filter_strongly_sorted, ladder_sorted|].
  split.
  { intros amt Hin. rewrite Hf in Hin. apply List.filter_In in Hin.
    destruct Hin as [Hl Hle]. apply leb_true in Hle. split; [|exact Hle].
    apply ladder_bounds, Hl. }
  split; [reflexivity|].
  split.
  { rewrite Hf. pose proof (List.filter_length_le
      (fun amt => Py.leb (inject_Z amt) cap) ladder) as H.
    exact H. }
  split.
  - split.
    + intros Hcap. rewrite Hf. rewrite filter_all; [reflexivity|].
      apply List.Forall_forall. intros amt Hl. apply leb_true.
      apply ladder_bounds in Hl.
      assert (inject_Z amt <= 50000); [|lra].
      change 50000 with (inject_Z 50000). rewrite <- Zle_Qle. lia.
    + intros Hlen. rewrite Hf in Hlen.
      destruct (Qlt_le_dec cap 50000) as [Hlt|Hge]; [|exact Hge].
      exfalso.
      assert (Hlast : Py.leb (inject_Z 50000) cap = false)
        by (apply leb_false; exact Hlt).
      assert (Hin : In 50000%Z ladder).
      { unfold ladder. cbn. do 19 right. left. reflexivity. }
      pose proof (filter_length_lt
                    (fun amt => Py.leb (inject_Z amt) cap) ladder 50000%Z
                    Hin Hlast) as Hshort.
      rewrite Hlen in Hshort. change (length ladder) with 20%nat in Hshort.
      lia.
  - split.
    + intros Hcap. rewrite Hf.
      destruct (List.filter _ ladder) as [|amt rest] eqn:Ef; [reflexivity|].
      exfalso.
      assert (Hin : In amt (List.filter
                              (fun amt => Py.leb (inject_Z amt) cap) ladder))
        by (rewrite Ef; left; reflexivity).
      apply List.filter_In in Hin as [Hl Hle].
      apply leb_true in Hle. apply ladder_bounds in Hl.
      assert (1 <= inject_Z amt); [|lra].
      change 1 with (inject_Z 1). rewrite <- Zle_Qle. lia.
    + intros Hnil. rewrite Hf in Hnil.
      destruct (Qlt_le_dec cap 1) as [Hlt|Hge]; [exact Hlt|].
      exfalso.
      assert (Hin : In 1%Z (List.filter
                              (fun amt => Py.leb (inject_Z amt) cap) ladder)).
      { apply List.filter_In. split; [left; reflexivity|].
        apply leb_true. exact Hge. }
      rewrite Hnil in Hin. destruct Hin.
Qed.

(** * The optimizer's choice *)

Lemma find_optimal_spec (results : list InvestmentOptimizerAgent.Candidate) :
  match InvestmentOptimizerAgent._find_optimal_investment results with
  | None => results = []
  | Some o =>
      exists c,
        In c results
        /\ InvestmentOptimizerAgent.recommended_apt_investment o
           = InvestmentOptimizerAgent.apt_investment c
        /\ InvestmentOptimizerAgent.recommended_usd_investment o
           = InvestmentOptimizerAgent.usd_investment c
        /\ InvestmentOptimizerAgent.expected_profit_usd o
           = InvestmentOptimizerAgent.cand_net_profit_usd c
        /\ InvestmentOptimizerAgent.expected_profit_margin o
           = InvestmentOptimizerAgent.cand_profit_margin_percent c
        /\ InvestmentOptimizerAgent.optimal_risk_level o
           = InvestmentOptimizerAgent.cand_risk_level c
        /\ InvestmentOptimizerAgent.combined_score o
           = InvestmentOptimizerAgent.score_of c
        /\ forall c', In c' results ->
             InvestmentOptimizerAgent.score_of c'
             <= InvestmentOptimizerAgent.score_of c
  end.
Proof.
  unfold InvestmentOptimizerAgent._find_optimal_investment.
  destruct results as [|r0 results]; [reflexivity|].
  cbn [Py.nonempty negb].
  set (scored := map (fun result => (result,
                        InvestmentOptimizerAgent.score_of result))
                   (r0 :: results)).
  pose proof (sort_desc_perm
                (fun sr : InvestmentOptimizerAgent.Candidate * Q => sr.2)
                scored) as Hperm.
  pose proof (sort_desc_sorted
                (fun sr : InvestmentOptimizerAgent.Candidate * Q => sr.2)
                scored) as Hsorted.
  destruct (Py.sort_desc _ scored) as [|[c s] rest] eqn:Es.
  { apply Permutation_nil in Hperm. discriminate Hperm. }
  assert (Hin : In (c, s) scored).
  { eapply Permutation_in; [exact Hperm | left; reflexivity]. }
  apply in_map_iff in Hin as (c0 & Heq & Hc0). injection Heq as -> <-.
  exists c. cbn. repeat (split; [first [exact Hc0 | reflexivity]|]).
  intros c' Hc'.
  apply sorted_head_max in Hsorted. rewrite List.Forall_forall in Hsorted.
  apply (Hsorted (c', InvestmentOptimizerAgent.score_of c')).
  eapply Permutation_in; [symmetry; exact Hperm|].
  apply in_map_iff. exists c'. split; [reflexivity | exact Hc'].
Qed.

Lemma candidate_for_spec (self : InvestmentOptimizerAgent.agent)
    (from_token to_token : string) (fees : Py.dict Q) (amt : Z)
    (c : InvestmentOptimizerAgent.Candidate) :
  InvestmentOptimizerAgent.candidate_for self from_token to_token fees amt
  = Some c ->
  let P := apt (InvestmentOptimizerAgent.current_prices self) in
  let d :=
    InvestmentOptimizerAgent._calculate_profit_for_amount self (inject_Z amt)
      (inject_Z amt * P) from_token to_token fees in
  InvestmentOptimizerAgent.apt_investment c = amt
  /\ InvestmentOptimizerAgent.usd_investment c = inject_Z amt * P
  /\ InvestmentOptimizerAgent.cand_net_profit_usd c
     = InvestmentOptimizerAgent.net_profit_usd d
  /\ InvestmentOptimizerAgent.cand_profit_margin_percent c
     = InvestmentOptimizerAgent.profit_margin_percent d
  /\ InvestmentOptimizerAgent.cand_risk_level c
     = InvestmentOptimizerAgent.risk_level d
  /\ InvestmentOptimizerAgent.is_profitable d = true.
Proof.
  intros H P d. unfold InvestmentOptimizerAgent.candidate_for in H.
  fold P in H. fold d in H.
  destruct (InvestmentOptimizerAgent.is_profitable d) eqn:Ep;
    [|discriminate].
  injection H as <-.
  cbn [InvestmentOptimizerAgent.apt_investment
       InvestmentOptimizerAgent.usd_investment
       InvestmentOptimizerAgent.cand_net_profit_usd
       InvestmentOptimizerAgent.cand_profit_margin_percent
       InvestmentOptimizerAgent.cand_risk_level].
  repeat split; reflexivity.
Qed.

(** X20. In the answer of [_optimize_investment_amount], every listed
    option is one of the tested amounts, is valued at the agent's APT
    price and has a positive net profit; the options are in descending
    order of margin and are the first [min(10, profitable_amounts)]; no
    more amounts are profitable than were tested.  An optimal investment
    is given exactly when some amount is profitable; it is then a tested
    amount with a positive expected profit, and its combined score
    (margin divided by the risk score) is at least that of every listed
    option. *)
Theorem optimization_answer_consistent
    (self : InvestmentOptimizerAgent.agent)
    (req : InvestmentOptimizerAgent.request) :
  let cap := default 50000 (InvestmentOptimizerAgent.rq_max_investment_apt req) in
  let tested := InvestmentOptimizerAgent.test_amounts cap in
  let r := InvestmentOptimizerAgent._optimize_investment_amount self req in
  let options := InvestmentOptimizerAgent.all_profitable_options r in
  Forall (fun c =>
            In (InvestmentOptimizerAgent.apt_investment c) tested
            /\ InvestmentOptimizerAgent.usd_investment c
               = inject_Z (InvestmentOptimizerAgent.apt_investment c)
                 * apt (InvestmentOptimizerAgent.current_prices self)
            /\ 0 < InvestmentOptimizerAgent.cand_net_profit_usd c)
    options
  /\ StronglySorted
       (fun x y =>
          InvestmentOptimizerAgent.cand_profit_margin_percent y
          <= InvestmentOptimizerAgent.cand_profit_margin_percent x)
       options
  /\ length options
     = Nat.min 10 (InvestmentOptimizerAgent.profitable_amounts r)
  /\ (InvestmentOptimizerAgent.profitable_amounts r
      <= InvestmentOptimizerAgent.amounts_tested r)%nat
  /\ (InvestmentOptimizerAgent.optimal_investment r = None
      <-> InvestmentOptimizerAgent.profitable_amounts r = 0%nat)
  /\ (forall o,
        InvestmentOptimizerAgent.optimal_investment r = Some o ->
        In (InvestmentOptimizerAgent.recommended_apt_investment o) tested
        /\ 0 < InvestmentOptimizerAgent.expected_profit_usd o
        /\ Forall (fun c =>
                     InvestmentOptimizerAgent.score_of c
                     <= InvestmentOptimizerAgent.combined_score o)
             options).
Proof.
  intros cap tested r options.
  set (from_token := default "usdc"%string
         (InvestmentOptimizerAgent.in_from_token
            (InvestmentOptimizerAgent.rq_fields req))).
  set (to_token := default "usdt"%string
         (InvestmentOptimizerAgent.in_to_token
            (InvestmentOptimizerAgent.rq_fields req))).
  set (fees := default []
         (InvestmentOptimizerAgent.in_dex_fees
            (InvestmentOptimizerAgent.rq_fields req))).
  set (found := omap (InvestmentOptimizerAgent.candidate_for self from_token
                        to_token fees) tested).
  set (ranked := Py.sort_desc
                   InvestmentOptimizerAgent.cand_profit_margin_percent found).
  assert (Hoptions : options = take 10 ranked) by reflexivity.
  assert (Hcount : InvestmentOptimizerAgent.profitable_amounts r
                   = length ranked) by reflexivity.
  assert (Hopt : InvestmentOptimizerAgent.optimal_investment r
                 = if Py.nonempty ranked
                   then InvestmentOptimizerAgent._find_optimal_investment
                          ranked
                   else None) by reflexivity.
  assert (Hranked : forall c, In c ranked ->
            In (InvestmentOptimizerAgent.apt_investment c) tested
            /\ InvestmentOptimizerAgent.usd_investment c
               = inject_Z (InvestmentOptimizerAgent.apt_investment c)
                 * apt (InvestmentOptimizerAgent.current_prices self)
            /\ 0 < InvestmentOptimizerAgent.cand_net_profit_usd c).
  { intros c Hc.
    apply (Permutation_in _ (sort_desc_perm _ found)) in Hc.
    apply In_omap in Hc as (amt & Hamt & Hc).
    destruct (candidate_for_spec _ _ _ _ _ _ Hc)
      as (Ha & Hu & Hn & _ & _ & Hp).
    rewrite Ha, Hu, Hn. split; [exact Hamt|]. split; [reflexivity|].
    apply gtb_true. exact Hp. }
  assert (Hsub : forall c, In c options -> In c ranked).
  { intros c Hc. rewrite Hoptions in Hc.
    apply list_elem_of_In, elem_of_take in Hc as (i & Hi & _).
    apply list_elem_of_In. eapply list_elem_of_lookup_2. exact Hi. }
  split.
  { apply List.Forall_forall. intros c Hc. apply Hranked, Hsub, Hc. }
  split.
  { rewrite Hoptions. apply take_sorted, sort_desc_sorted. }
  split.
  { rewrite Hoptions, Hcount, length_take. reflexivity. }
  split.
  { rewrite Hcount. unfold ranked. rewrite sort_desc_length.
    change (InvestmentOptimizerAgent.amounts_tested r) with (length tested).
    unfold found. clear. induction tested as [|x l IH]; [cbn; lia|].
    cbn [omap list_omap]. destruct (InvestmentOptimizerAgent.candidate_for _ _ _ _ x);
      cbn [length]; lia. }
  pose proof (find_optimal_spec ranked) as Hspec.
  split.
  { rewrite Hopt, Hcount. destruct ranked as [|c0 rest] eqn:Er.
    - split; reflexivity.
    - cbn [Py.nonempty length].
      destruct (InvestmentOptimizerAgent._find_optimal_investment (c0 :: rest));
        [split; intros; discriminate | discriminate Hspec]. }
  intros o Ho. rewrite Hopt in Ho.
  destruct (Py.nonempty ranked); [|discriminate].
  rewrite Ho in Hspec.
  destruct Hspec as (c & Hc & Ha & _ & Hn & _ & _ & Hs & Hmax).
  destruct (Hranked c Hc) as (Hin & _ & Hpos).
  rewrite Ha, Hn, Hs. split; [exact Hin|]. split; [exact Hpos|].
  apply List.Forall_forall. intros c' Hc'. apply Hmax, Hsub, Hc'.
Qed.

(** * The optimizer at high fees *)

Lemma optimizer_spread_values (self : InvestmentOptimizerAgent.agent)
    (from_token to_token : string) :
  0.7 <= InvestmentOptimizerAgent._calculate_price_difference self
           from_token to_token <= 1.2.
Proof.
  unfold InvestmentOptimizerAgent._calculate_price_difference.
  destruct (_ && _); [split; discriminate|].
  destruct (_ && _); [split; discriminate|].
  destruct (bool_decide _); split; discriminate.
Qed.

Lemma optimizer_slippage_top (t : Q) :
  100000 <= t -> InvestmentOptimizerAgent._estimate_slippage_for_amount t = 0.75.
Proof.
  intros Ht. unfold InvestmentOptimizerAgent._estimate_slippage_for_amount.
  rewrite !(proj2 (ltb_false _ _)) by lra. reflexivity.
Qed.

Lemma optimizer_slippage_below_top (t : Q) :
  t < 100000 ->
  0.02 <= InvestmentOptimizerAgent._estimate_slippage_for_amount t <= 0.35.
Proof.
  intros Ht. unfold InvestmentOptimizerAgent._estimate_slippage_for_amount.
  destruct (Py.ltb t 1000); [split; discriminate|].
  destruct (Py.ltb t 5000); [split; discriminate|].
  destruct (Py.ltb t 25000); [split; discriminate|].
  rewrite (proj2 (ltb_true _ _) Ht). split; discriminate.
Qed.

(** With fees of at least 0.55 percent in total, a trade of 100,000 USD or
    more loses at least 100 USD. *)
Lemma optimizer_loss_at_top_tier (self : InvestmentOptimizerAgent.agent)
    (a t : Q) (from_token to_token : string) (fees : Py.dict Q) :
  0 <= apt (InvestmentOptimizerAgent.current_prices self) ->
  0.55 <= InvestmentOptimizerAgent.from_dex_fee_of fees
          + InvestmentOptimizerAgent.to_dex_fee_of fees ->
  100000 <= t ->
  InvestmentOptimizerAgent.net_profit_usd
    (InvestmentOptimizerAgent._calculate_profit_for_amount self a t
       from_token to_token fees) <= - (100).
Proof.
  intros HP Hfees Ht.
  unfold InvestmentOptimizerAgent._calculate_profit_for_amount.
  cbn [InvestmentOptimizerAgent.net_profit_usd].
  rewrite (optimizer_slippage_top t Ht).
  pose proof (optimizer_spread_values self from_token to_token) as [_ Hs].
  set (s := InvestmentOptimizerAgent._calculate_price_difference self
              from_token to_token) in *.
  set (ff := InvestmentOptimizerAgent.from_dex_fee_of fees) in *.
  set (tf := InvestmentOptimizerAgent.to_dex_fee_of fees) in *.
  set (P := apt (InvestmentOptimizerAgent.current_prices self)) in *.
  change InvestmentOptimizerAgent.gas_cost_swap with 0.001.
  assert (H : 0 <= (t - 100000) * (ff + tf + 0.75 - s - 0.1)).
  { apply Qmult_le_0_compat; lra. }
  percent.
  assert (H2 : 0 <= 100000 * (ff + tf + 0.75 - s - 0.1)) by lra.
  lra.
Qed.

Lemma bisect_upward (self : InvestmentOptimizerAgent.agent)
    (from_token to_token : string) (fees : Py.dict Q) (n : nat) (lo hi : Q) :
  0 < apt (InvestmentOptimizerAgent.current_prices self) ->
  0.55 <= InvestmentOptimizerAgent.from_dex_fee_of fees
          + InvestmentOptimizerAgent.to_dex_fee_of fees ->
  lo <= hi ->
  100000 <= (lo + hi) / 2 * apt (InvestmentOptimizerAgent.current_prices self) ->
  InvestmentOptimizerAgent.bisect self from_token to_token fees n lo hi = None.
Proof.
  intros HP Hfees. revert lo hi.
  induction n as [|n IH]; intros lo hi Hlh Hmid; [reflexivity|].
  cbn [InvestmentOptimizerAgent.bisect].
  set (P := apt (InvestmentOptimizerAgent.current_prices self)) in *.
  set (mid := (lo + hi) / 2) in *.
  pose proof (optimizer_loss_at_top_tier self mid (mid * P) from_token
                to_token fees (Qlt_le_weak _ _ HP) Hfees Hmid) as Hnet.
  set (net := InvestmentOptimizerAgent.net_profit_usd _) in *.
  assert (Habs : Py.ltb (Qabs net) 0.01 = false).
  { apply ltb_false. rewrite Qabs_neg by lra. lra. }
  assert (Hneg : Py.ltb net 0 = true) by (apply ltb_true; lra).
  rewrite Habs, Hneg.
  assert (Hm : mid <= hi).
  { unfold mid. apply Qle_shift_div_r; [reflexivity | lra]. }
  apply IH; [exact Hm|].
  assert (Hmm : mid <= (mid + hi) / 2).
  { apply Qle_shift_div_l; [reflexivity | lra]. }
  assert (0 <= ((mid + hi) / 2 - mid) * P).
  { apply Qmult_le_0_compat; lra. }
  lra.
Qed.

Lemma bisect_trace_upward (self : InvestmentOptimizerAgent.agent)
    (from_token to_token : string) (fees : Py.dict Q) (n : nat) (lo hi : Q) :
  0 < apt (InvestmentOptimizerAgent.current_prices self) ->
  0.55 <= InvestmentOptimizerAgent.from_dex_fee_of fees
          + InvestmentOptimizerAgent.to_dex_fee_of fees ->
  lo <= hi ->
  100000 <= (lo + hi) / 2 * apt (InvestmentOptimizerAgent.current_prices self) ->
  length (InvestmentOptimizerAgent.bisect_trace self from_token to_token fees
            n lo hi) = n
  /\ Forall (fun step : Q * Q * Q =>
               (lo + hi) / 2 <= step.2
               /\ InvestmentOptimizerAgent.net_at self from_token to_token
                    fees step.2 <= - (100))
       (InvestmentOptimizerAgent.bisect_trace self from_token to_token fees
          n lo hi).
Proof.
  intros HP Hfees. revert lo hi.
  induction n as [|n IH]; intros lo hi Hlh Hmid;
    [split; [reflexivity | constructor]|].
  cbn [InvestmentOptimizerAgent.bisect_trace].
  set (P := apt (InvestmentOptimizerAgent.current_prices self)) in *.
  set (mid := (lo + hi) / 2) in *.
  assert (Hnet : InvestmentOptimizerAgent.net_at self from_token to_token
                   fees mid <= - (100)).
  { unfold InvestmentOptimizerAgent.net_at.
    apply optimizer_loss_at_top_tier;
      [apply Qlt_le_weak, HP | exact Hfees | exact Hmid]. }
  set (net := InvestmentOptimizerAgent.net_at self from_token to_token fees
                mid) in *.
  assert (Habs : Py.ltb (Qabs net) 0.01 = false).
  { apply ltb_false. rewrite Qabs_neg by lra. lra. }
  assert (Hneg : Py.ltb net 0 = true) by (apply ltb_true; lra).
  rewrite Habs, Hneg.
  assert (Hm : mid <= hi).
  { unfold mid. apply Qle_shift_div_r; [reflexivity | lra]. }
  assert (Hmm : mid <= (mid + hi) / 2).
  { apply Qle_shift_div_l; [reflexivity | lra]. }
  assert (Hnext : 100000 <= (mid + hi) / 2 * P).
  { assert (0 <= ((mid + hi) / 2 - mid) * P).
    { apply Qmult_le_0_compat; lra. }
    lra. }
  destruct (IH mid hi Hm Hnext) as [Hlen Hall].
  split; [cbn [length]; rewrite Hlen; reflexivity|].
  constructor; [cbn [snd]; split; [apply Qle_refl | exact Hnet]|].
  eapply Forall_impl; [exact Hall|].
  intros step [Hstep Hloss]. cbn beta in *. split; [lra | exact Hloss].
Qed.

(** X21. When the two fee percentages add up to 0.55 or more (as the
    built-in defaults do) and the APT price is at least 2 USD, the
    break-even search finds nothing, for every token pair: its first probe
    of 50,000.5 APT is worth more than 100,000 USD and loses money, so the
    search moves to larger amounts only.  It makes all 20 probes, each at
    50,000.5 APT or more and each losing at least 100 USD. *)
Theorem breakeven_not_found_at_default_fees
    (self : InvestmentOptimizerAgent.agent)
    (input : InvestmentOptimizerAgent.input_data) :
  let fees := default [] (InvestmentOptimizerAgent.in_dex_fees input) in
  2 <= apt (InvestmentOptimizerAgent.current_prices self) ->
  0.55 <= InvestmentOptimizerAgent.from_dex_fee_of fees
          + InvestmentOptimizerAgent.to_dex_fee_of fees ->
  exists r,
    InvestmentOptimizerAgent._find_breakeven_amount self input = Success r
    /\ InvestmentOptimizerAgent.found r = false
    /\ InvestmentOptimizerAgent.breakeven_apt_amount r = None
    /\ InvestmentOptimizerAgent.breakeven_usd_amount r = None
    /\ let probes :=
         InvestmentOptimizerAgent.bisect_trace self
           (default "usdc"%string
              (InvestmentOptimizerAgent.in_from_token input))
           (default "usdt"%string
              (InvestmentOptimizerAgent.in_to_token input))
           fees 20 1 100000 in
       length probes = 20%nat
       /\ Forall (fun step : Q * Q * Q =>
                    50000.5 <= step.2
                    /\ InvestmentOptimizerAgent.net_at self
                         (default "usdc"%string
                            (InvestmentOptimizerAgent.in_from_token input))
                         (default "usdt"%string
                            (InvestmentOptimizerAgent.in_to_token input))
                         fees step.2 <= - (100))
            probes.
Proof.
  intros fees HP Hfees.
  assert (Hfirst : 100000
                   <= (1 + 100000) / 2
                      * apt (InvestmentOptimizerAgent.current_prices self)).
  { assert (0 <= (1 + 100000) / 2
                 * (apt (InvestmentOptimizerAgent.current_prices self) - 2)).
    { apply Qmult_le_0_compat; [discriminate | lra]. }
    assert ((1 + 100000) / 2 * 2 == 100001) by reflexivity.
    lra. }
  assert (Hpos : 0 < apt (InvestmentOptimizerAgent.current_prices self))
    by lra.
  assert (Hnone : InvestmentOptimizerAgent.bisect self
                    (default "usdc"%string
                       (InvestmentOptimizerAgent.in_from_token input))
                    (default "usdt"%string
                       (InvestmentOptimizerAgent.in_to_token input))
                    fees 20 1 100000 = None).
  { apply bisect_upward;
      [exact Hpos | exact Hfees | discriminate | exact Hfirst]. }
  eexists. split; [reflexivity|].
  cbn [InvestmentOptimizerAgent.found
       InvestmentOptimizerAgent.breakeven_apt_amount
       InvestmentOptimizerAgent.breakeven_usd_amount].
  fold fees. rewrite Hnone.
  split; [reflexivity|]. split; [reflexivity|]. split; [reflexivity|].
  cbv zeta.
  destruct (bisect_trace_upward self
              (default "usdc"%string
                 (InvestmentOptimizerAgent.in_from_token input))
              (default "usdt"%string
                 (InvestmentOptimizerAgent.in_to_token input))
              fees 20 1 100000 Hpos Hfees ltac:(discriminate) Hfirst)
    as [Hlen Hall].
  split; [exact Hlen|].
  eapply Forall_impl; [exact Hall|].
  intros step [Hstep Hloss]. cbn beta in *. split; [|exact Hloss].
  assert ((1 + 100000) / 2 == 50000.5) by reflexivity. lra.
Qed.

(** The new agent, asked without any field. *)
Lemma breakeven_not_found_at_default_fees_witness :
  exists r,
    InvestmentOptimizerAgent._find_breakeven_amount
      InvestmentOptimizerAgent.init
      (InvestmentOptimizerAgent.mkInput None None None) = Success r
    /\ InvestmentOptimizerAgent.found r = false.
Proof.
  destruct (breakeven_not_found_at_default_fees InvestmentOptimizerAgent.init
              (InvestmentOptimizerAgent.mkInput None None None)
              ltac:(discriminate) ltac:(discriminate))
    as (r & Hr & Hfound & _).
  exists r. split; assumption.
Defined.

(** * The optimizer at its defaults *)

Lemma gas_share_bounds (a : Q) : 1 <= a -> 0 < 0.2 / a /\ 0.2 / a <= 0.2.
Proof.
  intros Ha. split.
  - apply Qlt_shift_div_l; lra.
  - apply Qle_shift_div_r; lra.
Qed.

Lemma default_fee_percentages (fees : Py.dict Q) :
  Py.get_opt fees "from_dex" = None ->
  Py.get_opt fees "to_dex" = None ->
  InvestmentOptimizerAgent.from_dex_fee_of fees = 0.25
  /\ InvestmentOptimizerAgent.to_dex_fee_of fees = 0.30.
Proof.
  intros Hf Ht.
  unfold InvestmentOptimizerAgent.from_dex_fee_of,
    InvestmentOptimizerAgent.to_dex_fee_of, Py.get.
  rewrite Hf, Ht. split; reflexivity.
Qed.

Lemma default_margin_bounds (self : InvestmentOptimizerAgent.agent)
    (fees : Py.dict Q) (a : Q) :
  let P := apt (InvestmentOptimizerAgent.current_prices self) in
  let m := optimizer_margin self "usdc" "usdt" fees a in
  Py.get_opt fees "from_dex" = None ->
  Py.get_opt fees "to_dex" = None ->
  1 <= a ->
  (a * P < 100000 -> 0.1 <= m /\ m < 0.63)
  /\ (100000 <= a * P -> m < 0).
Proof.
  intros P m Hf Ht Ha.
  destruct (default_fee_percentages fees Hf Ht) as [Hff Htf].
  destruct (gas_share_bounds a Ha) as [Hg0 Hg1].
  unfold m, optimizer_margin. rewrite Hff, Htf. fold P.
  change (InvestmentOptimizerAgent._calculate_price_difference self
            "usdc" "usdt") with 1.2.
  split; intros Ht'.
  - destruct (optimizer_slippage_below_top (a * P) Ht') as [Hs0 Hs1].
    split; lra.
  - rewrite (optimizer_slippage_top (a * P) Ht'). lra.
Qed.

Lemma length_omap_filter {A B : Type} (f : A -> option B) (p : A -> bool)
    (l : list A) :
  (forall x, In x l -> (is_Some (f x) <-> p x = true)) ->
  length (omap f l) = length (List.filter p l).
Proof.
  induction l as [|x l IH]; intros H; [reflexivity|].
  cbn [omap list_omap List.filter].
  assert (IH' : length (omap f l) = length (List.filter p l)).
  { apply IH. intros y Hy. apply H. right. exact Hy. }
  pose proof (H x (or_introl eq_refl)) as Hx.
  destruct (f x) as [b|] eqn:Ef, (p x) eqn:Ep; cbn [length].
  - cbn [omap] in IH'. rewrite IH'. reflexivity.
  - destruct Hx as [Hx _]. specialize (Hx (mk_is_Some _ _ eq_refl)).
    discriminate.
  - destruct Hx as [_ Hx]. destruct (Hx eq_refl) as [? Hn]. discriminate.
  - exact IH'.
Qed.

(** X22. For the default pair usdc -> usdt, with no ["from_dex"] and
    ["to_dex"] fee entries and a positive APT price, the amounts that the
    optimizer finds profitable are exactly the tested amounts worth less
    than 100,000 USD.  Every listed option then has a margin of at least
    0.1 and below 0.63 percent, so none is of LOW risk. *)
Theorem default_request_profitable_amounts
    (self : InvestmentOptimizerAgent.agent)
    (req : InvestmentOptimizerAgent.request) :
  let P := apt (InvestmentOptimizerAgent.current_prices self) in
  let fees :=
    default [] (InvestmentOptimizerAgent.in_dex_fees
                  (InvestmentOptimizerAgent.rq_fields req)) in
  let cap := default 50000 (InvestmentOptimizerAgent.rq_max_investment_apt req) in
  let tested := InvestmentOptimizerAgent.test_amounts cap in
  let r := InvestmentOptimizerAgent._optimize_investment_amount self req in
  0 < P ->
  default "usdc"%string
    (InvestmentOptimizerAgent.in_from_token
       (InvestmentOptimizerAgent.rq_fields req)) = "usdc"%string ->
  default "usdt"%string
    (InvestmentOptimizerAgent.in_to_token
       (InvestmentOptimizerAgent.rq_fields req)) = "usdt"%string ->
  Py.get_opt fees "from_dex" = None ->
  Py.get_opt fees "to_dex" = None ->
  InvestmentOptimizerAgent.profitable_amounts r
  = length (List.filter (fun amt => Py.ltb (inject_Z amt * P) 100000) tested)
  /\ Forall (fun c =>
               InvestmentOptimizerAgent.usd_investment c < 100000
               /\ 0.1 <= InvestmentOptimizerAgent.cand_profit_margin_percent c
               /\ InvestmentOptimizerAgent.cand_profit_margin_percent c < 0.63
               /\ InvestmentOptimizerAgent.cand_risk_level c <> LOW)
       (InvestmentOptimizerAgent.all_profitable_options r).
Proof.
  intros P fees cap tested r HP Hfrom Hto Hf Ht.
  set (found := omap (InvestmentOptimizerAgent.candidate_for self "usdc"
                        "usdt" fees) tested).
  set (ranked := Py.sort_desc
                   InvestmentOptimizerAgent.cand_profit_margin_percent found).
  assert (Hoptions : InvestmentOptimizerAgent.all_profitable_options r
                     = take 10 ranked).
  { unfold r, InvestmentOptimizerAgent._optimize_investment_amount.
    cbn [InvestmentOptimizerAgent.all_profitable_options].
    rewrite Hfrom, Hto. reflexivity. }
  assert (Hcount : InvestmentOptimizerAgent.profitable_amounts r
                   = length ranked).
  { unfold r, InvestmentOptimizerAgent._optimize_investment_amount.
    cbn [InvestmentOptimizerAgent.profitable_amounts].
    rewrite Hfrom, Hto. reflexivity. }
  assert (Hamt : forall amt, In amt tested -> 1 <= inject_Z amt).
  { intros amt Hin. unfold tested in Hin. rewrite test_amounts_filter in Hin.
    apply List.filter_In in Hin as [Hl _]. apply ladder_bounds in Hl.
    change 1 with (inject_Z 1). rewrite <- Zle_Qle. lia. }
  assert (Hcand : forall amt c, In amt tested ->
            InvestmentOptimizerAgent.candidate_for self "usdc" "usdt" fees amt
            = Some c ->
            InvestmentOptimizerAgent.usd_investment c < 100000
            /\ 0.1 <= InvestmentOptimizerAgent.cand_profit_margin_percent c
            /\ InvestmentOptimizerAgent.cand_profit_margin_percent c < 0.63
            /\ InvestmentOptimizerAgent.cand_risk_level c <> LOW).
  { intros amt c Hin Hc.
    destruct (candidate_for_spec _ _ _ _ _ _ Hc)
      as (_ & Hu & _ & Hm & Hr & Hp).
    fold P in Hu, Hm, Hr, Hp.
    pose proof (Hamt amt Hin) as Ha.
    destruct (optimizer_profit_closed_form self (inject_Z amt) "usdc" "usdt"
                fees ltac:(lra) HP) as (Hmargin & _ & Hprof).
    fold P in Hmargin, Hprof.
    destruct (default_margin_bounds self fees (inject_Z amt) Hf Ht Ha)
      as [Hlow Hhigh].
    fold P in Hlow, Hhigh.
    apply Hprof in Hp.
    assert (Hlt : inject_Z amt * P < 100000).
    { destruct (Qlt_le_dec (inject_Z amt * P) 100000) as [H|H]; [exact H|].
      specialize (Hhigh H). lra. }
    destruct (Hlow Hlt) as [Hm0 Hm1].
    rewrite Hu, Hm, Hr. split; [exact Hlt|].
    rewrite Hmargin. split; [exact Hm0|]. split; [exact Hm1|].
    change (InvestmentOptimizerAgent.risk_level
              (InvestmentOptimizerAgent._calculate_profit_for_amount self
                 (inject_Z amt) (inject_Z amt * P) "usdc" "usdt" fees))
      with (InvestmentOptimizerAgent._assess_risk_level
              (InvestmentOptimizerAgent.profit_margin_percent
                 (InvestmentOptimizerAgent._calculate_profit_for_amount self
                    (inject_Z amt) (inject_Z amt * P) "usdc" "usdt" fees))
              (inject_Z amt * P)).
    unfold InvestmentOptimizerAgent._assess_risk_level.
    rewrite (proj2 (gtb_false _ 1.0)) by (rewrite Hmargin; lra).
    cbn [andb].
    destruct (_ && _); [discriminate|]. destruct (Py.gtb _ 0.2); discriminate. }
  split.
  - rewrite Hcount. unfold ranked. rewrite sort_desc_length. unfold found.
    apply length_omap_filter. intros amt Hin.
    pose proof (Hamt amt Hin) as Ha.
    destruct (optimizer_profit_closed_form self (inject_Z amt) "usdc" "usdt"
                fees ltac:(lra) HP) as (_ & _ & Hprof).
    fold P in Hprof.
    destruct (default_margin_bounds self fees (inject_Z amt) Hf Ht Ha)
      as [Hlow Hhigh].
    fold P in Hlow, Hhigh.
    rewrite ltb_true. split.
    + intros [c Hc]. destruct (Hcand amt c Hin Hc) as [Hu _].
      destruct (candidate_for_spec _ _ _ _ _ _ Hc) as (_ & Hu' & _).
      fold P in Hu'. rewrite Hu' in Hu. exact Hu.
    + intros Hlt. unfold InvestmentOptimizerAgent.candidate_for. fold P.
      rewrite (proj2 Hprof) by (destruct (Hlow Hlt); lra).
      eexists. reflexivity.
  - apply List.Forall_forall. intros c Hc. rewrite Hoptions in Hc.
    apply list_elem_of_In, elem_of_take in Hc as (i & Hi & _).
    apply list_elem_of_lookup_2, list_elem_of_In in Hi.
    apply (Permutation_in _ (sort_desc_perm _ found)) in Hi.
    apply In_omap in Hi as (amt & Hamt' & Hc).
    exact (Hcand amt c Hamt' Hc).
Qed.

(** The new agent, asked without any field: at 12.45 USD per APT the
    amounts up to 7,500 APT are worth less than 100,000 USD, which are 15
    of the 20 tested. *)
Lemma default_request_profitable_amounts_witness :
  InvestmentOptimizerAgent.profitable_amounts
    (InvestmentOptimizerAgent._optimize_investment_amount
       InvestmentOptimizerAgent.init
       (InvestmentOptimizerAgent.mkRequest None None None
          (InvestmentOptimizerAgent.mkInput None None None) None None))
  = 15%nat.
Proof.
  destruct (default_request_profitable_amounts InvestmentOptimizerAgent.init
              (InvestmentOptimizerAgent.mkRequest None None None
                 (InvestmentOptimizerAgent.mkInput None None None) None None)
              ltac:(reflexivity) eq_refl eq_refl eq_refl eq_refl)
    as [Hcount _].
  rewrite Hcount. vm_compute. reflexivity.
Defined.

(** * The optimizer's recommendations *)

Lemma max_by_in {A : Type} (key : A -> Q) (x : A) (l : list A) :
  In (Py.max_by key x l) (x :: l).
Proof.
  revert x. induction l as [|y l IH]; intros x; [left; reflexivity|].
  cbn [Py.max_by]. destruct (Py.ltb (key x) (key y)).
  - right. apply IH.
  - destruct (IH x) as [H|H]; [left; exact H | right; right; exact H].
Qed.

Lemma max_by_ge_first {A : Type} (key : A -> Q) (x : A) (l : list A) :
  key x <= key (Py.max_by key x l).
Proof.
  revert x. induction l as [|y l IH]; intros x; [apply Qle_refl|].
  cbn [Py.max_by]. case_ltb (key x) (key y).
  - pose proof (IH y). lra.
  - apply IH.
Qed.

Lemma max_by_ge {A : Type} (key : A -> Q) (x : A) (l : list A) (z : A) :
  In z (x :: l) -> key z <= key (Py.max_by key x l).
Proof.
  revert x. induction l as [|y l IH]; intros x Hz.
  { destruct Hz as [->|[]]. apply Qle_refl. }
  cbn [Py.max_by]. case_ltb (key x) (key y).
  - destruct Hz as [->|Hz]; [|apply IH, Hz].
    pose proof (max_by_ge_first key y l). lra.
  - destruct Hz as [->|[->|Hz]].
    + apply max_by_ge_first.
    + pose proof (max_by_ge_first key x l). lra.
    + apply IH. right. exact Hz.
Qed.

Lemma recommendation_lines
    (first : InvestmentOptimizerAgent.Candidate)
    (rest : list InvestmentOptimizerAgent.Candidate)
    (line : InvestmentOptimizerAgent.Line) :
  let results := first :: rest in
  let margin := InvestmentOptimizerAgent.cand_profit_margin_percent in
  let small_investments :=
    List.filter
      (fun r => (InvestmentOptimizerAgent.apt_investment r <? 100)%Z)
      results in
  let large_investments :=
    List.filter
      (fun r => (1000 <? InvestmentOptimizerAgent.apt_investment r)%Z)
      results in
  In line
    (InvestmentOptimizerAgent._generate_investment_recommendations results) ->
  line = InvestmentOptimizerAgent.FoundAmounts (length results)
  \/ line = InvestmentOptimizerAgent.AverageMargin
              (Py.sum (map margin results)
               / inject_Z (Z.of_nat (length results)))
  \/ line = InvestmentOptimizerAgent.BestMargin
              (Py.max_of (margin first) (map margin rest))
  \/ (line = InvestmentOptimizerAgent.LowRiskAvailable
               (length (List.filter InvestmentOptimizerAgent.is_low results))
      /\ (0 < length (List.filter InvestmentOptimizerAgent.is_low results))%nat)
  \/ (exists s ss,
        small_investments = s :: ss
        /\ line = InvestmentOptimizerAgent.BestSmall
                    (InvestmentOptimizerAgent.apt_investment
                       (Py.max_by margin s ss))
                    (margin (Py.max_by margin s ss)))
  \/ (exists l ls,
        large_investments = l :: ls
        /\ line = InvestmentOptimizerAgent.BestLarge
                    (InvestmentOptimizerAgent.apt_investment
                       (Py.max_by margin l ls))
                    (margin (Py.max_by margin l ls))).
Proof.
  intros results margin small_investments large_investments.
  unfold InvestmentOptimizerAgent._generate_investment_recommendations.
  cbv zeta. fold results. fold margin.
  fold small_investments. fold large_investments.
  intros Hin. cbn [app In] in Hin.
  destruct Hin as [<-|[<-|[<-|Hin]]]; [tauto | tauto | tauto |].
  do 3 right.
  apply in_app_or in Hin as [Hin|Hin].
  { left. destruct (Nat.ltb 0 _) eqn:El; [|destruct Hin].
    destruct Hin as [<-|[]]. apply Nat.ltb_lt in El. split; [reflexivity|exact El]. }
  right.
  apply in_app_or in Hin as [Hin|Hin].
  - left. destruct small_investments as [|s ss]; [destruct Hin|].
    destruct Hin as [<-|[]]. exists s, ss. split; reflexivity.
  - right. destruct large_investments as [|l ls]; [destruct Hin|].
    destruct Hin as [<-|[]]. exists l, ls. split; reflexivity.
Qed.

(** X23. The recommendation lines describe the result list they are built
    from.  For an empty list they are the two lines advising to wait.
    Otherwise the count line gives the length of the list; the best margin
    is the margin of some entry and at least every entry's margin, and the
    average is at most the best; a low-risk line appears only with a
    positive count, the number of LOW entries; the best small investment
    is an entry below 100 APT whose margin is at least that of every entry
    below 100 APT, and the best large investment is an entry above 1,000
    APT whose margin is at least that of every entry above 1,000 APT. *)
Theorem recommendations_describe_results
    (results : list InvestmentOptimizerAgent.Candidate) :
  let lines :=
    InvestmentOptimizerAgent._generate_investment_recommendations results in
  let margin := InvestmentOptimizerAgent.cand_profit_margin_percent in
  let amount := InvestmentOptimizerAgent.apt_investment in
  (results = []
   <-> lines = [InvestmentOptimizerAgent.NoProfitableOpportunities;
                InvestmentOptimizerAgent.ConsiderWaiting])
  /\ (forall n, In (InvestmentOptimizerAgent.FoundAmounts n) lines ->
        n = length results /\ (0 < n)%nat)
  /\ (forall best, In (InvestmentOptimizerAgent.BestMargin best) lines ->
        (exists c, In c results /\ margin c = best)
        /\ Forall (fun c => margin c <= best) results
        /\ forall avg, In (InvestmentOptimizerAgent.AverageMargin avg) lines ->
             avg <= best)
  /\ (forall n, In (InvestmentOptimizerAgent.LowRiskAvailable n) lines ->
        (0 < n)%nat
        /\ n = length (List.filter InvestmentOptimizerAgent.is_low results))
  /\ (forall amt m, In (InvestmentOptimizerAgent.BestSmall amt m) lines ->
        (amt < 100)%Z
        /\ (exists c, In c results /\ amount c = amt /\ margin c = m)
        /\ forall c, In c results -> (amount c < 100)%Z -> margin c <= m)
  /\ (forall amt m, In (InvestmentOptimizerAgent.BestLarge amt m) lines ->
        (1000 < amt)%Z
        /\ (exists c, In c results /\ amount c = amt /\ margin c = m)
        /\ forall c, In c results -> (1000 < amount c)%Z -> margin c <= m).
Proof.
  intros lines margin amount.
  destruct results as [|first rest].
  { split; [split; reflexivity|].
    repeat split; intros; cbn in *; intuition discriminate. }
  pose proof (recommendation_lines first rest) as Hinv. cbv zeta in Hinv.
  fold lines in Hinv. fold margin in Hinv.
  assert (Hbest : forall c, In c (first :: rest) ->
            margin c <= Py.max_of (margin first) (map margin rest)).
  { intros c Hc. unfold Py.max_of.
    apply (max_by_ge (fun q : Q => q) (margin first) (map margin rest)
             (margin c)).
    destruct Hc as [->|Hc]; [left; reflexivity|].
    right. apply in_map, Hc. }
  split.
  { split; [discriminate|]. intros H. unfold lines in H. discriminate H. }
  split.
  { intros n Hn.
    destruct (Hinv _ Hn) as [H|[H|[H|[[H _]|[(s & ss & _ & H)|(l & ls & _ & H)]]]]];
      try discriminate H.
    injection H as ->. split; [reflexivity | cbn [length]; lia]. }
  split.
  { intros best Hb.
    destruct (Hinv _ Hb) as [H|[H|[H|[[H _]|[(s & ss & _ & H)|(l & ls & _ & H)]]]]];
      try discriminate H.
    injection H as ->. split; [|split].
    - unfold Py.max_of.
      destruct (max_by_in (fun q : Q => q) (margin first) (map margin rest))
        as [H|H].
      + exists first. split; [left; reflexivity | exact H].
      + apply in_map_iff in H as (c & Hc & Hin).
        exists c. split; [right; exact Hin | exact Hc].
    - apply List.Forall_forall. exact Hbest.
    - intros avg Ha.
      destruct (Hinv _ Ha) as [H|[H|[H|[[H _]|[(s & ss & _ & H)|(l & ls & _ & H)]]]]];
        try discriminate H.
      injection H as ->. cbn [map length].
      rewrite <- (length_map margin rest).
      change (S (length (map margin rest)))
        with (length (margin first :: map margin rest)).
      apply average_upper.
      apply List.Forall_forall. intros x Hx.
      change (margin first :: map margin rest)
        with (map margin (first :: rest)) in Hx.
      apply in_map_iff in Hx as (c & <- & Hc). apply Hbest, Hc. }
  split.
  { intros n Hn.
    destruct (Hinv _ Hn) as [H|[H|[H|[[H Hpos]|[(s & ss & _ & H)|(l & ls & _ & H)]]]]];
      try discriminate H.
    injection H as ->. split; [exact Hpos | reflexivity]. }
  split.
  - intros amt m Hs.
    destruct (Hinv _ Hs) as [H|[H|[H|[[H _]|[(s & ss & Hsm & H)|(l & ls & _ & H)]]]]];
      try discriminate H.
    injection H as -> ->.
    assert (Hmem : forall c,
              In c (s :: ss)
              <-> In c (first :: rest) /\ (amount c <? 100)%Z = true).
    { intros c. rewrite <- Hsm. apply List.filter_In. }
    pose proof (max_by_in margin s ss) as Hin. apply Hmem in Hin as [Hin Hlt].
    split; [apply Z.ltb_lt, Hlt|]. split.
    + exists (Py.max_by margin s ss). repeat split. exact Hin.
    + intros c Hc Hc'. apply max_by_ge, Hmem. split; [exact Hc|].
      apply Z.ltb_lt, Hc'.
  - intros amt m Hs.
    destruct (Hinv _ Hs) as [H|[H|[H|[[H _]|[(s & ss & _ & H)|(l & ls & Hlg & H)]]]]];
      try discriminate H.
    injection H as -> ->.
    assert (Hmem : forall c,
              In c (l :: ls)
              <-> In c (first :: rest) /\ (1000 <? amount c)%Z = true).
    { intros c. rewrite <- Hlg. apply List.filter_In. }
    pose proof (max_by_in margin l ls) as Hin. apply Hmem in Hin as [Hin Hlt].
    split; [apply Z.ltb_lt, Hlt|]. split.
    + exists (Py.max_by margin l ls). repeat split. exact Hin.
    + intros c Hc Hc'. apply max_by_ge, Hmem. split; [exact Hc|].
      apply Z.ltb_lt, Hc'.
Qed.

(** * The calculation tools *)



Lemma fee_rate_of_key (fees defaults : Py.dict Q) (dex : string) (v : Q) :
  Py.get_opt fees dex = Some v ->
  CalculationTools.FeeCalculationTool._get_fee_rate fees dex defaults = v.
Proof.
  intros Hk. unfold CalculationTools.FeeCalculationTool._get_fee_rate.
  destruct fees as [|kv fees]; [discriminate|].
  cbn [Py.nonempty negb CalculationTools.FeeCalculationTool.first_present].
  rewrite Hk. reflexivity.
Qed.


Lemma charges_fee_fields
    (self : ArbitrageDetectorAgent.agent)
    (input : ArbitrageDetectorAgent.input_data) (from_fee to_fee : Q) :
  ~ Request.amount input == 0 ->
  ArbitrageDetectorAgent.resolve_dex_fees (Request.fees input)
    (ArbitrageDetectorAgent.from_dex (Request.route input))
    (ArbitrageDetectorAgent.to_dex (Request.route input))
  = Py.Ret (from_fee, to_fee) ->
  exists r,
    ArbitrageDetectorAgent._calculate_charges self input = Success r
    /\ (let c := ArbitrageDetectorAgent.cr_charges r in
        let a := Request.amount input in
        ArbitrageDetectorAgent.from_dex_fee_percent c = from_fee
        /\ ArbitrageDetectorAgent.to_dex_fee_percent c = to_fee
        /\ ArbitrageDetectorAgent.from_fee_amount_usd c
           = Py.round (a * (from_fee / 100)) 4
        /\ ArbitrageDetectorAgent.to_fee_amount_usd c
           = Py.round (a * (to_fee / 100)) 4
        /\ ArbitrageDetectorAgent.total_trading_fees_usd c
           = Py.round (a * (from_fee / 100) + a * (to_fee / 100)) 4
        /\ ArbitrageDetectorAgent.fees_applied c
           = Py.gtb from_fee 0 || Py.gtb to_fee 0).
Proof.
  intros Hnz Hres.
  unfold ArbitrageDetectorAgent._calculate_charges,
    ArbitrageDetectorAgent.calculate_charges_body.
  unfold Request.route, Request.fees in Hres.
  cbn [ArbitrageDetectorAgent.from_dex ArbitrageDetectorAgent.to_dex] in Hres.
  rewrite Hres.
  unfold mbind, Py.M_bind, Py.div.
  change (Py.getitem ArbitrageDetectorAgent.gas_unit_costs "swap")
    with (Py.Ret 1000%Z).
  cbv iota beta.
  unfold Request.amount in Hnz.
  rewrite (proj2 (eqb_false _ _) Hnz).
  eexists. split; [reflexivity|].
  cbv zeta. repeat split; reflexivity.
Qed.

(** X25. The fee fields of the detector's breakdown coincide with the
    answer of the fee tool for the same amount, schedule and DEXs in three
    situations: the schedule is empty; the schedule names DEXs and has an
    entry for each DEX of the route; or the schedule names no DEX, has a
    ["Smart Contract"] entry and no entry under the route's DEX names. *)
Theorem fee_tool_agrees_with_detector
    (self : ArbitrageDetectorAgent.agent)
    (input : ArbitrageDetectorAgent.input_data) (fd td : string) :
  let fees := Request.fees input in
  let a := Request.amount input in
  ArbitrageDetectorAgent.in_from_dex input = Some fd ->
  ArbitrageDetectorAgent.in_to_dex input = Some td ->
  ~ a == 0 ->
  fees = []
  \/ (ArbitrageDetectorAgent.specific_dex_names fees <> []
      /\ In fd (Py.keys fees) /\ In td (Py.keys fees))
  \/ (ArbitrageDetectorAgent.specific_dex_names fees = []
      /\ In "Smart Contract"%string (Py.keys fees)
      /\ ~ In fd (Py.keys fees) /\ ~ In td (Py.keys fees)) ->
  exists r,
    ArbitrageDetectorAgent._calculate_charges self input = Success r
    /\ fee_fields_agree (ArbitrageDetectorAgent.cr_charges r)
         (CalculationTools.FeeCalculationTool._run a fees fd td).
Proof.
  intros fees a Hfd Htd Hnz Hcases.
  assert (Hroute : ArbitrageDetectorAgent.from_dex (Request.route input) = fd
                   /\ ArbitrageDetectorAgent.to_dex (Request.route input) = td).
  { unfold Request.route, ArbitrageDetectorAgent.route_from_dex,
      ArbitrageDetectorAgent.route_to_dex.
    cbn [ArbitrageDetectorAgent.from_dex ArbitrageDetectorAgent.to_dex].
    rewrite Hfd, Htd. split; reflexivity. }
  destruct Hroute as [Hrf Hrt].
  assert (Hres : ArbitrageDetectorAgent.resolve_dex_fees fees fd td
                 = Py.Ret
                     (CalculationTools.FeeCalculationTool._get_fee_rate fees fd
                        CalculationTools.FeeCalculationTool.default_fees,
                      CalculationTools.FeeCalculationTool._get_fee_rate fees td
                        CalculationTools.FeeCalculationTool.default_fees)).
  { destruct Hcases as [Hempty|[(Hspec & Hf & Ht)|(Hspec & Hsc & Hf & Ht)]].
    - rewrite Hempty. reflexivity.
    - apply get_opt_in in Hf as [ff Hf]. apply get_opt_in in Ht as [tf Ht].
      rewrite (fee_rate_of_key _ _ _ _ Hf), (fee_rate_of_key _ _ _ _ Ht).
      unfold ArbitrageDetectorAgent.resolve_dex_fees.
      destruct fees as [|kv rest] eqn:Efees; [discriminate Hf|].
      rewrite <- Efees in *. rewrite Efees at 1. cbn [Py.nonempty].
      destruct (ArbitrageDetectorAgent.specific_dex_names fees);
        [contradiction|].
      cbn [Py.nonempty]. unfold Py.get. rewrite Hf, Ht. reflexivity.
    - apply get_opt_in in Hsc as [b Hsc].
      apply get_opt_not_in in Hf. apply get_opt_not_in in Ht.
      unfold ArbitrageDetectorAgent.resolve_dex_fees.
      rewrite Hspec.
      destruct fees as [|kv rest] eqn:Efees; [discriminate Hsc|].
      rewrite <- Efees in *. rewrite Efees at 1. cbn [Py.nonempty].
      unfold Py.mem, Py.getitem. rewrite Hsc.
      unfold CalculationTools.FeeCalculationTool._get_fee_rate.
      rewrite Efees at 1. rewrite Efees at 2. cbn [Py.nonempty negb].
      cbn [CalculationTools.FeeCalculationTool.first_present].
      rewrite Hf, Ht, Hsc. reflexivity. }
  destruct (charges_fee_fields self input _ _ Hnz
              ltac:(rewrite Hrf, Hrt; exact Hres))
    as (r & Hr & H1 & H2 & H3 & H4 & H5 & H6).
  exists r. split; [exact Hr|].
  unfold fee_fields_agree, CalculationTools.FeeCalculationTool._run.
  cbn [CalculationTools.FeeCalculationTool.from_fee_percent
       CalculationTools.FeeCalculationTool.to_fee_percent
       CalculationTools.FeeCalculationTool.from_fee_amount_usd
       CalculationTools.FeeCalculationTool.to_fee_amount_usd
       CalculationTools.FeeCalculationTool.total_fees_usd
       CalculationTools.FeeCalculationTool.fees_applied].
  repeat split; assumption.
Qed.

(** 1,000 USD between pancakeswap and thalaswap, both named in the
    schedule. *)
Lemma fee_tool_agrees_with_detector_witness :
  exists r,
    ArbitrageDetectorAgent._calculate_charges ArbitrageDetectorAgent.init
      (ArbitrageDetectorAgent.mkInput None None (Some 1000)
         (Some [("pancakeswap"%string, 0.25); ("thalaswap"%string, 0.2)])
         (Some "pancakeswap"%string) (Some "thalaswap"%string))
    = Success r
    /\ fee_fields_agree (ArbitrageDetectorAgent.cr_charges r)
         (CalculationTools.FeeCalculationTool._run 1000
            [("pancakeswap"%string, 0.25); ("thalaswap"%string, 0.2)]
            "pancakeswap" "thalaswap").
Proof.
  apply (fee_tool_agrees_with_detector ArbitrageDetectorAgent.init
           (ArbitrageDetectorAgent.mkInput None None (Some 1000)
              (Some [("pancakeswap"%string, 0.25); ("thalaswap"%string, 0.2)])
              (Some "pancakeswap"%string) (Some "thalaswap"%string))
           "pancakeswap" "thalaswap" eq_refl eq_refl).
  - discriminate.
  - right. left. split; [discriminate|].
    split; [left; reflexivity | right; left; reflexivity].
Defined.

Lemma tool_risk_level_cases (m a : Q) :
  let tier := CalculationTools.ProfitabilityAnalysisTool._assess_risk m a in
  (tier = LOW <-> 2 < m /\ a < 5000)
  /\ (tier = LOW \/ tier = MEDIUM <-> 1 < m /\ a < 20000)
  /\ (tier = VERY_HIGH <-> m <= 0.5).
Proof.
  unfold CalculationTools.ProfitabilityAnalysisTool._assess_risk.
  case_gtb m 2.0; case_ltb a 5000; cbn [andb];
    case_gtb m 1.0; case_ltb a 20000; cbn [andb];
    case_gtb m 0.5;
    repeat split; intros; try discriminate; try lra;
    try (left; reflexivity); try (right; reflexivity);
    intuition (try discriminate; try lra).
Qed.

(** X26. The analysis tool advises EXECUTE exactly for a positive trade
    amount below 20,000 USD with a margin above 1 percent, and CONSIDER
    exactly for the other positive amounts with a margin above 0.5
    percent; a net profit alone is not enough.  For an amount that is not
    positive nothing is divided: the margin and the cost percentage are
    reported as zero, the risk as VERY_HIGH and the advice is SKIP.  The
    tool's risk tier is never less severe than the tier that the agents
    assign to the same margin and amount. *)
Theorem analysis_tool_advice (gross_profit total_costs trade_amount : Q) :
  let r :=
    CalculationTools.ProfitabilityAnalysisTool._run gross_profit total_costs
      trade_amount in
  let m := tool_margin gross_profit total_costs trade_amount in
  (CalculationTools.ProfitabilityAnalysisTool.recommendation r
   = CalculationTools.ProfitabilityAnalysisTool.ADVISE_EXECUTE
   <-> 0 < trade_amount /\ trade_amount < 20000 /\ 1 < m)
  /\ (CalculationTools.ProfitabilityAnalysisTool.recommendation r
      = CalculationTools.ProfitabilityAnalysisTool.ADVISE_CONSIDER
      <-> 0 < trade_amount /\ 0.5 < m /\ ~ (trade_amount < 20000 /\ 1 < m))
  /\ (trade_amount <= 0 ->
      CalculationTools.ProfitabilityAnalysisTool.recommendation r
      = CalculationTools.ProfitabilityAnalysisTool.ADVISE_SKIP
      /\ CalculationTools.ProfitabilityAnalysisTool.risk_level r = VERY_HIGH
      /\ CalculationTools.ProfitabilityAnalysisTool.profit_margin_percent r
         == 0
      /\ CalculationTools.ProfitabilityAnalysisTool.cost_percentage r = 0)
  /\ InvestmentOptimizerAgent.risk_score
       (ArbitrageDetectorAgent._assess_risk_level m trade_amount)
     <= InvestmentOptimizerAgent.risk_score
          (CalculationTools.ProfitabilityAnalysisTool.risk_level r).
Proof.
  intros r m.
  assert (Hrisk : CalculationTools.ProfitabilityAnalysisTool.risk_level r
                  = CalculationTools.ProfitabilityAnalysisTool._assess_risk m
                      trade_amount) by reflexivity.
  assert (Hrec : CalculationTools.ProfitabilityAnalysisTool.recommendation r
                 = CalculationTools.ProfitabilityAnalysisTool._get_recommendation
                     (Py.gtb (gross_profit - total_costs) 0) m
                     (CalculationTools.ProfitabilityAnalysisTool._assess_risk
                        m trade_amount)) by reflexivity.
  destruct (tool_risk_level_cases m trade_amount) as (Hlow & Hmed & Hvh).
  cbv zeta in Hlow, Hmed, Hvh.
  (* a positive margin needs a positive amount and means a net profit *)
  assert (Hpos : 0 < m ->
            0 < trade_amount /\ Py.gtb (gross_profit - total_costs) 0 = true).
  { unfold m, tool_margin. case_gtb trade_amount 0; [|intros H; lra].
    intros Hm. split; [exact E|]. apply gtb_true.
    set (net := gross_profit - total_costs) in *.
    destruct (Qlt_le_dec 0 net) as [Hn|Hn]; [exact Hn|]. exfalso.
    assert (net / trade_amount * 100 <= 0); [|lra].
    assert (net / trade_amount <= 0); [|lra].
    apply Qle_shift_div_r; [exact E | lra]. }
  assert (Hnotprof : Py.gtb (gross_profit - total_costs) 0 = false ->
            m <= 0).
  { intros Hn. destruct (Qlt_le_dec 0 m) as [Hm|Hm]; [|exact Hm].
    destruct (Hpos Hm) as [_ Hp]. rewrite Hp in Hn. discriminate. }
  split; [|split; [|split]].
  - rewrite Hrec.
    unfold CalculationTools.ProfitabilityAnalysisTool._get_recommendation.
    split.
    + destruct (Py.gtb (gross_profit - total_costs) 0); cbn [negb];
        [|discriminate].
      case_gtb m 1.0.
      * destruct (CalculationTools.ProfitabilityAnalysisTool._assess_risk m
                    trade_amount) eqn:Et; cbn [andb].
        -- intros _. destruct (proj1 Hmed (or_introl eq_refl)) as [H1 H2].
           destruct (Hpos ltac:(lra)) as [Ha _]. tauto.
        -- intros _. destruct (proj1 Hmed (or_intror eq_refl)) as [H1 H2].
           destruct (Hpos ltac:(lra)) as [Ha _]. tauto.
        -- destruct (Py.gtb m 0.5); discriminate.
        -- destruct (Py.gtb m 0.5); discriminate.
      * cbn [andb]. destruct (Py.gtb m 0.5); discriminate.
    + intros (Ha & Hlt & Hm).
      destruct (Hpos ltac:(lra)) as [_ Hp]. rewrite Hp. cbn [negb].
      rewrite (proj2 (gtb_true m 1.0)) by lra.
      destruct (proj2 Hmed (conj Hm Hlt)) as [-> | ->]; reflexivity.
  - rewrite Hrec.
    unfold CalculationTools.ProfitabilityAnalysisTool._get_recommendation.
    split.
    + destruct (Py.gtb (gross_profit - total_costs) 0) eqn:Ep; cbn [negb];
        [|discriminate].
      case_gtb m 1.0.
      * destruct (CalculationTools.ProfitabilityAnalysisTool._assess_risk m
                    trade_amount) eqn:Et; cbn [andb]; try discriminate.
        -- intros _. destruct (Hpos ltac:(lra)) as [Ha _].
           split; [exact Ha|]. split; [lra|]. intros [H1 H2].
           destruct (proj2 Hmed (conj H2 H1)) as [H|H]; discriminate H.
        -- intros _. destruct (Hpos ltac:(lra)) as [Ha _].
           split; [exact Ha|]. split; [lra|]. intros [H1 H2].
           destruct (proj2 Hmed (conj H2 H1)) as [H|H]; discriminate H.
      * cbn [andb]. case_gtb m 0.5; [|discriminate].
        intros _. destruct (Hpos ltac:(lra)) as [Ha _].
        split; [exact Ha|]. split; [lra|]. intros [_ H]. lra.
    + intros (Ha & Hm & Hnot).
      destruct (Hpos ltac:(lra)) as [_ Hp]. rewrite Hp. cbn [negb].
      rewrite (proj2 (gtb_true m 0.5)) by lra.
      case_gtb m 1.0; cbn [andb]; [|reflexivity].
      destruct (CalculationTools.ProfitabilityAnalysisTool._assess_risk m
                  trade_amount) eqn:Et; try reflexivity.
      * exfalso. apply Hnot.
        destruct (proj1 Hmed (or_introl eq_refl)). tauto.
      * exfalso. apply Hnot.
        destruct (proj1 Hmed (or_intror eq_refl)). tauto.
  - intros Ha.
    assert (Hm0 : m = 0).
    { unfold m, tool_margin. rewrite (proj2 (gtb_false _ _) Ha).
      reflexivity. }
    assert (Ht : CalculationTools.ProfitabilityAnalysisTool._assess_risk m
                   trade_amount = VERY_HIGH).
    { apply Hvh. rewrite Hm0. discriminate. }
    split.
    { rewrite Hrec, Ht, Hm0.
      unfold CalculationTools.ProfitabilityAnalysisTool._get_recommendation.
      destruct (Py.gtb (gross_profit - total_costs) 0); reflexivity. }
    split; [rewrite Hrisk; exact Ht|].
    unfold r, CalculationTools.ProfitabilityAnalysisTool._run.
    cbn [CalculationTools.ProfitabilityAnalysisTool.profit_margin_percent
         CalculationTools.ProfitabilityAnalysisTool.cost_percentage].
    rewrite (proj2 (gtb_false _ _) Ha). split; reflexivity.
  - rewrite Hrisk.
    unfold ArbitrageDetectorAgent._assess_risk_level,
      CalculationTools.ProfitabilityAnalysisTool._assess_risk.
    case_gtb m 2.0; case_ltb trade_amount 5000; cbn [andb];
      case_gtb m 1.0; case_ltb trade_amount 10000; cbn [andb];
      case_ltb trade_amount 20000; cbn [andb];
      case_gtb m 0.5; case_ltb trade_amount 50000; cbn [andb];
      try case_gtb m 0.2;
      cbn [InvestmentOptimizerAgent.risk_score]; try discriminate; try lra.
Qed.

(** * The profitability endpoint's routes *)

Lemma split_nonempty (c : ascii) (s : string) : Py.split c s <> [].
Proof.
  destruct s as [|a s]; cbn [Py.split]; [discriminate|].
  destruct (Ascii.eqb a c); [discriminate|].
  destruct (Py.split c s); discriminate.
Qed.

Lemma split_app (c : ascii) (s s' : string) :
  Py.split c (s ++ String c s') = Py.split c s ++ Py.split c s'.
Proof.
  induction s as [|a s IH].
  { change (Py.split c (String c s') = [EmptyString] ++ Py.split c s').
    cbn [Py.split]. rewrite Ascii.eqb_refl. reflexivity. }
  change (Py.split c (String a (s ++ String c s'))
          = Py.split c (String a s) ++ Py.split c s').
  cbn [Py.split].
  destruct (Ascii.eqb a c); [rewrite IH; reflexivity|].
  rewrite IH. pose proof (split_nonempty c s) as Hne.
  destruct (Py.split c s) as [|h t]; [contradiction|]. reflexivity.
Qed.

Lemma split_apt_prefix (t : string) :
  Py.split "_" ("apt_" ++ t) = "apt"%string :: Py.split "_" t.
Proof. reflexivity. Qed.

Lemma tokens_round_trip (t : string) :
  Spec.tokens ("apt_" ++ t) = Spec.tokens (t ++ "_apt").
Proof.
  unfold Spec.tokens.
  change (t ++ "_apt")%string with (t ++ String "_" "apt")%string.
  rewrite split_apt_prefix, split_app.
  change (Py.split "_" "apt") with ["apt"%string].
  rewrite list_to_set_app_L, list_to_set_cons. cbn [list_to_set].
  rewrite (right_id_L ∅ (∪)). apply (comm_L (∪)).
Qed.

Ltac string_mismatch H :=
  repeat (match type of H with
          | (?s ++ _)%string = _ => destruct s as [|? ?]
          end;
          cbv [String.append] in H; fold String.append in H;
          try discriminate H;
          injection H as ? H);
  try discriminate H.

Lemma route_pairs_not_canonical (from_token to_token : string) :
  ~ In (App.route_pairs from_token to_token)
      ArbitrageDetectorAgent.pair_combinations.
Proof.
  unfold App.route_pairs, ArbitrageDetectorAgent.pair_combinations.
  destruct (String.eqb from_token "apt");
    [|destruct (String.eqb to_token "apt")];
    intros [H|[H|[H|[H|[]]]]]; injection H as H1 H2;
    symmetry in H1; symmetry in H2;
    cbv [String.append] in H1, H2; fold String.append in H1, H2;
    try discriminate H1; try discriminate H2;
    try (subst; cbv [String.append] in *; discriminate);
    try (string_mismatch H1; fail);
    try (string_mismatch H2; fail).
Qed.

Lemma unnamed_route_is_generic
    (input : ArbitrageDetectorAgent.input_data) :
  ArbitrageDetectorAgent.in_from_dex input = None ->
  ArbitrageDetectorAgent.in_to_dex input = None ->
  ArbitrageDetectorAgent.specific_dex_names (Request.fees input) = [] ->
  ArbitrageDetectorAgent.from_dex (Request.route input) = "dex_a"%string
  /\ ArbitrageDetectorAgent.to_dex (Request.route input) = "dex_b"%string.
Proof.
  intros Hf Ht Hspec.
  unfold Request.route, ArbitrageDetectorAgent.route_from_dex,
    ArbitrageDetectorAgent.route_to_dex,
    ArbitrageDetectorAgent.extract_available_dexs.
  cbn [ArbitrageDetectorAgent.from_dex ArbitrageDetectorAgent.to_dex].
  rewrite Hf, Ht, Hspec. cbn [Py.nonempty negb andb from_option id].
  destruct (Py.nonempty (Request.fees input));
    [destruct (Py.mem (Request.fees input) "Smart Contract")|];
    split; reflexivity.
Qed.

(** At positive prices the spread of an endpoint request is the sentinel
    or lies between 0.05 and 0.6 percent; without DEX difference it is
    0.05. *)
Lemma endpoint_spread_range
    (self : ArbitrageDetectorAgent.agent) (from_token to_token : string)
    (trade_amount : Q) (dex_fees : option (Py.dict Q)) :
  let input :=
    App.isprofitable_input from_token to_token trade_amount dex_fees in
  Spec.positive_prices (ArbitrageDetectorAgent.current_prices self) ->
  request_spread self input == ArbitrageDetectorAgent.SENTINEL
  \/ (0.05 <= request_spread self input
      /\ request_spread self input <= 0.6
      /\ (Spec.dex_spread
            (ArbitrageDetectorAgent.from_dex (Request.route input))
            (ArbitrageDetectorAgent.to_dex (Request.route input)) == 0 ->
          request_spread self input == 0.05)).
Proof.
  intros input Hpos.
  set (pairs := App.route_pairs from_token to_token).
  pose proof (route_pairs_not_canonical from_token to_token) as Hnc.
  fold pairs in Hnc.
  set (fd := ArbitrageDetectorAgent.from_dex (Request.route input)).
  set (td := ArbitrageDetectorAgent.to_dex (Request.route input)).
  assert (Hspread : request_spread self input
                    = ArbitrageDetectorAgent._calculate_price_difference
                        self pairs.1 pairs.2 fd td) by reflexivity.
  rewrite Hspread.
  destruct (ArbitrageDetectorAgent.is_generic_dex fd
            && ArbitrageDetectorAgent.is_generic_dex td
            && ArbitrageDetectorAgent._is_round_trip_same_pair
                 pairs.1 pairs.2) eqn:Eg.
  { left. apply andb_true_iff in Eg as [Eg Ert].
    apply andb_true_iff in Eg as [Ef Et].
    rewrite generic_round_trip_sentinel;
      [reflexivity | apply is_generic_dex_spec, Ef
      | apply is_generic_dex_spec, Et | apply is_round_trip_spec, Ert]. }
  right.
  assert (Hnot : ~ (Spec.generic_placeholder fd
                    /\ Spec.generic_placeholder td
                    /\ Spec.tokens pairs.1 = Spec.tokens pairs.2)).
  { intros (Hf & Ht & Hr).
    apply is_generic_dex_spec in Hf, Ht. apply is_round_trip_spec in Hr.
    rewrite Hf, Ht, Hr in Eg. discriminate. }
  pose proof (spread_by_branch self pairs.1 pairs.2 fd td Hpos Hnot) as Hb.
  cbv zeta in Hb.
  assert (Hno : forall x y,
            In (x, y) ArbitrageDetectorAgent.pair_combinations ->
            String.eqb pairs.1 x && String.eqb pairs.2 y = false).
  { intros x y Hin.
    destruct (String.eqb pairs.1 x) eqn:E1; [|reflexivity].
    destruct (String.eqb pairs.2 y) eqn:E2; [|reflexivity].
    apply String.eqb_eq in E1, E2. exfalso. apply Hnc.
    rewrite (surjective_pairing pairs), E1, E2. exact Hin. }
  rewrite !Hno in Hb
    by (unfold ArbitrageDetectorAgent.pair_combinations; cbn [In]; tauto).
  pose proof (dex_spread_bounds fd td) as [Hd0 Hd1].
  destruct (Qeq_bool (Spec.dex_spread fd td) 0) eqn:Ez.
  - rewrite Hb. split; [lra|]. split; [lra|]. intros _. reflexivity.
  - rewrite Hb. split; [lra|]. split; [lra|]. intros Hz.
    apply Qeq_bool_neq in Ez. contradiction.
Qed.

(** X27. The pairs that the profitability endpoint builds from two tokens
    are never one of the four canonical pair directions, whatever the
    tokens, so the evaluator never prices its requests by a canonical
    formula: at positive prices their spread is the sentinel or lies
    between 0.05 and 0.6 percent.  When either token is APT the two pairs
    involve the same token set, and unless the fee schedule names a DEX
    the evaluator answers a non-zero amount with the impossible-arbitrage
    error. *)
Theorem endpoint_routes_never_canonical
    (self : ArbitrageDetectorAgent.agent) (from_token to_token : string)
    (trade_amount : Q) (dex_fees : option (Py.dict Q)) :
  let input :=
    App.isprofitable_input from_token to_token trade_amount dex_fees in
  let pairs := App.route_pairs from_token to_token in
  ~ In pairs ArbitrageDetectorAgent.pair_combinations
  /\ (Spec.positive_prices (ArbitrageDetectorAgent.current_prices self) ->
      request_spread self input == ArbitrageDetectorAgent.SENTINEL
      \/ (0.05 <= request_spread self input
          /\ request_spread self input <= 0.6))
  /\ (from_token = "apt"%string \/ to_token = "apt"%string ->
      Spec.tokens pairs.1 = Spec.tokens pairs.2)
  /\ (from_token = "apt"%string \/ to_token = "apt"%string ->
      ArbitrageDetectorAgent.specific_dex_names (default [] dex_fees) = [] ->
      ~ trade_amount == 0 ->
      ArbitrageDetectorAgent._check_profitability self input
      = StatusError
          (ArbitrageDetectorAgent.ImpossibleArbitrage
             (ArbitrageDetectorAgent.current_prices self)
             (Request.route input))).
Proof.
  intros input pairs.
  pose proof (route_pairs_not_canonical from_token to_token) as Hnc.
  fold pairs in Hnc.
  assert (Hround : from_token = "apt"%string \/ to_token = "apt"%string ->
            Spec.tokens pairs.1 = Spec.tokens pairs.2).
  { unfold pairs, App.route_pairs. intros Hapt.
    destruct (String.eqb from_token "apt") eqn:Ef; cbn [fst snd].
    - apply tokens_round_trip.
    - destruct Hapt as [Hf | Ht].
      { rewrite Hf, String.eqb_refl in Ef. discriminate Ef. }
      rewrite Ht, String.eqb_refl. cbn [fst snd]. symmetry.
      apply tokens_round_trip. }
  split; [exact Hnc|]. split; [|split; [exact Hround|]].
  - intros Hpos.
    destruct (endpoint_spread_range self from_token to_token trade_amount
                dex_fees Hpos) as [Hs | (Hlo & Hhi & _)];
      [left; exact Hs | right; split; assumption].
  - intros Hapt Hspec Hnz.
    apply check_profitability_sentinel; [exact Hnz|].
    destruct (unnamed_route_is_generic input eq_refl eq_refl Hspec)
      as [Hfd Htd].
    rewrite Hfd, Htd.
    apply generic_round_trip_sentinel;
      [left; reflexivity | right; reflexivity | exact (Hround Hapt)].
Qed.

(** * The optimizer's dispatch *)





(** * The price tool *)

Lemma min_cases (a b : Q) :
  (a <= b -> Py.min a b = a) /\ (b < a -> Py.min a b = b).
Proof.
  unfold Py.min. split; intros H.
  - rewrite (proj2 (ltb_false _ _) H). reflexivity.
  - rewrite (proj2 (ltb_true _ _) H). reflexivity.
Qed.

(** X29. The price tool fails only by dividing by zero, which happens
    exactly on a route that is neither APT -> stablecoin nor stablecoin ->
    APT when the price of the source token is zero; a token without a
    price counts as 1.0.  On an APT -> stablecoin route the difference is
    [1.2 + min(price_of_apt / 10, 0.5)], so at most 1.7 percent, and
    exactly 1.7 from an APT price of 5; on a stablecoin -> APT route it is
    [1.1 + min(price_of_apt / 15, 0.3)], so at most 1.4 percent, and
    exactly 1.4 from an APT price of 4.5.  Neither depends on the
    stablecoin's price.  The answer reports both rounded to four
    places, and the gross profit is the rounded share of the amount. *)
Theorem price_tool_outcomes (token_prices : Py.dict Q)
    (from_token to_token : string) (trade_amount : Q) :
  let from_price := Py.get token_prices (Py.lower from_token) 1.0 in
  let to_price := Py.get token_prices (Py.lower to_token) 1.0 in
  let answer :=
    CalculationTools.PriceCalculationTool._run token_prices from_token
      to_token trade_amount in
  (answer = StatusError Py.ZeroDivisionError
   <-> apt_to_stable from_token to_token = false
       /\ stable_to_apt from_token to_token = false
       /\ from_price == 0)
  /\ (forall e, answer = StatusError e -> e = Py.ZeroDivisionError)
  /\ (apt_to_stable from_token to_token = true ->
      exists diff r,
        answer = Success r
        /\ diff = 1.2 + Py.min (from_price / 10) 0.5
        /\ diff <= 1.7
        /\ (5 <= from_price -> diff == 1.7)
        /\ CalculationTools.PriceCalculationTool.price_difference_percent r
           = Py.round diff 4
        /\ CalculationTools.PriceCalculationTool.gross_profit_usd r
           = Py.round (trade_amount * (diff / 100)) 4)
  /\ (apt_to_stable from_token to_token = false ->
      stable_to_apt from_token to_token = true ->
      exists diff r,
        answer = Success r
        /\ diff = 1.1 + Py.min (to_price / 15) 0.3
        /\ diff <= 1.4
        /\ (4.5 <= to_price -> diff == 1.4)
        /\ CalculationTools.PriceCalculationTool.price_difference_percent r
           = Py.round diff 4
        /\ CalculationTools.PriceCalculationTool.gross_profit_usd r
           = Py.round (trade_amount * (diff / 100)) 4)
  /\ (apt_to_stable from_token to_token = false ->
      stable_to_apt from_token to_token = false ->
      ~ from_price == 0 ->
      exists r,
        answer = Success r
        /\ CalculationTools.PriceCalculationTool.price_difference_percent r
           = Py.round (Qabs (from_price - to_price) / from_price * 100) 4).
Proof.
  intros from_price to_price answer.
  unfold answer, CalculationTools.PriceCalculationTool._run,
    CalculationTools.PriceCalculationTool.run_body.
  fold from_price. fold to_price.
  fold (apt_to_stable from_token to_token).
  fold (stable_to_apt from_token to_token).
  assert (Hmin5 : Py.min (from_price / 10) 0.5 <= 0.5
                  /\ (5 <= from_price -> Py.min (from_price / 10) 0.5 == 0.5)).
  { destruct (min_cases (from_price / 10) 0.5) as [H1 H2].
    destruct (Qlt_le_dec 0.5 (from_price / 10)) as [H|H].
    - rewrite (H2 H). split; [discriminate | reflexivity].
    - rewrite (H1 H). split; [exact H|]. intros H5.
      revert H. unfold Qdiv. change (/ 10) with (1 # 10). intros H. lra. }
  assert (Hmin3 : Py.min (to_price / 15) 0.3 <= 0.3
                  /\ (4.5 <= to_price -> Py.min (to_price / 15) 0.3 == 0.3)).
  { destruct (min_cases (to_price / 15) 0.3) as [H1 H2].
    destruct (Qlt_le_dec 0.3 (to_price / 15)) as [H|H].
    - rewrite (H2 H). split; [discriminate | reflexivity].
    - rewrite (H1 H). split; [exact H|]. intros H5.
      revert H. unfold Qdiv. change (/ 15) with (1 # 15). intros H. lra. }
  destruct (apt_to_stable from_token to_token) eqn:Ea;
    [|destruct (stable_to_apt from_token to_token) eqn:Es].
  - cbn [mbind Py.M_bind mret Py.M_ret].
    split; [split; [discriminate | intros (H & _); discriminate H]|].
    split; [intros e H; discriminate H|].
    split.
    { intros _. eexists _, _. split; [reflexivity|].
      unfold CalculationTools.PriceCalculationTool._calculate_apt_to_stable_diff.
      cbv zeta. split; [reflexivity|]. destruct Hmin5 as [H1 H2].
      split; [lra|]. split; [intros H; rewrite (H2 H); reflexivity|].
      split; reflexivity. }
    split; [discriminate|]. discriminate.
  - cbn [mbind Py.M_bind mret Py.M_ret].
    split; [split; [discriminate | intros (_ & H & _); discriminate H]|].
    split; [intros e H; discriminate H|].
    split; [discriminate|].
    split.
    { intros _ _. eexists _, _. split; [reflexivity|].
      unfold CalculationTools.PriceCalculationTool._calculate_stable_to_apt_diff.
      cbv zeta. split; [reflexivity|]. destruct Hmin3 as [H1 H2].
      split; [lra|]. split; [intros H; rewrite (H2 H); reflexivity|].
      split; reflexivity. }
    discriminate.
  - unfold Py.div. destruct (Py.eqb from_price 0) eqn:Ez.
    + cbn [mbind Py.M_bind mret Py.M_ret].
      apply eqb_true in Ez.
      split; [split; [intros _; repeat split; exact Ez | reflexivity]|].
      split; [intros e [= <-]; reflexivity|].
      split; [discriminate|]. split; [discriminate|].
      intros _ _ Hnz. contradiction.
    + cbn [mbind Py.M_bind mret Py.M_ret].
      apply eqb_false in Ez.
      split; [split; [discriminate | intros (_ & _ & H); contradiction]|].
      split; [intros e H; discriminate H|].
      split; [discriminate|]. split; [discriminate|].
      intros _ _ _. eexists. split; reflexivity.
Qed.

(** * The verdicts of the profitability endpoint *)

Lemma total_fees_nonneg
    (self : ArbitrageDetectorAgent.agent)
    (input : ArbitrageDetectorAgent.input_data)
    (cr : ArbitrageDetectorAgent.ChargesResult) :
  0 < Request.amount input ->
  Forall (fun fee => 0 <= fee) (Py.values (Request.fees input)) ->
  0 <= apt (ArbitrageDetectorAgent.current_prices self) ->
  (0 <= ArbitrageDetectorAgent._cached_gas_price self)%Z ->
  ArbitrageDetectorAgent._calculate_charges self input = Success cr ->
  0 <= ArbitrageDetectorAgent.total_fees_usd
         (ArbitrageDetectorAgent.cr_charges cr).
Proof.
  intros Ha Hfees Hapt Hgas Hcr.
  destruct (calculate_charges_nonzero self input)
    as (r & ff & tf & Hres & Hc & _ & _ & _ & _ & _ & _ & Htot & _).
  { intros Hz. rewrite Hz in Ha. discriminate. }
  rewrite Hc in Hcr. injection Hcr as <-.
  destruct (resolve_dex_fees_returns (Request.fees input)
              (ArbitrageDetectorAgent.from_dex (Request.route input))
              (ArbitrageDetectorAgent.to_dex (Request.route input)))
    as (ff' & tf' & Hres' & Hinf & Hint).
  rewrite Hres in Hres'. injection Hres' as <- <-.
  pose proof (resolved_fee_nonneg _ _ Hfees Hinf) as Hf0.
  pose proof (resolved_fee_nonneg _ _ Hfees Hint) as Ht0.
  rewrite Htot. apply round_nonneg. unfold Cost.total.
  pose proof (trading_fees_nonneg (Request.amount input) ff tf
                (Qlt_le_weak _ _ Ha) Hf0 Ht0).
  pose proof (gas_usd_nonneg self Hgas Hapt).
  pose proof (slippage_cost_nonneg (Request.amount input)
                (Qlt_le_weak _ _ Ha)).
  lra.
Qed.

(** With non-negative total cost the margin cannot exceed the spread. *)
Lemma margin_at_most_spread
    (self : ArbitrageDetectorAgent.agent)
    (input : ArbitrageDetectorAgent.input_data)
    (c : ArbitrageDetectorAgent.Charges) :
  (0 < Request.amount input ->
   0 <= ArbitrageDetectorAgent.total_fees_usd c) ->
  0 <= request_spread self input ->
  request_margin self input c <= request_spread self input.
Proof.
  intros Hcost Hspread. unfold request_margin.
  case_gtb (Request.amount input) 0; [|exact Hspread].
  specialize (Hcost E). unfold request_net.
  set (a := Request.amount input) in *.
  set (s := request_spread self input) in *.
  set (T := ArbitrageDetectorAgent.total_fees_usd c) in *.
  assert (Hq : 0 <= T / a) by (apply Qle_shift_div_l; lra).
  assert (Heq : (a * (s / 100) - T) / a * 100 == s - T / a * 100)
    by (field; lra).
  rewrite Heq. lra.
Qed.

(** X30. A verdict that the evaluator returns for a request of the
    profitability endpoint is never of LOW risk, given positive prices, a
    non-negative gas unit price and non-negative fees: the spread of such
    a request is at most 0.6 percent and the margin cannot exceed it.  When
    the fee schedule names no DEX the spread is exactly 0.05 percent, so
    the recommendation is SKIP and the risk VERY_HIGH, whatever the
    amount and the fees. *)
Theorem endpoint_verdicts_are_cautious
    (self : ArbitrageDetectorAgent.agent) (from_token to_token : string)
    (trade_amount : Q) (dex_fees : option (Py.dict Q))
    (r : ArbitrageDetectorAgent.ProfitResult) :
  let input :=
    App.isprofitable_input from_token to_token trade_amount dex_fees in
  Spec.positive_prices (ArbitrageDetectorAgent.current_prices self) ->
  (0 <= ArbitrageDetectorAgent._cached_gas_price self)%Z ->
  Forall (fun fee => 0 <= fee) (Py.values (default [] dex_fees)) ->
  ArbitrageDetectorAgent._check_profitability self input = Success r ->
  ArbitrageDetectorAgent.pr_risk_level r <> LOW
  /\ (ArbitrageDetectorAgent.specific_dex_names (default [] dex_fees) = [] ->
      request_spread self input == 0.05
      /\ ArbitrageDetectorAgent.pr_recommendation r = SKIP
      /\ ArbitrageDetectorAgent.pr_risk_level r = VERY_HIGH).
Proof.
  intros input Hpos Hgas Hfees Hr.
  destruct (check_profitability_inv self input r Hr) as [Hnz Hns].
  destruct (check_profitability_success self input Hnz Hns)
    as (r' & cr & Hr' & Hc & _ & _ & _ & _ & _ & _ & _ & Hrec & Hrisk).
  rewrite Hr in Hr'. injection Hr' as <-.
  destruct (endpoint_spread_range self from_token to_token trade_amount
              dex_fees Hpos) as [Hs | (Hlo & Hhi & Hzero)];
    [contradiction|].
  fold input in Hlo, Hhi, Hzero.
  assert (Hmargin : request_margin self input
                      (ArbitrageDetectorAgent.cr_charges cr)
                    <= request_spread self input).
  { apply margin_at_most_spread; [|lra].
    intros Ha. apply (total_fees_nonneg self input cr Ha); try assumption.
    destruct Hpos as [Hapt _]. apply Qlt_le_weak, Hapt. }
  set (m := request_margin self input (ArbitrageDetectorAgent.cr_charges cr))
    in *.
  split.
  - rewrite Hrisk. unfold ArbitrageDetectorAgent._assess_risk_level.
    rewrite (proj2 (gtb_false m 1.0)) by lra. cbn [andb].
    destruct (Py.gtb m 0.5 && Py.ltb (Request.amount input) 50000);
      [discriminate|].
    destruct (Py.gtb m 0.2); discriminate.
  - intros Hspec.
    destruct (unnamed_route_is_generic input eq_refl eq_refl Hspec)
      as [Hfd Htd].
    assert (Hs : request_spread self input == 0.05).
    { apply Hzero. rewrite Hfd, Htd. reflexivity. }
    split; [exact Hs|]. split.
    + rewrite Hrec. rewrite (proj2 (gtb_false m 0.5)) by lra.
      rewrite andb_false_r. reflexivity.
    + rewrite Hrisk. unfold ArbitrageDetectorAgent._assess_risk_level.
      rewrite (proj2 (gtb_false m 1.0)) by lra.
      rewrite (proj2 (gtb_false m 0.5)) by lra.
      rewrite (proj2 (gtb_false m 0.2)) by lra. reflexivity.
Qed.

(** 1,000 USD from usdc to usdt at the initial prices, without fees. *)
Lemma endpoint_verdicts_are_cautious_witness :
  exists r,
    ArbitrageDetectorAgent._check_profitability ArbitrageDetectorAgent.init
      (App.isprofitable_input "usdc" "usdt" 1000 None) = Success r
    /\ ArbitrageDetectorAgent.pr_recommendation r = SKIP
    /\ ArbitrageDetectorAgent.pr_risk_level r = VERY_HIGH.
Proof.
  eexists. split; [vm_compute; reflexivity|].
  apply (endpoint_verdicts_are_cautious ArbitrageDetectorAgent.init
           "usdc" "usdt" 1000 None).
  - repeat split.
  - discriminate.
  - constructor.
  - vm_compute. reflexivity.
  - reflexivity.
Defined.
